(** * Stayclever: booking lifecycle and room display status

    A shallow embedding of the booking flow of the hotel front-end:
    the stay-length and price calculator, booking creation and checkout
    of the guests page (Guests component), and the date-derived display
    status of the rooms page (Rooms component, file pages/Register.tsx).

    Modelling conventions.
    - Text is [string], the UTF-8 bytes of the JavaScript string; nullable
      columns are [option].
    - Time values (what [Date.prototype.getTime] returns) are integers of
      milliseconds since the epoch, [None] standing for NaN (Invalid Date).
    - Money amounts are whole rupiah, kept in [Z]: prices are typed into a
      number input with the default step of 1.  They are JavaScript
      numbers, so a sum, difference or product is the exact integer
      rounded to the nearest double ([Js.double]); magnitudes past the
      largest finite double are not modelled.
    - The hosted backend is a record of tables.  A request is either
      accepted, and then applied, or rejected with an error, and then leaves
      the tables as they were; which of the two happens is read from a script
      of verdicts carried by the world.
    - Asynchronous functions are state-passing functions on the world that
      either return or throw a JavaScript value.  A handler runs to its end
      in one go: the time that requests and the pause before a retry take is
      not counted, the clock moves and timers fire between handlers only. *)

From Stdlib Require Import ZArith QArith Qround Lia Ascii String DecimalString.
From stdpp Require Import base option list strings gmap.

Local Open Scope string_scope.
Local Open Scope list_scope.
Local Open Scope Z_scope.

(** ** JavaScript values used by the pages *)

Module Js.

(** Truthiness of a string: only the empty string is falsy. *)
Definition truthy (s : string) : bool :=
  match s with EmptyString => false | String _ _ => true end.

(** A white-space character of one byte: tab, line feed, vertical tab,
    form feed, carriage return, space. *)
Definition is_space (c : ascii) : bool :=
  match nat_of_ascii c with
  | 9%nat | 10%nat | 11%nat | 12%nat | 13%nat | 32%nat => true
  | _ => false
  end.

Definition byte_is (c : ascii) (n : nat) : bool := (nat_of_ascii c =? n)%nat.

(** A white-space character of two bytes: U+00A0. *)
Definition is_space2 (a b : ascii) : bool := byte_is a 194 && byte_is b 160.

(** A white-space character of three bytes: U+1680, U+2000 to U+200A,
    U+2028, U+2029, U+202F, U+205F, U+3000, U+FEFF. *)
Definition is_space3 (a b c : ascii) : bool :=
  (byte_is a 225 && byte_is b 154 && byte_is c 128)
  || (byte_is a 226 && byte_is b 128
      && (((128 <=? nat_of_ascii c) && (nat_of_ascii c <=? 138))%nat
          || byte_is c 168 || byte_is c 169 || byte_is c 175))
  || (byte_is a 226 && byte_is b 129 && byte_is c 159)
  || (byte_is a 227 && byte_is b 128 && byte_is c 128)
  || (byte_is a 239 && byte_is b 187 && byte_is c 191).

Fixpoint trimStart (s : string) : string :=
  match s with
  | String a s1 =>
      if is_space a then trimStart s1
      else
        match s1 with
        | String b s2 =>
            if is_space2 a b then trimStart s2
            else
              match s2 with
              | String c s3 => if is_space3 a b c then trimStart s3 else s
              | EmptyString => s
              end
        | EmptyString => s
        end
  | EmptyString => EmptyString
  end.

(** What is left of [s] is white space only exactly when [trimStart] leaves
    nothing of it. *)
Fixpoint trimEnd (s : string) : string :=
  match s with
  | String c s' =>
      match trimStart s with
      | EmptyString => EmptyString
      | String _ _ => String c (trimEnd s')
      end
  | EmptyString => EmptyString
  end.

(** [String.prototype.trim]: white space and line terminators of ECMAScript
    are taken off both ends. *)
Definition trim (s : string) : string := trimEnd (trimStart s).

(** The double nearest to the integer [x], ties to even: every integer up
    to 2^53 in magnitude is a double; past that, doubles are 2^e apart where
    2^(52+e) <= |x| < 2^(53+e). *)
Definition double (x : Z) : Z :=
  let a := Z.abs x in
  if a <=? 2 ^ 53 then x
  else
    let e := Z.log2 a - 52 in
    let q := a / 2 ^ e in
    let r := a mod 2 ^ e in
    let half := 2 ^ (e - 1) in
    let q' :=
      if r <? half then q
      else if half <? r then q + 1
      else if Z.even q then q else q + 1 in
    Z.sgn x * (q' * 2 ^ e).

(** [a + b], [a - b] and [a * b] on numbers that hold integers. *)
Definition add (a b : Z) : Z := double (a + b).
Definition sub (a b : Z) : Z := double (a - b).
Definition mul (a b : Z) : Z := double (a * b).

(** The message of the TypeError that reading a property of [null] throws
    (the wording of V8; other engines word it differently). *)
Definition null_property_message (property : string) : string :=
  "Cannot read properties of null (reading '" +:+ property +:+ "')".

End Js.

(** ** Dates

    The date strings of the application come from [<input type="date">]
    and from [date] columns, so they are either empty or of the date-only
    form [YYYY-MM-DD] of the ECMAScript date-time string format, which
    [new Date(s)] reads as midnight UTC of that day.  Any other string is
    taken to give an Invalid Date. *)

Module JsDate.

Definition msPerDay : Z := 1000 * 60 * 60 * 24.

Definition digit (c : ascii) : option Z :=
  let n := Z.of_nat (nat_of_ascii c) in
  if (48 <=? n) && (n <=? 57) then Some (n - 48) else None.

Definition is_dash (c : ascii) : bool := (nat_of_ascii c =? 45)%nat.

(** The three numeric fields of [YYYY-MM-DD]. *)
Definition parse_ymd (s : string) : option (Z * Z * Z) :=
  match s with
  | String y1 (String y2 (String y3 (String y4 (String d1
      (String m1 (String m2 (String d2
        (String a1 (String a2 EmptyString))))))))) =>
      if is_dash d1 && is_dash d2 then
        match digit y1, digit y2, digit y3, digit y4 with
        | Some p, Some q, Some r, Some t =>
            match digit m1, digit m2, digit a1, digit a2 with
            | Some u, Some v, Some x, Some w =>
                Some (1000 * p + 100 * q + 10 * r + t, 10 * u + v, 10 * x + w)
            | _, _, _, _ => None
            end
        | _, _, _, _ => None
        end
      else None
  | _ => None
  end.

Definition isLeapYear (y : Z) : bool :=
  ((y mod 4 =? 0) && negb (y mod 100 =? 0)) || (y mod 400 =? 0).

Definition daysInMonth (y m : Z) : Z :=
  if m =? 2 then (if isLeapYear y then 29 else 28)
  else if (m =? 4) || (m =? 6) || (m =? 9) || (m =? 11) then 30
  else 31.

(** Day number of the first of January of year [y] (ECMAScript DayFromYear). *)
Definition DayFromYear (y : Z) : Z :=
  365 * (y - 1970) + (y - 1969) / 4 - (y - 1901) / 100 + (y - 1601) / 400.

(** Days of year [y] that precede month [m], by summing the month lengths. *)
Definition daysBeforeMonth (y m : Z) : Z :=
  fold_left (fun acc k => acc + daysInMonth y (Z.of_nat k))
            (seq 1 (Z.to_nat (m - 1))) 0.

Definition MakeDay (y m d : Z) : Z :=
  DayFromYear y + daysBeforeMonth y m + (d - 1).

(** The day number of a date-only string, when it names a calendar day. *)
Definition parse_day (s : string) : option Z :=
  match parse_ymd s with
  | Some (y, m, d) =>
      if (1 <=? m) && (m <=? 12) && (1 <=? d) && (d <=? daysInMonth y m)
      then Some (MakeDay y m d)
      else None
  | None => None
  end.

(** [new Date(s).getTime()]: the time value, [None] for NaN. *)
Definition getTime (s : string) : option Z :=
  match parse_day s with
  | Some day => Some (day * msPerDay)
  | None => None
  end.

(** [d.setHours(0, 0, 0, 0)] followed by reading the time value: midnight,
    local time, of the local day that contains [t].  [tza] is the offset of
    local time from UTC in milliseconds. *)
Definition setHours0 (tza : Z) (t : Z) : Z :=
  ((t + tza) / msPerDay) * msPerDay - tza.

End JsDate.

(** ** Stay length and price (Guests component) *)

Module Calculator.

Import JsDate.

(** [(checkOut.getTime() - checkIn.getTime()) / (1000 * 60 * 60 * 24)],
    an exact quotient; [None] is NaN. *)
Definition diff (checkInDate checkOutDate : string) : option Q :=
  match getTime checkOutDate, getTime checkInDate with
  | Some b, Some a => Some (inject_Z (b - a) / inject_Z msPerDay)%Q
  | _, _ => None
  end.

(** The [nights] memo of the Guests component. *)
Definition nights (checkInDate checkOutDate : string) : Z :=
  if negb (Js.truthy checkInDate) || negb (Js.truthy checkOutDate) then 0
  else
    match diff checkInDate checkOutDate with
    | Some q => if Qlt_le_dec 0 q then Qceiling q else 0
    | None => 0
    end.

(** The difference of two time values in days, as an exact quotient. *)
Definition days_between (t1 t2 : Z) : Q :=
  (inject_Z (t2 - t1) / inject_Z msPerDay)%Q.

End Calculator.

(** ** Data model (types/app.ts and the column types of the schema) *)

Inductive RoomStatus := available | occupied | cleaning | reserved.
Inductive BookingStatus := reservation | checked_in | checked_out.
Inductive PaymentStatus := paid | unpaid.
Inductive TransactionType := income | expense.

#[global] Instance RoomStatus_eq_dec : EqDecision RoomStatus.
Proof. solve_decision. Defined.
#[global] Instance BookingStatus_eq_dec : EqDecision BookingStatus.
Proof. solve_decision. Defined.
#[global] Instance PaymentStatus_eq_dec : EqDecision PaymentStatus.
Proof. solve_decision. Defined.
#[global] Instance TransactionType_eq_dec : EqDecision TransactionType.
Proof. solve_decision. Defined.

(** Row of table [rooms]. *)
Record RoomRow := mkRoomRow {
  room_id_col : string;
  room_number : string;
  room_type_id : option string;
  room_price : Z;
  room_status : RoomStatus;
  room_reservation_date : option string;
  room_check_out_date : option string;
}.

(** Row of table [guests] (a booking). *)
Record GuestRow := mkGuestRow {
  guest_id : string;
  guest_name : string;
  guest_phone : string;
  guest_email : string;
  check_in : string;
  check_out : string;
  room_id : option string;
  guest_nights : Z;
  price_per_night : Z;
  total_price : Z;
  payment_method : string;
  payment_status : PaymentStatus;
  booking_status : BookingStatus;
  received_by : option string;
}.

(** Row of table [transactions]. *)
Record TransactionRow := mkTransactionRow {
  tx_id : string;
  tx_type : TransactionType;
  tx_amount : Z;
  tx_category : string;
  tx_description : string;
  tx_date : string;
}.

(** Row of table [user_activities]. *)
Record ActivityRow := mkActivityRow {
  activity_id : string;
  activity_user_id : string;
  activity_message : string;
}.

(** ** The hosted backend *)

Module Supabase.

(** The error object of a rejected request. *)
Record PostgrestError := mkPostgrestError { pg_message : string }.

Record Backend := mkBackend {
  guests : list GuestRow;
  rooms : list RoomRow;
  transactions : list TransactionRow;
  user_activities : list ActivityRow;
  uuid_seq : N;
}.

(** Column default [gen_random_uuid()]: a fresh identifier per inserted row. *)
Definition gen_random_uuid (n : N) : string :=
  "uuid-" +:+ NilZero.string_of_uint (N.to_uint n).
#[global] Arguments gen_random_uuid : simpl never.

(** The object passed to [from("rooms").update(...)]: a column that is [None]
    is left out of the update; the date columns can be set to [null]. *)
Record RoomUpdate := mkRoomUpdate {
  upd_status : option RoomStatus;
  upd_reservation_date : option (option string);
  upd_check_out_date : option (option string);
}.

Definition apply_room_update (u : RoomUpdate) (r : RoomRow) : RoomRow :=
  {| room_id_col := room_id_col r;
     room_number := room_number r;
     room_type_id := room_type_id r;
     room_price := room_price r;
     room_status := default (room_status r) (upd_status u);
     room_reservation_date := default (room_reservation_date r) (upd_reservation_date u);
     room_check_out_date := default (room_check_out_date r) (upd_check_out_date u) |}.

Definition set_booking_status (s : BookingStatus) (g : GuestRow) : GuestRow :=
  {| guest_id := guest_id g; guest_name := guest_name g;
     guest_phone := guest_phone g; guest_email := guest_email g;
     check_in := check_in g; check_out := check_out g; room_id := room_id g;
     guest_nights := guest_nights g; price_per_night := price_per_night g;
     total_price := total_price g; payment_method := payment_method g;
     payment_status := payment_status g; booking_status := s;
     received_by := received_by g |}.

(** The requests the booking flow sends.  Inserted rows get their [id]
    from the backend, so the insert requests carry the row up to its id.
    [Select] is a read of a table that is not among the modelled ones. *)
Inductive Request :=
  | InsertGuest (row : string -> GuestRow)
  | UpdateRoom (u : RoomUpdate) (id : string)
  | UpdateGuestStatus (s : BookingStatus) (id : string)
  | InsertTransaction (row : string -> TransactionRow)
  | InsertActivity (row : string -> ActivityRow)
  | Select (table : string).

Definition bump (b : Backend) : N := N.succ (uuid_seq b).

(** What an accepted request does to the tables.  An update with
    [.eq("id", id)] rewrites every row whose id is [id]. *)
Definition apply (r : Request) (b : Backend) : Backend :=
  match r with
  | InsertGuest row =>
      mkBackend (guests b ++ [row (gen_random_uuid (uuid_seq b))])
                (rooms b) (transactions b) (user_activities b) (bump b)
  | UpdateRoom u id =>
      mkBackend (guests b)
                (map (fun r => if decide (room_id_col r = id)
                               then apply_room_update u r else r) (rooms b))
                (transactions b) (user_activities b) (uuid_seq b)
  | UpdateGuestStatus s id =>
      mkBackend (map (fun g => if decide (guest_id g = id)
                               then set_booking_status s g else g) (guests b))
                (rooms b) (transactions b) (user_activities b) (uuid_seq b)
  | InsertTransaction row =>
      mkBackend (guests b) (rooms b)
                (transactions b ++ [row (gen_random_uuid (uuid_seq b))])
                (user_activities b) (bump b)
  | InsertActivity row =>
      mkBackend (guests b) (rooms b) (transactions b)
                (user_activities b ++ [row (gen_random_uuid (uuid_seq b))])
                (bump b)
  | Select _ => b
  end.

End Supabase.

(** ** The world the handlers run in *)

Module Runtime.

Import Supabase.

(** Values that the code throws and catches. *)
Inductive JsValue :=
  | JsNull
  | JsPostgrestError (e : PostgrestError)
  | JsError (message : string).

(** The value of a variable that holds the [error] field of a response. *)
Definition js_of_error (error : option PostgrestError) : JsValue :=
  match error with Some e => JsPostgrestError e | None => JsNull end.

(** [error instanceof Error ? error.message : fallback]: the [error] field
    of a response is a plain object, not an instance of [Error]. *)
Definition message_or (fallback : string) (error : JsValue) : string :=
  match error with
  | JsNull => fallback
  | JsPostgrestError _ => fallback
  | JsError m => m
  end.

Inductive ToastKind := toast_error | toast_warning | toast_success.
Record Toast := mkToast { toast_kind : ToastKind; toast_text : string }.

(** The closures handed to [setTimeout], one constructor per closure. *)
Inductive TimerCallback :=
  | ResetRoom (roomId : string).

Record Timer := mkTimer { due : Z; callback : TimerCallback }.

(** An entry of the query-cache invalidation log. *)
Record Invalidation := mkInvalidation { queryKey : list string; exact : bool }.

Record World := mkWorld {
  backend : Backend;
  verdicts : list (option PostgrestError);
  now : Z;
  timers : list Timer;
  toasts : list Toast;
  console : list string;
  invalidated : list Invalidation;
}.

Inductive Outcome (A : Type) :=
  | Returned (a : A)
  | Thrown (v : JsValue).
Arguments Returned {A} a.
Arguments Thrown {A} v.

(** An asynchronous computation, run to completion. *)
Definition Async (A : Type) : Type := World -> Outcome A * World.

#[global] Instance Async_ret : MRet Async := fun A a w => (Returned a, w).
#[global] Instance Async_bind : MBind Async := fun A B k c w =>
  match c w with
  | (Returned a, w') => k a w'
  | (Thrown v, w') => (Thrown v, w')
  end.

Definition throw {A} (v : JsValue) : Async A := fun w => (Thrown v, w).

(** [try { body } catch (error) { handler(error) }] *)
Definition try_catch {A} (body : Async A) (handler : JsValue -> Async A) : Async A :=
  fun w =>
    match body w with
    | (Returned a, w') => (Returned a, w')
    | (Thrown v, w') => handler v w'
    end.

(** One request sent to the backend; the result is the [error] field of the
    response.  The head of the verdict script decides; an exhausted script
    accepts. *)
Definition request (r : Request) : Async (option PostgrestError) := fun w =>
  match verdicts w with
  | Some e :: vs =>
      (Returned (Some e),
       mkWorld (backend w) vs (now w) (timers w) (toasts w) (console w) (invalidated w))
  | None :: vs =>
      (Returned None,
       mkWorld (apply r (backend w)) vs (now w) (timers w) (toasts w) (console w)
               (invalidated w))
  | [] =>
      (Returned None,
       mkWorld (apply r (backend w)) [] (now w) (timers w) (toasts w) (console w)
               (invalidated w))
  end.

Definition toast (k : ToastKind) (text : string) : Async unit := fun w =>
  (Returned tt,
   mkWorld (backend w) (verdicts w) (now w) (timers w)
           (toasts w ++ [mkToast k text]) (console w) (invalidated w)).

Definition console_error (text : string) : Async unit := fun w =>
  (Returned tt,
   mkWorld (backend w) (verdicts w) (now w) (timers w) (toasts w)
           (console w ++ [text]) (invalidated w)).

Definition invalidateQueries (key : list string) (ex : bool) : Async unit := fun w =>
  (Returned tt,
   mkWorld (backend w) (verdicts w) (now w) (timers w) (toasts w) (console w)
           (invalidated w ++ [mkInvalidation key ex])).

(** [setTimeout(cb, delay)] *)
Definition setTimeout (cb : TimerCallback) (delay : Z) : Async unit := fun w =>
  (Returned tt,
   mkWorld (backend w) (verdicts w) (now w)
           (timers w ++ [mkTimer (now w + delay) cb])
           (toasts w) (console w) (invalidated w)).

Fixpoint forEach {A} (f : A -> Async unit) (l : list A) : Async unit :=
  match l with
  | [] => mret tt
  | x :: l' => f x ;; forEach f l'
  end.

(** [defaultOptions.mutations.retry] of the query client (App.tsx). *)
Definition MUTATION_RETRY : nat := 1.

(** A mutation function under the retry option: an attempt that throws is
    made again, from the world it left, while retries remain; the error of
    the last attempt is the one that is thrown. *)
Fixpoint with_retry {A} (retries : nat) (attempt : Async A) : Async A :=
  fun w =>
    match attempt w with
    | (Returned a, w') => (Returned a, w')
    | (Thrown v, w') =>
        match retries with
        | O => (Thrown v, w')
        | S retries' => with_retry retries' attempt w'
        end
    end.

(** [useMutation({ mutationFn, onSuccess })] followed by
    [mutateAsync(variables)]: [onSuccess] runs only when an attempt
    returned. *)
Definition useMutation {V} (mutationFn : V -> Async unit)
    (onSuccess : Async unit) (variables : V) : Async unit :=
  with_retry MUTATION_RETRY (mutationFn variables) ;;
  onSuccess.

(** [useSupabaseMutation(mutationFn, { onSuccess, invalidateQueries })]
    followed by [mutateAsync(variables)] (hooks/useSupabaseQuery): the
    listed keys are invalidated, then [onSuccess] runs. *)
Definition mutateAsync {V} (mutationFn : V -> Async unit)
    (keys : list string) (onSuccess : Async unit) (variables : V) : Async unit :=
  useMutation mutationFn
    (forEach (fun key => invalidateQueries [key] false) keys ;; onSuccess)
    variables.

(** Between [w] and [w'] no request reached the backend and no timer was
    set: the tables, the verdict script and the pending timers are the same. *)
Definition no_write (w w' : World) : Prop :=
  backend w' = backend w /\ verdicts w' = verdicts w /\
  timers w' = timers w /\ now w' = now w.

(** [w'] differs from [w] at most in the invalidation log of the query cache. *)
Definition cache_eq (w w' : World) : Prop :=
  backend w' = backend w /\ verdicts w' = verdicts w /\ now w' = now w /\
  timers w' = timers w /\ toasts w' = toasts w /\ console w' = console w.

(** A computation that returns and touches the query cache only. *)
Definition cache_only (c : Async unit) : Prop :=
  forall w, exists w', c w = (Returned tt, w') /\ cache_eq w w'.

(** The verdict that the next request will get. *)
Definition next_verdict (w : World) : option PostgrestError := hd None (verdicts w).

End Runtime.

(** ** The guests page (Guests component) *)

Module Guests.

Import Supabase Runtime.

Definition ROOMS_QUERY_KEY : list string := ["rooms"; "booking"].
Definition GUESTS_QUERY_KEY : list string := ["guests"].
Definition TRANSACTIONS_QUERY_KEY : list string := ["transactions"].

Record RoomOption := mkRoomOption {
  id : string;
  number : string;
  price : Z;
  status : RoomStatus;
  typeId : string;
  typeName : string;
}.

Record GuestItem := mkGuestItem {
  item_id : string;
  item_name : string;
  checkIn : string;
  checkOut : string;
  bookingStatus : BookingStatus;
  roomId : option string;
  roomNumber : string;
}.

Inductive Role := owner | manager | staff.

(** The signed-in user of the auth context. *)
Record PublicUser := mkPublicUser { user_id : string; user_role : Role }.

(** The state of the component that the two handlers read. *)
Record State := mkState {
  rooms_list : list RoomOption;
  guests_list : list GuestItem;
  isDialogOpen : bool;
  selectedRoomTypeId : string;
  selectedRoomId : string;
  checkInDate : string;
  checkOutDate : string;
  currentUser : option PublicUser;
}.

(** The fields of the booking form that are read through [FormData]. *)
Record FormData := mkFormData {
  form_name : string;
  form_phone : string;
  form_email : string;
  form_bookingStatus : BookingStatus;
  form_paymentMethod : string;
  form_paymentStatus : PaymentStatus;
}.

Definition selectedRoom (st : State) : option RoomOption :=
  if negb (Js.truthy (selectedRoomId st)) then None
  else find (fun room => bool_decide (id room = selectedRoomId st)) (rooms_list st).

Definition nights (st : State) : Z :=
  Calculator.nights (checkInDate st) (checkOutDate st).

(** The [calculatedPrice] memo. *)
Definition calculatedPrice (st : State) : Z :=
  match selectedRoom st with
  | None => 0
  | Some room => if nights st =? 0 then 0 else Js.mul (price room) (nights st)
  end.

Record AddGuestPayload := mkAddGuestPayload {
  p_name : string;
  p_phone : string;
  p_email : string;
  p_checkIn : string;
  p_checkOut : string;
  p_nights : Z;
  p_bookingStatus : BookingStatus;
  p_paymentMethod : string;
  p_paymentStatus : PaymentStatus;
  p_roomId : string;
  p_roomNumber : string;
  p_roomTypeName : string;
  p_pricePerNight : Z;
  p_totalPrice : Z;
  p_receivedBy : option string;
}.

Definition guest_row_of (payload : AddGuestPayload) (new_id : string) : GuestRow :=
  {| guest_id := new_id;
     guest_name := p_name payload;
     guest_phone := p_phone payload;
     guest_email := p_email payload;
     check_in := p_checkIn payload;
     check_out := p_checkOut payload;
     room_id := Some (p_roomId payload);
     guest_nights := p_nights payload;
     price_per_night := p_pricePerNight payload;
     total_price := p_totalPrice payload;
     payment_method := p_paymentMethod payload;
     payment_status := p_paymentStatus payload;
     booking_status := p_bookingStatus payload;
     received_by := p_receivedBy payload |}.

Definition roomUpdates (payload : AddGuestPayload) : RoomUpdate :=
  {| upd_status :=
       match p_bookingStatus payload with
       | checked_in => Some occupied
       | reservation => Some reserved
       | checked_out => None
       end;
     upd_reservation_date := Some (Some (p_checkIn payload));
     upd_check_out_date := Some (Some (p_checkOut payload)) |}.

Definition shouldCreateTransaction (payload : AddGuestPayload) : bool :=
  bool_decide (p_bookingStatus payload = checked_in) && (0 <? p_totalPrice payload).

Definition income_row_of (payload : AddGuestPayload) (new_id : string) : TransactionRow :=
  {| tx_id := new_id;
     tx_type := income;
     tx_amount := p_totalPrice payload;
     tx_category := "Kamar";
     tx_description :=
       "Pembayaran kamar " +:+ p_roomTypeName payload +:+ " • Kamar "
         +:+ p_roomNumber payload;
     tx_date := p_checkIn payload |}.

(** The mutation function of [addGuestMutation]. *)
Definition addGuest_mutationFn (payload : AddGuestPayload) : Async unit :=
  error ← request (InsertGuest (guest_row_of payload));
  match error with
  | Some e => throw (JsPostgrestError e)
  | None =>
      roomError ← request (UpdateRoom (roomUpdates payload) (p_roomId payload));
      match roomError with
      | Some e => throw (JsPostgrestError e)
      | None =>
          if shouldCreateTransaction payload then
            txError ← request (InsertTransaction (income_row_of payload));
            match txError with
            | Some e => throw (JsPostgrestError e)
            | None => mret tt
            end
          else mret tt
      end
  end.

Definition addGuest_onSuccess : Async unit :=
  forEach (fun key => invalidateQueries key true)
    [ GUESTS_QUERY_KEY; ROOMS_QUERY_KEY; ["rooms"]; ["dashboard-metrics"];
      ["recent-guests"]; ["team-activities"]; ["reports"; "room-type-occupancy"];
      ["recent-transactions"]; ["reports"; "weekly-trend"];
      ["reports"; "monthly-summary"]; TRANSACTIONS_QUERY_KEY ].

Definition addGuestMutation : AddGuestPayload -> Async unit :=
  mutateAsync addGuest_mutationFn ["guests"; "rooms"; "transactions"] addGuest_onSuccess.

Record CheckoutPayload := mkCheckoutPayload {
  c_guestId : string;
  c_roomId : option string;
}.

(** The delay handed to [setTimeout] by the checkout, in milliseconds. *)
Definition CLEANING_DELAY : Z := 3000.

(** The mutation function of [checkoutMutation].  [if (!payload.roomId)
    return] covers [null] and the empty string.  When the room update is
    rejected the statement executed is [throw error], where [error] is the
    variable bound by the first request. *)
Definition checkout_mutationFn (payload : CheckoutPayload) : Async unit :=
  error ← request (UpdateGuestStatus checked_out (c_guestId payload));
  match error with
  | Some e => throw (JsPostgrestError e)
  | None =>
      match c_roomId payload with
      | Some roomId =>
          if negb (Js.truthy roomId) then mret tt
          else
            roomError ← request (UpdateRoom (mkRoomUpdate (Some cleaning) None None) roomId);
            match roomError with
            | Some _ => throw (js_of_error error)
            | None => setTimeout (ResetRoom roomId) CLEANING_DELAY
            end
      | None => mret tt
      end
  end.

Definition checkoutMutation : CheckoutPayload -> Async unit :=
  mutateAsync checkout_mutationFn ["guests"; "rooms"] (mret tt).

(** The object of the delayed update:
    [{ status: "available", reservation_date: null, check_out_date: null }]. *)
Definition release : RoomUpdate := mkRoomUpdate (Some available) (Some None) (Some None).

(** The body of the closure that the checkout hands to [setTimeout]. *)
Definition run_callback (cb : TimerCallback) : Async unit :=
  match cb with
  | ResetRoom roomId =>
      resetError ← request (UpdateRoom release roomId);
      match resetError with
      | None => invalidateQueries ROOMS_QUERY_KEY false ;; invalidateQueries ["rooms"] false
      | Some _ => mret tt
      end
  end.

(** Time passes by [dt] milliseconds: the timers that have come due are
    taken off the pending list and their callbacks run, oldest first.  A
    callback that throws is an unhandled rejection and stops nothing. *)
Definition advance (dt : Z) (w : World) : World :=
  let t := now w + dt in
  let ready := filter (fun tm => due tm <= t) (timers w) in
  let waiting := filter (fun tm => ~ due tm <= t) (timers w) in
  fold_left (fun w' tm => snd (run_callback (callback tm) w')) ready
    (mkWorld (backend w) (verdicts w) t waiting (toasts w) (console w) (invalidated w)).

(** [loadCurrentUser] and [loadAllUsers] of the auth context: one read of
    the profiles, whose rejection is thrown as an [Error]; what the read
    brings goes to the state of the auth context. *)
Definition loadCurrentUser (userId : string) : Async unit :=
  if negb (Js.truthy userId) then mret tt
  else
    error ← request (Select "profiles");
    match error with
    | Some e => throw (JsError (pg_message e))
    | None => mret tt
    end.

Definition loadAllUsers : Async unit :=
  error ← request (Select "profiles");
  match error with
  | Some e => throw (JsError (pg_message e))
  | None => mret tt
  end.

(** [recordActivity] of the auth context, for the signed-in user
    [contextUser]. *)
Definition recordActivity (contextUser : option PublicUser)
    (userId message : string) : Async unit :=
  let trimmed := Js.trim message in
  if negb (Js.truthy trimmed) then mret tt
  else
    error ← request (InsertActivity (fun new_id => mkActivityRow new_id userId trimmed));
    match error with
    | Some e => throw (JsError (pg_message e))
    | None =>
        match contextUser with
        | Some user =>
            if bool_decide (user_id user = userId) then loadCurrentUser userId
            else
              match user_role user with
              | owner => loadAllUsers
              | _ => mret tt
              end
        | None => mret tt
        end
    end.

Definition reset_form (st : State) : State :=
  mkState (rooms_list st) (guests_list st) false "" "" "" "" (currentUser st).

(** [handleAddGuest]: the new component state and the new world.  By the
    time the mutation has settled the event has left its dispatch and its
    [currentTarget] is [null], so [event.currentTarget.reset()] throws a
    TypeError, which the outer [catch] reports. *)
Definition handleAddGuest (form : FormData) (st : State) (w : World) : State * World :=
  if negb (Js.truthy (selectedRoomTypeId st)) then
    (st, snd (toast toast_error "Pilih tipe kamar terlebih dahulu." w))
  else
    match selectedRoom st with
    | None => (st, snd (toast toast_error "Pilih nomor kamar yang tersedia." w))
    | Some room =>
        if nights st <=? 0 then
          (st, snd (toast toast_error "Tanggal check out harus setelah check in." w))
        else
          let payload :=
            {| p_name := Js.trim (form_name form);
               p_phone := Js.trim (form_phone form);
               p_email := Js.trim (form_email form);
               p_checkIn := checkInDate st;
               p_checkOut := checkOutDate st;
               p_nights := nights st;
               p_bookingStatus := form_bookingStatus form;
               p_paymentMethod := form_paymentMethod form;
               p_paymentStatus := form_paymentStatus form;
               p_roomId := id room;
               p_roomNumber := number room;
               p_roomTypeName := typeName room;
               p_pricePerNight := price room;
               p_totalPrice := calculatedPrice st;
               p_receivedBy := user_id <$> currentUser st |} in
          match addGuestMutation payload w with
          | (Returned _, w1) =>
              let w2 :=
                match currentUser st with
                | Some user =>
                    let roomLabel := "Kamar " +:+ number room +:+ " • " +:+ typeName room in
                    snd (try_catch
                           (recordActivity (currentUser st) (user_id user)
                              ("Menerima tamu " +:+ p_name payload +:+ " ("
                                 +:+ (if bool_decide (p_bookingStatus payload = checked_in)
                                      then "check-in" else "reservasi")
                                 +:+ ") di " +:+ roomLabel +:+ "."))
                           (fun _ => console_error "Gagal mencatat aktivitas tamu") w1)
                | None => w1
                end in
              let w3 := snd (toast toast_success "Tamu berhasil ditambahkan!" w2) in
              (reset_form st,
               snd (toast toast_error
                      (message_or "Gagal menambahkan tamu."
                         (JsError (Js.null_property_message "reset"))) w3))
          | (Thrown error, w1) =>
              (st, snd (toast toast_error (message_or "Gagal menambahkan tamu." error) w1))
          end
    end.

(** [handleCheckout] *)
Definition handleCheckout (guestId : string) (st : State) (w : World) : World :=
  match find (fun item => bool_decide (item_id item = guestId)) (guests_list st) with
  | None => snd (toast toast_error "Data tamu tidak ditemukan." w)
  | Some guest =>
      if negb (bool_decide (bookingStatus guest = checked_in)) then
        snd (toast toast_warning "Tamu ini belum berstatus check-in." w)
      else
        match checkoutMutation (mkCheckoutPayload (item_id guest) (roomId guest)) w with
        | (Returned _, w1) =>
            snd (toast toast_success
                   ("Check-out berhasil. Kamar " +:+ roomNumber guest
                      +:+ " sedang dibersihkan.") w1)
        | (Thrown error, w1) =>
            snd (toast toast_error (message_or "Gagal melakukan check-out." error) w1)
        end
  end.

End Guests.

(** ** The rooms page (Rooms component, pages/Register.tsx) *)

Module Rooms.

Record Room := mkRoom {
  id : string;
  number : string;
  typeId : string;
  typeName : string;
  price : Z;
  status : RoomStatus;
  reservationDate : option string;
  checkOutDate : option string;
}.

Definition DisplayStatus := RoomStatus.

(** The columns of [guests] that the reservations query selects. *)
Record ReservationRow := mkReservationRow {
  res_id : string;
  res_name : string;
  res_room_id : option string;
  res_booking_status : BookingStatus;
  res_payment_status : PaymentStatus;
  res_check_in : string;
  res_check_out : string;
}.

Record ReservationSummary := mkReservationSummary {
  guestName : string;
  bookingStatus : BookingStatus;
  paymentStatus : PaymentStatus;
  checkIn : string;
  checkOut : string;
}.

Definition summary_of (reservation : ReservationRow) : ReservationSummary :=
  {| guestName := res_name reservation;
     bookingStatus := res_booking_status reservation;
     paymentStatus := res_payment_status reservation;
     checkIn := res_check_in reservation;
     checkOut := res_check_out reservation |}.

Section Component.

(** Offset of local time from UTC, in milliseconds. *)
Variable tza : Z.
(** Result of the reservations query ([None] while it has not loaded). *)
Variable reservationsData : option (list ReservationRow).
(** The day picked in the calendar ([None] is [undefined]). *)
Variable selectedDate : option Z.

(** [const d = new Date(s); d.setHours(0, 0, 0, 0)] *)
Definition midnight_of (s : string) : option Z :=
  JsDate.setHours0 tza <$> JsDate.getTime s.

(** [target >= checkIn && target <= checkOut]; a comparison with an
    Invalid Date is false. *)
Definition within (target : Z) (reservation : ReservationRow) : bool :=
  match midnight_of (res_check_in reservation),
        midnight_of (res_check_out reservation) with
  | Some checkIn, Some checkOut => (checkIn <=? target) && (target <=? checkOut)
  | _, _ => false
  end.

(** One iteration of the [forEach] of [reservationsByRoom]. *)
Definition file_reservation (target : Z)
    (map : gmap string (list ReservationSummary)) (reservation : ReservationRow)
    : gmap string (list ReservationSummary) :=
  match res_room_id reservation with
  | Some room_id =>
      if negb (Js.truthy room_id) || negb (Js.truthy (res_check_in reservation))
         || negb (Js.truthy (res_check_out reservation))
      then map
      else if within target reservation then
        let existing := default [] (map !! room_id) in
        <[room_id := existing ++ [summary_of reservation]]> map
      else map
  | None => map
  end.

(** The key under which an iteration files a row, when it files it. *)
Definition filed_under (target : Z) (reservation : ReservationRow) : option string :=
  match res_room_id reservation with
  | Some room_id =>
      if negb (Js.truthy room_id) || negb (Js.truthy (res_check_in reservation))
         || negb (Js.truthy (res_check_out reservation))
      then None
      else if within target reservation then Some room_id else None
  | None => None
  end.

(** The [reservationsByRoom] memo. *)
Definition reservationsByRoom : gmap string (list ReservationSummary) :=
  match reservationsData, selectedDate with
  | Some rows, Some date =>
      fold_left (file_reservation (JsDate.setHours0 tza date)) rows ∅
  | _, _ => ∅
  end.

(** [getDisplayStatus] *)
Definition getDisplayStatus (room : Room) : DisplayStatus :=
  if decide (status room = cleaning) then cleaning
  else
    match selectedDate with
    | None => status room
    | Some _ =>
        let todaysReservations := default [] (reservationsByRoom !! id room) in
        if (length todaysReservations =? 0)%nat then status room
        else
          let hasCheckedInGuest :=
            existsb (fun reservation =>
                       bool_decide (bookingStatus reservation = checked_in))
                    todaysReservations in
          if hasCheckedInGuest then occupied else reserved
    end.

End Component.

(** A booking overlaps the selected date for a room: it is a booking of
    that room and the date lies in its stay, both ends included, the three
    dates taken at midnight. *)
Definition overlaps (tza date : Z) (room : Room) (reservation : ReservationRow) : Prop :=
  res_room_id reservation = Some (id room) /\
  exists checkIn checkOut,
    midnight_of tza (res_check_in reservation) = Some checkIn /\
    midnight_of tza (res_check_out reservation) = Some checkOut /\
    checkIn <= JsDate.setHours0 tza date <= checkOut.

(** The same, as a test that can be run. *)
Definition overlapsb (tza date : Z) (room : Room) (reservation : ReservationRow) : bool :=
  bool_decide (res_room_id reservation = Some (id room))
  && within tza (JsDate.setHours0 tza date) reservation.

End Rooms.

(** ** A worked stay: room 101 at Rp 500,000 a night, 10 to 12 January 2024 *)

Module Scenario.

Import Supabase Runtime Guests.

Definition room101 : RoomRow :=
  mkRoomRow "room-101" "101" (Some "type-deluxe") 500000 available None None.

Definition room102 : RoomRow :=
  mkRoomRow "room-102" "102" (Some "type-deluxe") 650000 available None None.

Definition backend0 : Backend := mkBackend [] [room101; room102] [] [] 0.

(** A world in which every request is accepted. *)
Definition world0 : World := mkWorld backend0 [] 0 [] [] [] [].

Definition world_with (b : Backend) (script : list (option PostgrestError)) : World :=
  mkWorld b script 0 [] [] [] [].

Definition denied : PostgrestError :=
  mkPostgrestError "new row violates row-level security policy".

Definition option101 : RoomOption :=
  mkRoomOption "room-101" "101" 500000 available "type-deluxe" "Deluxe".

Definition staff1 : PublicUser := mkPublicUser "staff-1" staff.

(** A suite priced at the largest whole number below 2^53. *)
Definition suite901 : RoomOption :=
  mkRoomOption "room-901" "901" 9007199254740991 available "type-suite" "Suite".

(** Three nights in the suite. *)
Definition state_suite : State :=
  mkState [suite901] [] true "type-suite" "room-901" "2024-01-10" "2024-01-13" None.

Definition state0 : State :=
  mkState [option101] [] true "type-deluxe" "room-101" "2024-01-10" "2024-01-12"
          (Some staff1).

Definition form_of (s : BookingStatus) : FormData :=
  mkFormData "Budi" "0812" "budi@example.com" s "cash" paid.

Definition payload_of (s : BookingStatus) : AddGuestPayload :=
  {| p_name := "Budi"; p_phone := "0812"; p_email := "budi@example.com";
     p_checkIn := "2024-01-10"; p_checkOut := "2024-01-12"; p_nights := 2;
     p_bookingStatus := s; p_paymentMethod := "cash"; p_paymentStatus := paid;
     p_roomId := "room-101"; p_roomNumber := "101"; p_roomTypeName := "Deluxe";
     p_pricePerNight := 500000; p_totalPrice := 1000000;
     p_receivedBy := Some "staff-1" |}.

(** The booking of the stay as the guests page lists it. *)
Definition item_of (s : BookingStatus) : GuestItem :=
  mkGuestItem "uuid-0" "Budi" "2024-01-10" "2024-01-12" s (Some "room-101") "101".

Definition state_listing (s : BookingStatus) : State :=
  mkState [] [item_of s] false "" "" "" "" (Some staff1).

(** The tables once the stay has been booked with status [s] by staff
    member [staff-1], every request having been accepted. *)
Definition backend_booked (s : BookingStatus) : Backend :=
  let paid_in := bool_decide (s = checked_in) in
  {| guests := [guest_row_of (payload_of s) "uuid-0"];
     rooms :=
       [mkRoomRow "room-101" "101" (Some "type-deluxe") 500000
          (if paid_in then occupied else reserved)
          (Some "2024-01-10") (Some "2024-01-12");
        room102];
     transactions := if paid_in then [income_row_of (payload_of s) "uuid-1"] else [];
     user_activities :=
       [mkActivityRow (if paid_in then "uuid-2" else "uuid-1") "staff-1"
          ("Menerima tamu Budi (" +:+ (if paid_in then "check-in" else "reservasi")
             +:+ ") di Kamar 101 • Deluxe.")];
     uuid_seq := if paid_in then 3%N else 2%N |}.

End Scenario.

(** ** Room 101 on the rooms page, local time seven hours ahead of UTC *)

Module RoomsScenario.

Import Rooms.

(** Offset of Western Indonesian Time, in milliseconds. *)
Definition WIB : Z := 7 * 60 * 60 * 1000.

(** Midnight, local time, of 11 January 2024. *)
Definition jan11 : Z := 1704931200000 - WIB.

(** Midnight, local time, of 20 January 2024. *)
Definition jan20 : Z := 1705708800000 - WIB.

Definition room101 (s : RoomStatus) : Room :=
  mkRoom "room-101" "101" "type-deluxe" "Deluxe" 500000 s None None.

Definition stay (guest first last : string) (s : BookingStatus) : ReservationRow :=
  mkReservationRow guest guest (Some "room-101") s paid first last.

Definition budi : ReservationRow := stay "Budi" "2024-01-10" "2024-01-12" checked_in.
Definition sari : ReservationRow := stay "Sari" "2024-01-11" "2024-01-13" reservation.
Definition made : ReservationRow := stay "Made" "2024-01-05" "2024-01-11" checked_out.

End RoomsScenario.

(** ** The finances page (Finances component) *)

Module Finances.

Import Supabase Runtime.

Definition TRANSACTIONS_QUERY_KEY : list string := ["transactions"].

(** The accumulator of the [totals] memo, [{ income, expense }]. *)
Record Totals := mkTotals { acc_income : Z; acc_expense : Z }.

(** The amount of a row as the [transactions] memo holds it,
    [Number(transaction.amount)]. *)
Definition amount_of (transaction : TransactionRow) : Z :=
  Js.double (tx_amount transaction).

(** The [totals] memo: a [reduce] over the transactions. *)
Definition totals (transactions : list TransactionRow) : Totals :=
  fold_left
    (fun acc transaction =>
       if decide (tx_type transaction = income)
       then mkTotals (Js.add (acc_income acc) (amount_of transaction)) (acc_expense acc)
       else mkTotals (acc_income acc) (Js.add (acc_expense acc) (amount_of transaction)))
    transactions (mkTotals 0 0).

Definition balance (transactions : list TransactionRow) : Z :=
  Js.sub (acc_income (totals transactions)) (acc_expense (totals transactions)).

(** The exact sum of the amounts of the rows of type [ty]. *)
Definition amount_sum (ty : TransactionType) (transactions : list TransactionRow) : Z :=
  fold_right
    (fun transaction sum =>
       if decide (tx_type transaction = ty) then tx_amount transaction + sum else sum)
    0 transactions.

(** The amounts of the rows are not negative and add up, type by type, to at
    most 2^53: no sum over them is rounded. *)
Definition exactly_summable (transactions : list TransactionRow) : Prop :=
  (forall transaction, In transaction transactions -> 0 <= tx_amount transaction) /\
  amount_sum income transactions <= 2 ^ 53 /\
  amount_sum expense transactions <= 2 ^ 53.

Record Payload := mkPayload {
  type : TransactionType;
  amount : Z;
  category : string;
  description : string;
  date : string;
}.

(** The row that the insert of [addTransactionMutation] sends. *)
Definition row_of (payload : Payload) (new_id : string) : TransactionRow :=
  mkTransactionRow new_id (type payload) (amount payload) (category payload)
    (description payload) (date payload).

(** The mutation function of [addTransactionMutation]. *)
Definition addTransaction_mutationFn (payload : Payload) : Async unit :=
  error ← request (InsertTransaction (row_of payload));
  match error with
  | Some e => throw (JsPostgrestError e)
  | None => mret tt
  end.

Definition addTransaction_onSuccess : Async unit :=
  forEach (fun key => invalidateQueries key true)
    [ TRANSACTIONS_QUERY_KEY; ["recent-transactions"]; ["reports"; "weekly-trend"];
      ["reports"; "monthly-summary"]; ["dashboard-metrics"] ].

(** [addTransactionMutation.mutateAsync], a plain [useMutation]. *)
Definition addTransactionMutation : Payload -> Async unit :=
  useMutation addTransaction_mutationFn addTransaction_onSuccess.

(** The fields of the transaction form.  [form_amount] is
    [Number(formData.get("amount"))], [None] when that is not a finite
    number; amounts are whole rupiah (the input steps by 1000). *)
Record Form := mkForm {
  form_amount : option Z;
  form_category : string;
  form_description : string;
  form_date : string;
}.

(** [handleAddTransaction]: whether the dialog is open afterwards, and the
    new world.  [activeType] is the tab that is selected.  After the
    mutation [event.currentTarget] is [null] and the reset of the form
    throws a TypeError, which the [catch] reports. *)
Definition handleAddTransaction (activeType : TransactionType) (form : Form)
    (isDialogOpen : bool) (w : World) : bool * World :=
  let category := Js.trim (form_category form) in
  let description := Js.trim (form_description form) in
  if negb (Js.truthy category) then
    (isDialogOpen, snd (toast toast_error "Kategori wajib diisi." w))
  else if negb (Js.truthy description) then
    (isDialogOpen, snd (toast toast_error "Deskripsi wajib diisi." w))
  else if negb (Js.truthy (form_date form)) then
    (isDialogOpen, snd (toast toast_error "Tanggal wajib dipilih." w))
  else
    match form_amount form with
    | None => (isDialogOpen, snd (toast toast_error "Jumlah transaksi tidak valid." w))
    | Some amount =>
        if amount <=? 0 then
          (isDialogOpen, snd (toast toast_error "Jumlah transaksi tidak valid." w))
        else
          match addTransactionMutation
                  (mkPayload activeType amount category description (form_date form)) w with
          | (Returned _, w1) =>
              let w2 := snd (toast toast_success "Transaksi berhasil ditambahkan!" w1) in
              (false,
               snd (toast toast_error
                      (message_or "Gagal menambahkan transaksi."
                         (JsError (Js.null_property_message "reset"))) w2))
          | (Thrown error, w1) =>
              (isDialogOpen,
               snd (toast toast_error (message_or "Gagal menambahkan transaksi." error) w1))
          end
    end.

End Finances.

(** ** The room selectors of the booking form (Guests component) *)

Module RoomSelectors.

Record RoomTypeOption := mkRoomTypeOption {
  id : string;
  name : string;
  price : Z;
}.

(** One iteration of the [forEach] of [roomTypeOptions]. *)
Definition consider (byType : gmap string RoomTypeOption) (room : Guests.RoomOption)
    : gmap string RoomTypeOption :=
  if negb (Js.truthy (Guests.typeId room)) then byType
  else
    let entry :=
      mkRoomTypeOption (Guests.typeId room) (Guests.typeName room) (Guests.price room) in
    match byType !! Guests.typeId room with
    | None => <[Guests.typeId room := entry]> byType
    | Some existing =>
        if Guests.price room <? price existing
        then <[Guests.typeId room := entry]> byType
        else byType
    end.

(** The map [byType] that the [roomTypeOptions] memo builds; the options of
    the type selector are its values, sorted by name. *)
Definition byType (rooms : list Guests.RoomOption) : gmap string RoomTypeOption :=
  fold_left consider
    (List.filter (fun room => bool_decide (Guests.status room = available)) rooms) ∅.

(** The [availableRoomsForSelectedType] memo. *)
Definition availableRoomsForSelectedType (st : Guests.State) : list Guests.RoomOption :=
  List.filter
    (fun room =>
       bool_decide (Guests.status room = available)
       && bool_decide (Guests.typeId room = Guests.selectedRoomTypeId st))
    (Guests.rooms_list st).

(** An available room of type [tid] in [rooms]. *)
Definition offers (rooms : list Guests.RoomOption) (tid : string)
    (room : Guests.RoomOption) : Prop :=
  In room rooms /\ Guests.status room = available /\ Guests.typeId room = tid.

(** [opt] stands for type [tid] among the rooms [seen]: it carries the id
    of the type and the name and price of a room of that type that no other
    room of the type undercuts. *)
Definition cheapest_in (seen : list Guests.RoomOption) (tid : string)
    (opt : RoomTypeOption) : Prop :=
  id opt = tid /\
  (exists room,
      In room seen /\ Guests.typeId room = tid /\
      Guests.price room = price opt /\ Guests.typeName room = name opt) /\
  forall room, In room seen -> Guests.typeId room = tid -> price opt <= Guests.price room.

(** The map [m] is what the loop has to hold once it has gone through the
    rooms [seen]. *)
Definition consistent (seen : list Guests.RoomOption) (m : gmap string RoomTypeOption)
    : Prop :=
  forall tid,
    match m !! tid with
    | Some opt => tid <> "" /\ cheapest_in seen tid opt
    | None => tid = "" \/ forall room, In room seen -> Guests.typeId room <> tid
    end.

End RoomSelectors.

(** ** Booking submission, seen from the form *)

Module Booking.

Import Supabase Runtime Guests.

(** The payload that [handleAddGuest] builds from the form, the component
    state and the selected room. *)
Definition payload_of (form : FormData) (st : State) (room : RoomOption) : AddGuestPayload :=
  {| p_name := Js.trim (form_name form);
     p_phone := Js.trim (form_phone form);
     p_email := Js.trim (form_email form);
     p_checkIn := checkInDate st;
     p_checkOut := checkOutDate st;
     p_nights := nights st;
     p_bookingStatus := form_bookingStatus form;
     p_paymentMethod := form_paymentMethod form;
     p_paymentStatus := form_paymentStatus form;
     p_roomId := id room;
     p_roomNumber := number room;
     p_roomTypeName := typeName room;
     p_pricePerNight := price room;
     p_totalPrice := calculatedPrice st;
     p_receivedBy := user_id <$> currentUser st |}.

(** The message that [handleAddGuest] passes to [recordActivity]. *)
Definition activity_text (form : FormData) (room : RoomOption) : string :=
  "Menerima tamu " +:+ Js.trim (form_name form) +:+ " ("
    +:+ (if bool_decide (form_bookingStatus form = checked_in)
         then "check-in" else "reservasi")
    +:+ ") di " +:+ ("Kamar " +:+ number room +:+ " • " +:+ typeName room) +:+ ".".

(** The inner [try]/[catch] of [handleAddGuest], run after the mutation. *)
Definition log_activity (form : FormData) (st : State) (room : RoomOption) (w : World) : World :=
  match currentUser st with
  | Some user =>
      snd (try_catch
             (recordActivity (currentUser st) (user_id user) (activity_text form room))
             (fun _ => console_error "Gagal mencatat aktivitas tamu") w)
  | None => w
  end.

(** Whether [recordActivity], called for [userId] while [contextUser] is
    signed in, reads the profiles again once the entry is stored. *)
Definition refreshes (contextUser : option PublicUser) (userId : string) : bool :=
  match contextUser with
  | Some user =>
      if bool_decide (user_id user = userId) then Js.truthy userId
      else match user_role user with owner => true | _ => false end
  | None => false
  end.

(** The form passes the three guards of [handleAddGuest] with room [room]. *)
Definition submittable (st : State) (room : RoomOption) : Prop :=
  Js.truthy (selectedRoomTypeId st) = true /\ selectedRoom st = Some room /\
  0 < nights st.

(** A row of [rooms] after a write of the booking flow to room [roomId]:
    the key, the number, the type and the price are kept, and a row of
    another room is kept whole. *)
Definition room_kept (roomId : string) (r r' : RoomRow) : Prop :=
  room_id_col r' = room_id_col r /\ room_number r' = room_number r /\
  room_type_id r' = room_type_id r /\ room_price r' = room_price r /\
  (room_id_col r <> roomId -> r' = r).

(** A row of [guests] after a checkout of booking [guestId]: at most the
    booking status has changed, and only on that booking. *)
Definition guest_kept (guestId : string) (g g' : GuestRow) : Prop :=
  g' = set_booking_status (booking_status g') g /\
  (guest_id g <> guestId -> g' = g).

End Booking.

(** ** Manual status update and the room card (Rooms component) *)

Module RoomCard.

Import Supabase Runtime Rooms.

(** The mutation function of [updateStatusMutation]. *)
Definition updateStatus_mutationFn (payload : string * RoomStatus) : Async unit :=
  error ← request (UpdateRoom (mkRoomUpdate (Some (snd payload)) None None) (fst payload));
  match error with
  | Some e => throw (JsPostgrestError e)
  | None => mret tt
  end.

(** [updateStatusMutation.mutateAsync], a plain [useMutation]. *)
Definition updateStatusMutation : string * RoomStatus -> Async unit :=
  useMutation updateStatus_mutationFn (invalidateQueries ["rooms"] false).

(** [updateRoomStatus] *)
Definition updateRoomStatus (roomId : string) (newStatus : RoomStatus) (w : World) : World :=
  match updateStatusMutation (roomId, newStatus) w with
  | (Returned _, w1) => snd (toast toast_success "Status kamar berhasil diperbarui!" w1)
  | (Thrown error, w1) =>
      snd (toast toast_error (message_or "Gagal memperbarui status kamar." error) w1)
  end.

(** The comparator of the sort on the room card,
    [new Date(a.checkIn).getTime() - new Date(b.checkIn).getTime()];
    [None] is NaN. *)
Definition compare_checkIn (a b : ReservationSummary) : option Z :=
  match JsDate.getTime (checkIn a), JsDate.getTime (checkIn b) with
  | Some x, Some y => Some (x - y)
  | _, _ => None
  end.

(** [a] has to come after [b]: the comparator is positive.  A NaN counts
    as 0, as in [Array.prototype.sort]. *)
Definition comes_after (a b : ReservationSummary) : bool :=
  match compare_checkIn a b with
  | Some d => 0 <? d
  | None => false
  end.

Fixpoint insert_sorted (x : ReservationSummary) (l : list ReservationSummary)
    : list ReservationSummary :=
  match l with
  | [] => [x]
  | y :: l' => if comes_after x y then y :: insert_sorted x l' else x :: l
  end.

(** [[...list].sort(comparator)]: the stable sort, elements that compare
    equal keep their order. *)
Definition sort_by_checkIn (l : list ReservationSummary) : list ReservationSummary :=
  fold_right insert_sorted [] l.

(** [todaysReservations] of the room card. *)
Definition todaysReservations (tza : Z) (reservationsData : option (list ReservationRow))
    (selectedDate : option Z) (room : Room) : list ReservationSummary :=
  match selectedDate with
  | Some _ =>
      sort_by_checkIn
        (default [] (reservationsByRoom tza reservationsData selectedDate !! id room))
  | None => []
  end.

(** [primaryReservation = todaysReservations[0]] *)
Definition primaryReservation (tza : Z) (reservationsData : option (list ReservationRow))
    (selectedDate : option Z) (room : Room) : option ReservationSummary :=
  head (todaysReservations tza reservationsData selectedDate room).

(** The check-in of [a] is not after the check-in of [b], both being
    calendar days. *)
Definition checks_in_first (a b : ReservationSummary) : Prop :=
  exists ta tb,
    JsDate.getTime (checkIn a) = Some ta /\ JsDate.getTime (checkIn b) = Some tb /\
    ta <= tb.

(** The instant [t] falls on local day number [D]. *)
Definition on_local_day (tza t D : Z) : Prop :=
  JsDate.setHours0 tza t = D * JsDate.msPerDay - tza.

(** A row of [rooms] after a manual status update of room [roomId] to [s]. *)
Definition status_set (roomId : string) (s : RoomStatus) (r r' : RoomRow) : Prop :=
  r' = apply_room_update (mkRoomUpdate (Some (room_status r')) None None) r /\
  (room_id_col r = roomId -> room_status r' = s) /\
  (room_id_col r <> roomId -> r' = r).

End RoomCard.

(** * Properties *)

(** ** Numbers and text *)

Module JsFacts.

Import Js.

Lemma two_53 : 2 ^ 53 = 9007199254740992.
Proof. reflexivity. Qed.

(** Whole numbers up to 2^53 in magnitude are doubles. *)
Lemma double_exact x : Z.abs x <= 2 ^ 53 -> double x = x.
Proof.
  intros H. unfold double.
  destruct (Z.leb_spec (Z.abs x) (2 ^ 53)) as [_|Hgt]; [reflexivity | lia].
Qed.

Lemma double_0 : double 0 = 0.
Proof. reflexivity. Qed.

Lemma add_exact a b : 0 <= a -> 0 <= b -> a + b <= 2 ^ 53 -> add a b = a + b.
Proof. intros Ha Hb H. apply double_exact. lia. Qed.

Lemma mul_0_r a : mul a 0 = 0.
Proof. unfold mul. now rewrite Z.mul_0_r. Qed.

Lemma mul_0_l a : mul 0 a = 0.
Proof. reflexivity. Qed.

(** Text that starts with a letter of the Latin alphabet keeps it under
    [trim]. *)
Lemma trimStart_letter c s :
  is_space c = false -> (nat_of_ascii c < 128)%nat -> trimStart (String c s) = String c s.
Proof.
  intros Hc Hlt. cbn [trimStart]. rewrite Hc.
  assert (Hb : forall n, (128 <= n)%nat -> byte_is c n = false).
  { intros n Hn. unfold byte_is. apply Nat.eqb_neq. lia. }
  destruct s as [|b s]; [reflexivity|].
  unfold is_space2. rewrite (Hb 194%nat) by lia. cbn [andb].
  destruct s as [|d s]; [reflexivity|].
  unfold is_space3.
  rewrite (Hb 225%nat), (Hb 226%nat), (Hb 227%nat), (Hb 239%nat) by lia.
  reflexivity.
Qed.

Lemma trim_letter c s :
  is_space c = false -> (nat_of_ascii c < 128)%nat ->
  exists s', trim (String c s) = String c s'.
Proof.
  intros Hc Hlt. unfold trim. rewrite (trimStart_letter c s Hc Hlt).
  cbn [trimEnd]. rewrite (trimStart_letter c s Hc Hlt). eauto.
Qed.

(** U+00A0, the no-break space, is trimmed like the space. *)
Example trim_no_break_space :
  trim (String (ascii_of_nat 194) (String (ascii_of_nat 160) "Budi ")) = "Budi".
Proof. reflexivity. Qed.

Example trim_inner_space : trim "  Kamar 101  " = "Kamar 101".
Proof. reflexivity. Qed.

(** Past 2^53 a sum depends on the order of its terms. *)
Example add_order :
  add (add (2 ^ 53) 1) 1 = 9007199254740992 /\
  add (add 1 1) (2 ^ 53) = 9007199254740994.
Proof. split; reflexivity. Qed.

End JsFacts.

(** ** Stay length *)

Module CalculatorFacts.

Import JsDate Calculator.

Lemma getTime_whole_day s t :
  getTime s = Some t -> exists day, parse_day s = Some day /\ t = day * msPerDay.
Proof.
  unfold getTime. destruct (parse_day s) as [day|]; [|discriminate].
  intros [= <-]. now exists day.
Qed.

Lemma getTime_empty : getTime "" = None.
Proof. reflexivity. Qed.

Lemma getTime_truthy s t : getTime s = Some t -> Js.truthy s = true.
Proof. destruct s; [discriminate | reflexivity]. Qed.

Lemma days_between_pos t1 t2 : (0 < days_between t1 t2)%Q <-> t1 < t2.
Proof.
  unfold days_between, Qlt, Qdiv, Qmult, Qinv.
  change msPerDay with 86400000. cbn. lia.
Qed.

Lemma days_between_whole d1 d2 :
  (days_between (d1 * msPerDay) (d2 * msPerDay) == inject_Z (d2 - d1))%Q.
Proof.
  unfold days_between.
  replace (d2 * msPerDay - d1 * msPerDay) with ((d2 - d1) * msPerDay) by ring.
  rewrite inject_Z_mult. apply Qdiv_mult_l. discriminate.
Qed.

Lemma diff_parsed ci co t1 t2 :
  getTime ci = Some t1 -> getTime co = Some t2 ->
  diff ci co = Some (days_between t1 t2).
Proof. unfold diff. now intros -> ->. Qed.

Lemma nights_parsed ci co t1 t2 :
  getTime ci = Some t1 -> getTime co = Some t2 ->
  nights ci co = if Qlt_le_dec 0 (days_between t1 t2)
                 then Qceiling (days_between t1 t2) else 0.
Proof.
  intros H1 H2. unfold nights.
  rewrite (getTime_truthy _ _ H1), (getTime_truthy _ _ H2). cbn.
  now rewrite (diff_parsed _ _ _ _ H1 H2).
Qed.

Lemma nights_forward ci co t1 t2 :
  getTime ci = Some t1 -> getTime co = Some t2 -> t1 < t2 ->
  nights ci co = Qceiling (days_between t1 t2).
Proof.
  intros H1 H2 Hlt. rewrite (nights_parsed _ _ _ _ H1 H2).
  destruct (Qlt_le_dec 0 (days_between t1 t2)) as [_|Hle]; [reflexivity|].
  pose proof (proj2 (days_between_pos t1 t2) Hlt) as Hpos.
  exfalso. exact (Qlt_not_le _ _ Hpos Hle).
Qed.

Lemma nights_backward ci co t1 t2 :
  getTime ci = Some t1 -> getTime co = Some t2 -> t2 <= t1 ->
  nights ci co = 0.
Proof.
  intros H1 H2 Hle. rewrite (nights_parsed _ _ _ _ H1 H2).
  destruct (Qlt_le_dec 0 (days_between t1 t2)) as [Hpos|_]; [|reflexivity].
  pose proof (proj1 (days_between_pos t1 t2) Hpos). lia.
Qed.

Lemma nights_invalid ci co :
  getTime ci = None \/ getTime co = None -> nights ci co = 0.
Proof.
  intros H. unfold nights, diff.
  destruct (negb (Js.truthy ci) || negb (Js.truthy co)); [reflexivity|].
  destruct H as [-> | ->]; [|destruct (getTime ci)]; now destruct (getTime co).
Qed.

Lemma ceiling_pos q : (0 < q)%Q -> 1 <= Qceiling q.
Proof.
  intros Hq. pose proof (Qle_ceiling q) as Hc.
  assert (H : (inject_Z 0 < inject_Z (Qceiling q))%Q)
    by exact (Qlt_le_trans _ _ _ Hq Hc).
  rewrite <- Zlt_Qlt in H. lia.
Qed.

Lemma nights_nonneg ci co : 0 <= nights ci co.
Proof.
  unfold nights. destruct (negb (Js.truthy ci) || negb (Js.truthy co)); [lia|].
  destruct (diff ci co) as [q|]; [|lia].
  destruct (Qlt_le_dec 0 q) as [Hq|_]; [|lia].
  pose proof (ceiling_pos q Hq). lia.
Qed.

End CalculatorFacts.

(** ** Booking creation and checkout *)

Module GuestsFacts.

Import Supabase Runtime Guests.

Lemma toast_no_write k text w : no_write w (snd (toast k text w)).
Proof. now repeat split. Qed.

Lemma toast_toasts k text w :
  toasts (snd (toast k text w)) = toasts w ++ [mkToast k text].
Proof. reflexivity. Qed.

(** A submission with no night to pay for stops at one of the three guards
    of [handleAddGuest]. *)
Lemma handleAddGuest_guarded form st w :
  nights st <= 0 ->
  exists text, handleAddGuest form st w = (st, snd (toast toast_error text w)).
Proof.
  intros Hn. unfold handleAddGuest.
  destruct (negb (Js.truthy (selectedRoomTypeId st))); [eauto|].
  destruct (selectedRoom st) as [room|]; [|eauto].
  destruct (Z.leb_spec (nights st) 0); [eauto | lia].
Qed.

(** C2.  For two parseable dates with check-in before check-out, [nights] is
    the ceiling of the difference in days, is at least 1, and is the
    difference of the two day numbers.  When check-out is not after
    check-in, or a date is missing or does not parse, [nights] is 0 and
    [handleAddGuest] stops with an error notification: the component state
    is kept, no request is sent and no timer is set. *)
Theorem nights_ceil_or_rejected (ci co : string) :
  (forall t1 t2,
      JsDate.getTime ci = Some t1 -> JsDate.getTime co = Some t2 -> t1 < t2 ->
      Calculator.nights ci co = Qceiling (Calculator.days_between t1 t2) /\
      1 <= Calculator.nights ci co /\
      exists d1 d2,
        JsDate.parse_day ci = Some d1 /\ JsDate.parse_day co = Some d2 /\
        Calculator.nights ci co = d2 - d1) /\
  ((ci = "" \/ co = "" \/
    JsDate.getTime ci = None \/ JsDate.getTime co = None \/
    (exists t1 t2,
        JsDate.getTime ci = Some t1 /\ JsDate.getTime co = Some t2 /\ t2 <= t1)) ->
   Calculator.nights ci co = 0 /\
   forall form st w,
     checkInDate st = ci -> checkOutDate st = co ->
     fst (handleAddGuest form st w) = st /\
     no_write w (snd (handleAddGuest form st w)) /\
     exists text,
       toasts (snd (handleAddGuest form st w)) = toasts w ++ [mkToast toast_error text]).
Proof.
  split.
  - intros t1 t2 H1 H2 Hlt.
    pose proof (CalculatorFacts.nights_forward _ _ _ _ H1 H2 Hlt) as Hn.
    split; [exact Hn|]. split.
    + rewrite Hn. apply CalculatorFacts.ceiling_pos.
      now apply CalculatorFacts.days_between_pos.
    + destruct (CalculatorFacts.getTime_whole_day _ _ H1) as (d1 & Hd1 & ->).
      destruct (CalculatorFacts.getTime_whole_day _ _ H2) as (d2 & Hd2 & ->).
      exists d1, d2. repeat split; try assumption.
      rewrite Hn, (Qceiling_comp _ _ (CalculatorFacts.days_between_whole d1 d2)).
      apply Qceiling_Z.
  - intros Hbad.
    assert (Hz : Calculator.nights ci co = 0).
    { destruct Hbad as [-> | [-> | [H | [H | (t1 & t2 & H1 & H2 & Hle)]]]].
      - reflexivity.
      - unfold Calculator.nights. now destruct (negb (Js.truthy ci)).
      - apply CalculatorFacts.nights_invalid. now left.
      - apply CalculatorFacts.nights_invalid. now right.
      - exact (CalculatorFacts.nights_backward _ _ _ _ H1 H2 Hle). }
    split; [exact Hz|].
    intros form st w Hci Hco.
    destruct (handleAddGuest_guarded form st w) as [text ->].
    { unfold nights. rewrite Hci, Hco, Hz. lia. }
    cbn [fst snd]. split; [reflexivity|]. split; [apply toast_no_write|].
    exists text. apply toast_toasts.
Qed.

(** The theorem at the stay of 10 to 12 January 2024, and at the same two
    dates swapped. *)
Lemma nights_ceil_or_rejected_witness :
  Calculator.nights "2024-01-10" "2024-01-12" = 2 /\
  Calculator.nights "2024-01-12" "2024-01-10" = 0.
Proof.
  split.
  - destruct (proj1 (nights_ceil_or_rejected "2024-01-10" "2024-01-12")
                1704844800000 1705017600000 eq_refl eq_refl eq_refl)
      as (H & _ & _).
    rewrite H. reflexivity.
  - apply (proj2 (nights_ceil_or_rejected "2024-01-12" "2024-01-10")).
    do 4 right. exists 1705017600000, 1704844800000.
    split; [reflexivity | split; [reflexivity | lia]].
Defined.

(** The [calculatedPrice] memo with a room selected. *)
Lemma calculatedPrice_selected st room :
  selectedRoom st = Some room -> calculatedPrice st = Js.double (nights st * price room).
Proof.
  intros Hroom. unfold calculatedPrice. rewrite Hroom.
  destruct (Z.eqb_spec (nights st) 0) as [-> | Hn]; [reflexivity|].
  unfold Js.mul. now rewrite Z.mul_comm.
Qed.

(** C3, amended.  With a room selected, the calculated price is the product
    of the number of nights and the room's price per night whenever that
    product is at most 2^53 in magnitude, the range in which a JavaScript
    number holds every whole number; the price 0 is included.  It is 0 when
    the number of nights is 0. *)
Theorem calculatedPrice_is_product_up_to_2p53 (st : State) (room : RoomOption) :
  selectedRoom st = Some room ->
  (Z.abs (nights st * price room) <= 2 ^ 53 ->
   calculatedPrice st = nights st * price room) /\
  (nights st = 0 -> calculatedPrice st = 0) /\
  (price room = 0 -> calculatedPrice st = 0).
Proof.
  intros Hroom. pose proof (calculatedPrice_selected st room Hroom) as H.
  split; [|split].
  - intros Hle. rewrite H. now apply JsFacts.double_exact.
  - intros Hn. rewrite H, Hn. reflexivity.
  - intros Hp. rewrite H, Hp, Z.mul_0_r. reflexivity.
Qed.

(** The price of the worked stay: two nights in room 101. *)
Lemma calculatedPrice_is_product_up_to_2p53_witness :
  calculatedPrice Scenario.state0 = nights Scenario.state0 * 500000.
Proof.
  assert (Hroom : selectedRoom Scenario.state0 = Some Scenario.option101)
    by (vm_compute; reflexivity).
  refine (proj1 (calculatedPrice_is_product_up_to_2p53
                   Scenario.state0 Scenario.option101 Hroom) _).
  vm_compute. discriminate.
Defined.

(** Three nights in the suite at Rp 9,007,199,254,740,991 a night: the
    calculated price is one rupiah short of the product. *)
Lemma calculatedPrice_rounds_large_product :
  selectedRoom Scenario.state_suite = Some Scenario.suite901 /\
  nights Scenario.state_suite = 3 /\
  price Scenario.suite901 = 9007199254740991 /\
  calculatedPrice Scenario.state_suite = 27021597764222972 /\
  calculatedPrice Scenario.state_suite
    <> nights Scenario.state_suite * price Scenario.suite901.
Proof.
  assert (Hp : calculatedPrice Scenario.state_suite = 27021597764222972)
    by (vm_compute; reflexivity).
  assert (Hn : nights Scenario.state_suite = 3) by (vm_compute; reflexivity).
  split; [vm_compute; reflexivity|]. split; [exact Hn|].
  split; [reflexivity|]. split; [exact Hp|].
  rewrite Hp, Hn. cbn [price Scenario.suite901]. discriminate.
Qed.

(** *** The query cache is the only thing the success callbacks touch *)

Lemma cache_eq_refl w : cache_eq w w.
Proof. now repeat split. Qed.

Lemma cache_eq_trans w1 w2 w3 : cache_eq w1 w2 -> cache_eq w2 w3 -> cache_eq w1 w3.
Proof.
  intros (B1 & V1 & N1 & T1 & O1 & C1) (B2 & V2 & N2 & T2 & O2 & C2).
  repeat split; congruence.
Qed.

Lemma invalidateQueries_cache_only key ex : cache_only (invalidateQueries key ex).
Proof. intros w. eexists. split; [reflexivity|]. now repeat split. Qed.

Lemma mret_cache_only : cache_only (mret tt).
Proof. intros w. exists w. split; [reflexivity | apply cache_eq_refl]. Qed.

Lemma bind_cache_only (c k : Async unit) :
  cache_only c -> cache_only k -> cache_only (c ;; k).
Proof.
  intros Hc Hk w. destruct (Hc w) as (w1 & E1 & Q1).
  destruct (Hk w1) as (w2 & E2 & Q2). exists w2. split.
  - unfold mbind, Async_bind. now rewrite E1.
  - exact (cache_eq_trans _ _ _ Q1 Q2).
Qed.

Lemma forEach_cache_only {A} (f : A -> Async unit) (l : list A) :
  (forall x, cache_only (f x)) -> cache_only (forEach f l).
Proof.
  intros Hf. induction l as [|x l IH]; cbn [forEach].
  - apply mret_cache_only.
  - apply bind_cache_only; [apply Hf | exact IH].
Qed.

Lemma addGuest_onSuccess_cache_only : cache_only addGuest_onSuccess.
Proof. apply forEach_cache_only. intros key. apply invalidateQueries_cache_only. Qed.

(** *** One retry *)

(** With one retry the second attempt, made from the world the first one
    left, settles the mutation. *)
Lemma with_retry_once {A} (c : Async A) w :
  with_retry MUTATION_RETRY c w =
    match c w with
    | (Returned a, w1) => (Returned a, w1)
    | (Thrown _, w1) => c w1
    end.
Proof.
  unfold MUTATION_RETRY. cbn [with_retry].
  destruct (c w) as [[a|x] w1]; [reflexivity|].
  now destruct (c w1) as [[a|y] w2].
Qed.

Lemma useMutation_first {V} (f : V -> Async unit) onSuccess v w w1 :
  cache_only onSuccess -> f v w = (Returned tt, w1) ->
  exists w', useMutation f onSuccess v w = (Returned tt, w') /\ cache_eq w1 w'.
Proof.
  intros HS E. destruct (HS w1) as (w' & E' & Q). exists w'. split; [|exact Q].
  unfold useMutation, mbind, Async_bind. now rewrite with_retry_once, E.
Qed.

Lemma useMutation_second {V} (f : V -> Async unit) onSuccess v w x wf w1 :
  cache_only onSuccess -> f v w = (Thrown x, wf) -> f v wf = (Returned tt, w1) ->
  exists w', useMutation f onSuccess v w = (Returned tt, w') /\ cache_eq w1 w'.
Proof.
  intros HS E1 E2. destruct (HS w1) as (w' & E' & Q). exists w'. split; [|exact Q].
  unfold useMutation, mbind, Async_bind. now rewrite with_retry_once, E1, E2.
Qed.

Lemma useMutation_thrown {V} (f : V -> Async unit) onSuccess v w x wf y w1 :
  f v w = (Thrown x, wf) -> f v wf = (Thrown y, w1) ->
  useMutation f onSuccess v w = (Thrown y, w1).
Proof.
  intros E1 E2. unfold useMutation, mbind, Async_bind.
  now rewrite with_retry_once, E1, E2.
Qed.

(** A mutation that returned: its last attempt started from the world given
    or from the world a first, failed attempt left, and returned. *)
Lemma useMutation_inv_returned {V} (f : V -> Async unit) onSuccess v w w' :
  cache_only onSuccess -> useMutation f onSuccess v w = (Returned tt, w') ->
  exists w0 w1,
    (w0 = w \/ exists x, f v w = (Thrown x, w0)) /\
    f v w0 = (Returned tt, w1) /\ cache_eq w1 w'.
Proof.
  intros HS E. destruct (f v w) as [[[]|x] wf] eqn:E1.
  - destruct (useMutation_first f onSuccess v w wf HS E1) as (w2 & E2 & Q).
    exists w, wf. split; [now left|]. split; [exact E1|]. congruence.
  - destruct (f v wf) as [[[]|y] w1] eqn:E2.
    + destruct (useMutation_second f onSuccess v w x wf w1 HS E1 E2) as (w2 & E3 & Q).
      exists wf, w1. split; [right; now exists x|]. split; [exact E2|]. congruence.
    + rewrite (useMutation_thrown f onSuccess v w x wf y w1 E1 E2) in E. discriminate.
Qed.

(** A mutation that threw: both attempts threw, and what is thrown is what
    the second attempt threw. *)
Lemma useMutation_inv_thrown {V} (f : V -> Async unit) onSuccess v w y w' :
  cache_only onSuccess -> useMutation f onSuccess v w = (Thrown y, w') ->
  exists x wf, f v w = (Thrown x, wf) /\ f v wf = (Thrown y, w').
Proof.
  intros HS E. destruct (f v w) as [[[]|x] wf] eqn:E1.
  - destruct (useMutation_first f onSuccess v w wf HS E1) as (w2 & E2 & _).
    rewrite E2 in E. discriminate.
  - destruct (f v wf) as [[[]|z] w1] eqn:E2.
    + destruct (useMutation_second f onSuccess v w x wf w1 HS E1 E2) as (w2 & E3 & _).
      rewrite E3 in E. discriminate.
    + rewrite (useMutation_thrown f onSuccess v w x wf z w1 E1 E2) in E.
      injection E as -> ->. now exists x, wf.
Qed.

(** What every attempt preserves, and the success callbacks too, the
    mutation preserves. *)
Lemma useMutation_preserves {V} (f : V -> Async unit) onSuccess v
    (R : World -> World -> Prop) :
  cache_only onSuccess ->
  (forall w, R w w) ->
  (forall w1 w2 w3, R w1 w2 -> R w2 w3 -> R w1 w3) ->
  (forall w o w1, f v w = (o, w1) -> R w w1) ->
  (forall w w1, cache_eq w w1 -> R w w1) ->
  forall w, R w (snd (useMutation f onSuccess v w)).
Proof.
  intros HS Hrefl Htrans Hf Hcache w.
  destruct (useMutation f onSuccess v w) as [[[]|y] w'] eqn:E; cbn [snd].
  - apply useMutation_inv_returned in E as (w0 & w1 & Hw0 & E2 & Q); [|exact HS].
    apply (Htrans _ w0); [|apply (Htrans _ w1); [exact (Hf _ _ _ E2) | exact (Hcache _ _ Q)]].
    destruct Hw0 as [-> | (x & E1)]; [apply Hrefl | exact (Hf _ _ _ E1)].
  - apply useMutation_inv_thrown in E as (x & wf & E1 & E2); [|exact HS].
    exact (Htrans _ _ _ (Hf _ _ _ E1) (Hf _ _ _ E2)).
Qed.

Lemma invalidations_cache_only keys onSuccess :
  cache_only onSuccess ->
  cache_only (forEach (fun key => invalidateQueries [key] false) keys ;; onSuccess).
Proof.
  intros HS. apply bind_cache_only; [|exact HS].
  apply forEach_cache_only. intros key. apply invalidateQueries_cache_only.
Qed.

Lemma mutateAsync_first {V} (f : V -> Async unit) keys onSuccess v w w1 :
  cache_only onSuccess -> f v w = (Returned tt, w1) ->
  exists w', mutateAsync f keys onSuccess v w = (Returned tt, w') /\ cache_eq w1 w'.
Proof. intros HS. apply useMutation_first, invalidations_cache_only, HS. Qed.

Lemma mutateAsync_second {V} (f : V -> Async unit) keys onSuccess v w x wf w1 :
  cache_only onSuccess -> f v w = (Thrown x, wf) -> f v wf = (Returned tt, w1) ->
  exists w', mutateAsync f keys onSuccess v w = (Returned tt, w') /\ cache_eq w1 w'.
Proof. intros HS. apply useMutation_second, invalidations_cache_only, HS. Qed.

Lemma mutateAsync_thrown {V} (f : V -> Async unit) keys onSuccess v w x wf y w1 :
  f v w = (Thrown x, wf) -> f v wf = (Thrown y, w1) ->
  mutateAsync f keys onSuccess v w = (Thrown y, w1).
Proof. apply useMutation_thrown. Qed.

Lemma mutateAsync_inv_returned {V} (f : V -> Async unit) keys onSuccess v w w' :
  cache_only onSuccess -> mutateAsync f keys onSuccess v w = (Returned tt, w') ->
  exists w0 w1,
    (w0 = w \/ exists x, f v w = (Thrown x, w0)) /\
    f v w0 = (Returned tt, w1) /\ cache_eq w1 w'.
Proof. intros HS. apply useMutation_inv_returned, invalidations_cache_only, HS. Qed.

Lemma mutateAsync_inv_thrown {V} (f : V -> Async unit) keys onSuccess v w y w' :
  cache_only onSuccess -> mutateAsync f keys onSuccess v w = (Thrown y, w') ->
  exists x wf, f v w = (Thrown x, wf) /\ f v wf = (Thrown y, w').
Proof. intros HS. apply useMutation_inv_thrown, invalidations_cache_only, HS. Qed.

Lemma mutateAsync_preserves {V} (f : V -> Async unit) keys onSuccess v
    (R : World -> World -> Prop) :
  cache_only onSuccess ->
  (forall w, R w w) ->
  (forall w1 w2 w3, R w1 w2 -> R w2 w3 -> R w1 w3) ->
  (forall w o w1, f v w = (o, w1) -> R w w1) ->
  (forall w w1, cache_eq w w1 -> R w w1) ->
  forall w, R w (snd (mutateAsync f keys onSuccess v w)).
Proof. intros HS. apply useMutation_preserves, invalidations_cache_only, HS. Qed.

(** *** Running the mutation functions against a verdict script *)

Ltac run :=
  cbv [mbind Async_bind mret Async_ret throw request setTimeout js_of_error];
  cbn [verdicts backend now timers toasts console invalidated fst snd].

(** The tables after the writes of an attempt at booking creation that ran
    to its end. *)
Lemma addGuest_mutationFn_returned payload w w1 :
  addGuest_mutationFn payload w = (Returned tt, w1) ->
  backend w1 =
    (let booked :=
       apply (UpdateRoom (roomUpdates payload) (p_roomId payload))
         (apply (InsertGuest (guest_row_of payload)) (backend w)) in
     if shouldCreateTransaction payload
     then apply (InsertTransaction (income_row_of payload)) booked
     else booked).
Proof.
  destruct w as [b vs n tm ts cs inv]. unfold addGuest_mutationFn. cbn zeta.
  destruct (shouldCreateTransaction payload);
    destruct vs as [|[e1|] [|[e2|] [|[e3|] vs]]];
    run; intros E; try discriminate E; injection E as <-; reflexivity.
Qed.

(** The tables after an attempt at booking creation that threw: the writes
    that were accepted before the rejected one stay. *)
Lemma addGuest_mutationFn_thrown payload w x wf :
  addGuest_mutationFn payload w = (Thrown x, wf) ->
  backend wf = backend w \/
  backend wf = apply (InsertGuest (guest_row_of payload)) (backend w) \/
  backend wf = apply (UpdateRoom (roomUpdates payload) (p_roomId payload))
                 (apply (InsertGuest (guest_row_of payload)) (backend w)).
Proof.
  destruct w as [b vs n tm ts cs inv]. unfold addGuest_mutationFn.
  destruct (shouldCreateTransaction payload);
    destruct vs as [|[e1|] [|[e2|] [|[e3|] vs]]];
    run; intros E; try discriminate E; injection E as _ <-; cbn [backend]; auto.
Qed.

Lemma shouldCreateTransaction_spec payload :
  shouldCreateTransaction payload = true <->
  p_bookingStatus payload = checked_in /\ 0 < p_totalPrice payload.
Proof.
  unfold shouldCreateTransaction.
  rewrite andb_true_iff, bool_decide_eq_true, Z.ltb_lt. reflexivity.
Qed.

Lemma updated_room_inv u rid b r' :
  In r' (rooms (apply (UpdateRoom u rid) b)) -> room_id_col r' = rid ->
  exists r, In r (rooms b) /\ room_id_col r = rid /\ r' = apply_room_update u r.
Proof.
  cbn [apply rooms]. intros Hin Hid.
  apply in_map_iff in Hin as (r & Hr & Hin).
  destruct (decide (room_id_col r = rid)) as [Heq|Hne].
  - exists r. now repeat split.
  - subst r'. contradiction.
Qed.

Lemma updated_room_ids u rid b :
  map room_id_col (rooms (apply (UpdateRoom u rid) b)) = map room_id_col (rooms b).
Proof.
  cbn [apply rooms]. rewrite map_map. apply map_ext. intros r.
  now destruct (decide (room_id_col r = rid)).
Qed.

(** What an attempt that threw has left in the tables: at most the booking
    row it inserted; the rooms are the same rooms, and no transaction has
    been added. *)
Lemma addGuest_attempt_failed payload w x wf :
  addGuest_mutationFn payload w = (Thrown x, wf) ->
  exists earlier,
    guests (backend wf) = guests (backend w) ++ earlier /\
    (earlier = [] \/
     earlier = [guest_row_of payload (gen_random_uuid (uuid_seq (backend w)))]) /\
    map room_id_col (rooms (backend wf)) = map room_id_col (rooms (backend w)) /\
    transactions (backend wf) = transactions (backend w).
Proof.
  intros E. destruct (addGuest_mutationFn_thrown _ _ _ _ E) as [-> | [-> | ->]].
  - exists []. rewrite app_nil_r. auto.
  - eexists. split; [reflexivity|]. auto.
  - eexists. split; [reflexivity|]. split; [auto|].
    split; [rewrite updated_room_ids; reflexivity | reflexivity].
Qed.

(** C1.  When booking creation has returned for status [s], dates [ci] and
    [co] and total price [p]: the booking row is the last row of table
    [guests], after at most one more row with the same booking, left by a
    first attempt that failed after its insert (there is none when the
    first attempt ran to its end); the rows of [rooms] are the same rooms as
    before and every row of the assigned room has [reservation_date = ci],
    [check_out_date = co], and status [occupied] for [s = checked-in],
    [reserved] for [s = reservation]; one income transaction of amount [p]
    dated [ci] has been appended when [s = checked-in] and [p > 0], and
    table [transactions] is as before otherwise. *)
Theorem booking_creation_effects (payload : AddGuestPayload) (w w' : World) :
  addGuestMutation payload w = (Returned tt, w') ->
  let s := p_bookingStatus payload in
  let ci := p_checkIn payload in
  let co := p_checkOut payload in
  let p := p_totalPrice payload in
  (exists earlier g,
      guests (backend w') = guests (backend w) ++ earlier ++ [g] /\
      (length earlier <= 1)%nat /\
      (forall w1, addGuest_mutationFn payload w = (Returned tt, w1) -> earlier = []) /\
      forall g', In g' (earlier ++ [g]) ->
        booking_status g' = s /\ check_in g' = ci /\ check_out g' = co /\
        total_price g' = p /\ room_id g' = Some (p_roomId payload)) /\
  map room_id_col (rooms (backend w')) = map room_id_col (rooms (backend w)) /\
  (forall r,
      In r (rooms (backend w')) -> room_id_col r = p_roomId payload ->
      room_reservation_date r = Some ci /\ room_check_out_date r = Some co /\
      (s = checked_in -> room_status r = occupied) /\
      (s = reservation -> room_status r = reserved)) /\
  (s = checked_in /\ 0 < p ->
   exists tx,
     transactions (backend w') = transactions (backend w) ++ [tx] /\
     tx_type tx = income /\ tx_amount tx = p /\ tx_date tx = ci) /\
  (~ (s = checked_in /\ 0 < p) ->
   transactions (backend w') = transactions (backend w)).
Proof.
  intros Hrun s ci co p.
  apply (mutateAsync_inv_returned _ _ _ _ _ _ addGuest_onSuccess_cache_only) in Hrun
    as (w0 & w1 & Hw0 & Hfn & (Hb & _)).
  apply addGuest_mutationFn_returned in Hfn. rewrite Hb, Hfn. clear Hb Hfn w1 w'.
  cbn zeta.
  assert (Hfirst : exists earlier,
             guests (backend w0) = guests (backend w) ++ earlier /\
             (earlier = [] \/
              earlier = [guest_row_of payload (gen_random_uuid (uuid_seq (backend w)))]) /\
             (forall w1, addGuest_mutationFn payload w = (Returned tt, w1) -> earlier = []) /\
             map room_id_col (rooms (backend w0)) = map room_id_col (rooms (backend w)) /\
             transactions (backend w0) = transactions (backend w)).
  { destruct Hw0 as [-> | (x & E)].
    - exists []. rewrite app_nil_r. auto.
    - destruct (addGuest_attempt_failed _ _ _ _ E) as (earlier & Hg & He & Hr & Ht).
      exists earlier. repeat split; try assumption.
      intros w1 E1. rewrite E1 in E. discriminate. }
  destruct Hfirst as (earlier & Hg & He & Hnone & Hr & Ht). clear Hw0.
  set (booked := apply (UpdateRoom (roomUpdates payload) (p_roomId payload))
                   (apply (InsertGuest (guest_row_of payload)) (backend w0))).
  assert (Hrooms : rooms (if shouldCreateTransaction payload
                          then apply (InsertTransaction (income_row_of payload)) booked
                          else booked) = rooms booked)
    by now destruct (shouldCreateTransaction payload).
  split; [|split; [|split; [|split]]].
  - exists earlier, (guest_row_of payload (gen_random_uuid (uuid_seq (backend w0)))).
    split; [|split; [|split]].
    + rewrite app_assoc, <- Hg. now destruct (shouldCreateTransaction payload).
    + destruct He as [-> | ->]; cbn; lia.
    + exact Hnone.
    + intros g' Hin. apply in_app_or in Hin as [Hin | [<- | []]].
      * destruct He as [-> | ->]; [destruct Hin|].
        destruct Hin as [<- | []]. now repeat split.
      * now repeat split.
  - rewrite Hrooms. unfold booked. now rewrite updated_room_ids.
  - intros r Hin Hid. rewrite Hrooms in Hin.
    destruct (updated_room_inv _ _ _ _ Hin Hid) as (r0 & _ & _ & ->).
    unfold apply_room_update, roomUpdates, s. cbn.
    repeat split; intros ->; reflexivity.
  - intros Hs. apply shouldCreateTransaction_spec in Hs. rewrite Hs.
    eexists. split; [cbn [apply transactions booked]; rewrite Ht; reflexivity|].
    now repeat split.
  - intros Hs. destruct (shouldCreateTransaction payload) eqn:E; [|exact Ht].
    apply shouldCreateTransaction_spec in E. contradiction.
Qed.

(** Booking creation in the worked stay: with every request accepted, and
    with the room update rejected once, so that the retry books the stay a
    second time. *)
Lemma booking_creation_effects_witness :
  let w' := snd (addGuestMutation (Scenario.payload_of checked_in) Scenario.world0) in
  let w'' := snd (addGuestMutation (Scenario.payload_of checked_in)
                    (Scenario.world_with Scenario.backend0 [None; Some Scenario.denied])) in
  ((forall r,
       In r (rooms (backend w')) -> room_id_col r = "room-101" ->
       room_status r = occupied) /\
   (exists tx,
       transactions (backend w') = [tx] /\ tx_amount tx = 1000000 /\
       tx_date tx = "2024-01-10") /\
   length (guests (backend w')) = 1%nat) /\
  ((exists tx, transactions (backend w'') = [tx] /\ tx_amount tx = 1000000) /\
   length (guests (backend w'')) = 2%nat).
Proof.
  intros w' w''.
  assert (Hrun : addGuestMutation (Scenario.payload_of checked_in) Scenario.world0
                 = (Returned tt, w')) by (vm_compute; reflexivity).
  assert (Hrun' : addGuestMutation (Scenario.payload_of checked_in)
                    (Scenario.world_with Scenario.backend0 [None; Some Scenario.denied])
                  = (Returned tt, w'')) by (vm_compute; reflexivity).
  split.
  - destruct (booking_creation_effects _ _ _ Hrun) as (_ & _ & Hroom & Htx & _).
    split; [|split].
    + intros r Hin Hid. apply (Hroom r Hin Hid). reflexivity.
    + destruct Htx as (tx & E & _ & Ha & Hd).
      * split; [reflexivity | reflexivity].
      * exists tx. split; [exact E | split; [exact Ha | exact Hd]].
    + vm_compute. reflexivity.
  - destruct (booking_creation_effects _ _ _ Hrun') as (_ & _ & _ & Htx & _).
    split.
    + destruct Htx as (tx & E & _ & Ha & _).
      * split; [reflexivity | reflexivity].
      * exists tx. split; [exact E | exact Ha].
    + vm_compute. reflexivity.
Defined.

(** C8.  Booking creation is not atomic.  The operation is attempted twice
    before it reports an error.  When each attempt has its booking insert
    accepted and its room update rejected, the operation throws the error of
    the second rejection and leaves the tables exactly as the two inserts
    made them: the booking rows are there, the room is as before.  When the
    retry has its insert rejected, the row of the first attempt stays.
    When each attempt has the insert and the room update accepted and the
    transaction insert rejected, the operation throws the error of the
    second rejection and leaves the tables exactly as the accepted writes
    made them, the room updated and no transaction.  In each case no
    further request is sent. *)
Theorem booking_creation_not_atomic
    (payload : AddGuestPayload) (w : World) (e1 e2 : PostgrestError)
    (vs : list (option PostgrestError)) :
  let insert := apply (InsertGuest (guest_row_of payload)) in
  let update := apply (UpdateRoom (roomUpdates payload) (p_roomId payload)) in
  let row n := guest_row_of payload (gen_random_uuid n) in
  let n := uuid_seq (backend w) in
  (verdicts w = None :: Some e1 :: None :: Some e2 :: vs ->
   exists w',
     addGuestMutation payload w = (Thrown (JsPostgrestError e2), w') /\
     backend w' = insert (insert (backend w)) /\
     guests (backend w') = guests (backend w) ++ [row n; row (N.succ n)] /\
     rooms (backend w') = rooms (backend w) /\
     transactions (backend w') = transactions (backend w) /\
     verdicts w' = vs) /\
  (verdicts w = None :: Some e1 :: Some e2 :: vs ->
   exists w',
     addGuestMutation payload w = (Thrown (JsPostgrestError e2), w') /\
     backend w' = insert (backend w) /\
     guests (backend w') = guests (backend w) ++ [row n] /\
     rooms (backend w') = rooms (backend w) /\
     transactions (backend w') = transactions (backend w) /\
     verdicts w' = vs) /\
  (verdicts w = None :: None :: Some e1 :: None :: None :: Some e2 :: vs ->
   shouldCreateTransaction payload = true ->
   exists w',
     addGuestMutation payload w = (Thrown (JsPostgrestError e2), w') /\
     backend w' = update (insert (update (insert (backend w)))) /\
     guests (backend w') = guests (backend w) ++ [row n; row (N.succ n)] /\
     rooms (backend w') = rooms (update (backend w)) /\
     transactions (backend w') = transactions (backend w) /\
     verdicts w' = vs).
Proof.
  destruct w as [b script n tm ts cs inv]. cbn [verdicts backend]. cbn zeta.
  split; [|split].
  - intros ->. eexists. split.
    + eapply mutateAsync_thrown; unfold addGuest_mutationFn; run; reflexivity.
    + cbn [backend verdicts]. split; [reflexivity|]. split.
      * cbn [apply guests bump uuid_seq]. now rewrite <- app_assoc.
      * now repeat split.
  - intros ->. eexists. split.
    + eapply mutateAsync_thrown; unfold addGuest_mutationFn; run; reflexivity.
    + now repeat split.
  - intros -> Hs. eexists. split.
    + eapply mutateAsync_thrown; unfold addGuest_mutationFn; run;
        rewrite Hs; run; reflexivity.
    + cbn [backend verdicts]. split; [reflexivity|]. split; [|split].
      * cbn [apply guests bump uuid_seq]. now rewrite <- app_assoc.
      * cbn [apply rooms]. rewrite map_map. apply map_ext. intros r.
        destruct (decide (room_id_col r = p_roomId payload)) as [Hr|Hr];
          cbn [apply_room_update room_id_col].
        -- rewrite decide_True by exact Hr.
           unfold apply_room_update, roomUpdates. cbn.
           now destruct (p_bookingStatus payload).
        -- now rewrite decide_False by exact Hr.
      * now repeat split.
Qed.

(** The partial failures in the worked stay. *)
Lemma booking_creation_not_atomic_witness :
  (exists w',
      addGuestMutation (Scenario.payload_of checked_in)
        (Scenario.world_with Scenario.backend0
           [None; Some Scenario.denied; None; Some Scenario.denied])
      = (Thrown (JsPostgrestError Scenario.denied), w') /\
      length (guests (backend w')) = 2%nat /\
      rooms (backend w') = [Scenario.room101; Scenario.room102]) /\
  (exists w',
      addGuestMutation (Scenario.payload_of checked_in)
        (Scenario.world_with Scenario.backend0
           [None; None; Some Scenario.denied; None; None; Some Scenario.denied])
      = (Thrown (JsPostgrestError Scenario.denied), w') /\
      length (guests (backend w')) = 2%nat /\
      map room_status (rooms (backend w')) = [occupied; available] /\
      transactions (backend w') = []).
Proof.
  split.
  - destruct (proj1 (booking_creation_not_atomic (Scenario.payload_of checked_in)
                       (Scenario.world_with Scenario.backend0
                          [None; Some Scenario.denied; None; Some Scenario.denied])
                       Scenario.denied Scenario.denied []) eq_refl)
      as (w' & Hrun & _ & Hg & Hr & _ & _).
    exists w'. split; [exact Hrun|]. split; [rewrite Hg; reflexivity | exact Hr].
  - destruct (proj2 (proj2 (booking_creation_not_atomic (Scenario.payload_of checked_in)
                       (Scenario.world_with Scenario.backend0
                          [None; None; Some Scenario.denied;
                           None; None; Some Scenario.denied])
                       Scenario.denied Scenario.denied [])) eq_refl eq_refl)
      as (w' & Hrun & _ & Hg & Hr & Ht & _).
    exists w'. split; [exact Hrun|]. split; [rewrite Hg; reflexivity|].
    split; [rewrite Hr; reflexivity | exact Ht].
Defined.

(** *** Checkout *)

Lemma find_item_id guestId (l : list GuestItem) guest :
  find (fun item => bool_decide (item_id item = guestId)) l = Some guest ->
  item_id guest = guestId.
Proof.
  intros H. apply find_some in H as [_ H]. now apply bool_decide_eq_true in H.
Qed.

(** C6.  When the booking that the page holds under the given id is not
    checked in (it is a reservation or already checked out), [handleCheckout]
    shows a warning and stops: the tables are unchanged, no request is sent
    and no timer is set. *)
Theorem checkout_refused_unless_checked_in
    (guestId : string) (st : State) (w : World) (guest : GuestItem) :
  find (fun item => bool_decide (item_id item = guestId)) (guests_list st) = Some guest ->
  bookingStatus guest <> checked_in ->
  no_write w (handleCheckout guestId st w) /\
  guests (backend (handleCheckout guestId st w)) = guests (backend w) /\
  rooms (backend (handleCheckout guestId st w)) = rooms (backend w) /\
  toasts (handleCheckout guestId st w) =
    toasts w ++ [mkToast toast_warning "Tamu ini belum berstatus check-in."].
Proof.
  intros Hfind Hstatus. unfold handleCheckout. rewrite Hfind.
  rewrite bool_decide_eq_false_2 by exact Hstatus. cbn [negb].
  split; [apply toast_no_write | now repeat split].
Qed.

(** Checkout of the worked stay while it is still a reservation. *)
Lemma checkout_refused_unless_checked_in_witness :
  let w := Scenario.world_with (Scenario.backend_booked reservation) [] in
  backend (handleCheckout "uuid-0" (Scenario.state_listing reservation) w) = backend w.
Proof.
  intros w.
  destruct (checkout_refused_unless_checked_in "uuid-0"
              (Scenario.state_listing reservation) w
              (Scenario.item_of reservation) eq_refl) as ((Hb & _) & _).
  - discriminate.
  - exact Hb.
Defined.

(** The writes and the timer of an attempt at the checkout of an assigned
    room that ran to its end. *)
Lemma checkout_mutationFn_returned payload rid w w1 :
  c_roomId payload = Some rid -> Js.truthy rid = true ->
  checkout_mutationFn payload w = (Returned tt, w1) ->
  backend w1 =
    apply (UpdateRoom (mkRoomUpdate (Some cleaning) None None) rid)
      (apply (UpdateGuestStatus checked_out (c_guestId payload)) (backend w)) /\
  timers w1 = timers w ++ [mkTimer (now w + CLEANING_DELAY) (ResetRoom rid)] /\
  now w1 = now w.
Proof.
  intros Hroom Htruthy. destruct w as [b vs n tm ts cs inv].
  unfold checkout_mutationFn. rewrite Hroom.
  destruct vs as [|[e1|] [|[e2|] vs]]; run; rewrite ?Htruthy; run;
    intros E; try discriminate E; injection E as <-; now repeat split.
Qed.

(** An attempt at the checkout that threw has at most marked the booking;
    it has set no timer. *)
Lemma checkout_mutationFn_thrown payload w x wf :
  checkout_mutationFn payload w = (Thrown x, wf) ->
  (backend wf = backend w \/
   backend wf = apply (UpdateGuestStatus checked_out (c_guestId payload)) (backend w)) /\
  timers wf = timers w /\ now wf = now w.
Proof.
  destruct w as [b vs n tm ts cs inv]. unfold checkout_mutationFn.
  destruct (c_roomId payload) as [rid|];
    [destruct (negb (Js.truthy rid))|];
    destruct vs as [|[e1|] [|[e2|] vs]]; run;
    intros E; try discriminate E; injection E as _ <-; cbn [backend timers now]; auto.
Qed.

(** Marking a booking twice is marking it once. *)
Lemma update_guest_status_twice s gid b :
  apply (UpdateGuestStatus s gid) (apply (UpdateGuestStatus s gid) b)
  = apply (UpdateGuestStatus s gid) b.
Proof.
  cbn [apply guests rooms transactions user_activities uuid_seq]. f_equal.
  rewrite map_map. apply map_ext. intros g.
  destruct (decide (guest_id g = gid)) as [Hg|Hg].
  - cbn [set_booking_status guest_id]. now rewrite decide_True by exact Hg.
  - now rewrite decide_False by exact Hg.
Qed.

(** A checkout of an assigned room that returned has made the two writes
    and set the one timer, whether at the first attempt or at the second. *)
Lemma checkoutMutation_returned payload rid w w' :
  c_roomId payload = Some rid -> Js.truthy rid = true ->
  checkoutMutation payload w = (Returned tt, w') ->
  backend w' =
    apply (UpdateRoom (mkRoomUpdate (Some cleaning) None None) rid)
      (apply (UpdateGuestStatus checked_out (c_guestId payload)) (backend w)) /\
  timers w' = timers w ++ [mkTimer (now w + CLEANING_DELAY) (ResetRoom rid)] /\
  now w' = now w.
Proof.
  intros Hroom Htruthy Hrun.
  apply (mutateAsync_inv_returned _ _ _ _ _ _ mret_cache_only) in Hrun
    as (w0 & w1 & Hw0 & Hfn & (Hb & _ & Hn & Ht & _)).
  apply (checkout_mutationFn_returned _ rid) in Hfn as (Hb1 & Ht1 & Hn1);
    [|exact Hroom|exact Htruthy].
  rewrite Hb, Ht, Hn, Hb1, Ht1, Hn1. clear Hb Ht Hn Hb1 Ht1 Hn1.
  destruct Hw0 as [-> | (x & E)]; [now repeat split|].
  apply checkout_mutationFn_thrown in E as ([-> | ->] & -> & ->).
  - now repeat split.
  - rewrite update_guest_status_twice. now repeat split.
Qed.

Lemma advance_idle dt w :
  timers w = [] -> backend (advance dt w) = backend w /\ timers (advance dt w) = [].
Proof. intros H. unfold advance. rewrite H. now split. Qed.

Lemma advance_waiting dt w tm :
  timers w = [tm] -> now w + dt < due tm ->
  backend (advance dt w) = backend w /\ timers (advance dt w) = [tm].
Proof.
  intros H Hlt. unfold advance. rewrite H. cbn [filter list_filter].
  destruct (decide (due tm <= now w + dt)) as [Hle|_]; [lia|].
  destruct (decide (~ due tm <= now w + dt)) as [_|Hn]; [now split | lia].
Qed.

Lemma advance_due dt w tm rid :
  timers w = [tm] -> callback tm = ResetRoom rid -> due tm <= now w + dt ->
  timers (advance dt w) = [] /\
  backend (advance dt w) =
    match next_verdict w with
    | None => apply (UpdateRoom release rid) (backend w)
    | Some _ => backend w
    end.
Proof.
  intros H Hcb Hle. unfold advance. rewrite H. cbn [filter list_filter].
  destruct (decide (due tm <= now w + dt)) as [_|Hn]; [|lia].
  destruct (decide (~ due tm <= now w + dt)) as [Hn|_]; [lia|].
  cbn [fold_left]. rewrite Hcb. unfold run_callback, next_verdict, invalidateQueries.
  destruct (verdicts w) as [|[e|] vs]; run; now split.
Qed.

Lemma released_room_inv rid b r' :
  In r' (rooms (apply (UpdateRoom release rid) b)) -> room_id_col r' = rid ->
  room_status r' = available /\ room_reservation_date r' = None /\
  room_check_out_date r' = None.
Proof.
  intros Hin Hid. destruct (updated_room_inv _ _ _ _ Hin Hid) as (r & _ & _ & ->).
  now repeat split.
Qed.

Lemma checked_out_guest_inv gid b g :
  In g (guests (apply (UpdateGuestStatus checked_out gid) b)) -> guest_id g = gid ->
  booking_status g = checked_out.
Proof.
  cbn [apply guests]. intros Hin Hid.
  apply in_map_iff in Hin as (g0 & Hg & _).
  destruct (decide (guest_id g0 = gid)) as [_|Hne]; subst g; [reflexivity | contradiction].
Qed.

(** C7.  A checkout of a checked-in booking with an assigned room that
    returns has, at once, rewritten the rows of the booking to [checked-out]
    and kept every other booking row, rewritten the rows of the room to
    [cleaning] and kept every other room row, left the transactions alone,
    and set one timer, due 3000 ms later.  Until then the tables stay as
    they are.  When the timer fires and the backend accepts the update, the
    rows of the room are [available] with both dates cleared and every other
    row of every table is kept.  When the backend rejects it, the tables
    stay as they were, the room still [cleaning], and nothing is pending any
    more: the delayed update is not tried again. *)
Theorem checkout_cleaning_then_available
    (guestId : string) (st : State) (w w1 : World) (guest : GuestItem) (rid : string) :
  find (fun item => bool_decide (item_id item = guestId)) (guests_list st) = Some guest ->
  bookingStatus guest = checked_in ->
  roomId guest = Some rid -> Js.truthy rid = true ->
  timers w = [] ->
  checkoutMutation (mkCheckoutPayload (item_id guest) (roomId guest)) w = (Returned tt, w1) ->
  let w2 := handleCheckout guestId st w in
  (guests (backend w2) =
     map (fun g => if decide (guest_id g = guestId)
                   then set_booking_status checked_out g else g)
       (guests (backend w)) /\
   rooms (backend w2) =
     map (fun r => if decide (room_id_col r = rid)
                   then mkRoomRow (room_id_col r) (room_number r) (room_type_id r)
                          (room_price r) cleaning (room_reservation_date r)
                          (room_check_out_date r)
                   else r)
       (rooms (backend w)) /\
   transactions (backend w2) = transactions (backend w)) /\
  (forall g, In g (guests (backend w2)) -> guest_id g = guestId ->
             booking_status g = checked_out) /\
  (forall r, In r (rooms (backend w2)) -> room_id_col r = rid ->
             room_status r = cleaning) /\
  timers w2 = [mkTimer (now w + 3000) (ResetRoom rid)] /\
  (forall dt, 0 <= dt < 3000 -> backend (advance dt w2) = backend w2) /\
  (next_verdict w2 = None ->
   (guests (backend (advance 3000 w2)) = guests (backend w2) /\
    rooms (backend (advance 3000 w2)) =
      map (fun r => if decide (room_id_col r = rid)
                    then mkRoomRow (room_id_col r) (room_number r) (room_type_id r)
                           (room_price r) available None None
                    else r)
        (rooms (backend w2)) /\
    transactions (backend (advance 3000 w2)) = transactions (backend w2)) /\
   forall r, In r (rooms (backend (advance 3000 w2))) -> room_id_col r = rid ->
             room_status r = available /\ room_reservation_date r = None /\
             room_check_out_date r = None) /\
  (forall e, next_verdict w2 = Some e ->
             backend (advance 3000 w2) = backend w2 /\
             timers (advance 3000 w2) = [] /\
             forall dt, backend (advance dt (advance 3000 w2)) = backend w2).
Proof.
  intros Hfind Hstatus Hroom Htruthy Hidle Hrun w2.
  pose proof (find_item_id _ _ _ Hfind) as Hid.
  assert (Hw2 : w2 = snd (toast toast_success
                            ("Check-out berhasil. Kamar " +:+ roomNumber guest
                               +:+ " sedang dibersihkan.") w1)).
  { unfold w2, handleCheckout. rewrite Hfind, Hstatus.
    rewrite bool_decide_eq_true_2 by reflexivity. cbn [negb]. now rewrite Hrun. }
  apply (checkoutMutation_returned _ rid) in Hrun as (Hb0 & Ht0 & Hn0);
    [|rewrite Hroom; reflexivity|exact Htruthy].
  cbn [c_guestId] in Hb0. rewrite Hidle in Ht0. cbn [app] in Ht0.
  assert (Eb : backend w2 = backend w1) by (rewrite Hw2; reflexivity).
  assert (Et : timers w2 = [mkTimer (now w + 3000) (ResetRoom rid)])
    by (rewrite Hw2; cbn [toast snd timers]; exact Ht0).
  assert (En : now w2 = now w)
    by (rewrite Hw2; cbn [toast snd now]; congruence).
  split; [|split; [|split; [|split; [|split; [|split]]]]].
  - rewrite Eb, Hb0, Hid. now repeat split.
  - intros g Hin Hg. rewrite Eb, Hb0 in Hin. cbn [apply guests] in Hin.
    apply (checked_out_guest_inv (item_id guest) (backend w)); [exact Hin | congruence].
  - intros r Hin Hr. rewrite Eb, Hb0 in Hin.
    destruct (updated_room_inv _ _ _ _ Hin Hr) as (r0 & _ & _ & ->). reflexivity.
  - exact Et.
  - intros dt Hdt. apply (advance_waiting dt w2 _ Et). cbn [due]. lia.
  - intros Hacc.
    destruct (advance_due 3000 w2 _ rid Et eq_refl) as (_ & Hb3); [cbn [due]; lia|].
    rewrite Hacc in Hb3. rewrite Hb3. split; [now repeat split|].
    intros r Hin Hr. exact (released_room_inv _ _ _ Hin Hr).
  - intros e Hrej.
    destruct (advance_due 3000 w2 _ rid Et eq_refl) as (Ht3 & Hb3); [cbn [due]; lia|].
    rewrite Hrej in Hb3. split; [exact Hb3|]. split; [exact Ht3|].
    intros dt. rewrite <- Hb3. apply advance_idle. exact Ht3.
Qed.

(** Checkout of the worked stay, every request accepted: the rows of the
    two rooms at once and after the delay. *)
Lemma checkout_cleaning_then_available_witness :
  let w := Scenario.world_with (Scenario.backend_booked checked_in) [] in
  let w2 := handleCheckout "uuid-0" (Scenario.state_listing checked_in) w in
  timers w2 = [mkTimer 3000 (ResetRoom "room-101")] /\
  map booking_status (guests (backend w2)) = [checked_out] /\
  rooms (backend w2) =
    [mkRoomRow "room-101" "101" (Some "type-deluxe") 500000 cleaning
       (Some "2024-01-10") (Some "2024-01-12");
     Scenario.room102] /\
  rooms (backend (advance 3000 w2)) = [Scenario.room101; Scenario.room102].
Proof.
  intros w w2.
  assert (Hfind : find (fun item => bool_decide (item_id item = "uuid-0"))
                    (guests_list (Scenario.state_listing checked_in))
                  = Some (Scenario.item_of checked_in)) by (vm_compute; reflexivity).
  assert (Hrun : checkoutMutation
                   (mkCheckoutPayload (item_id (Scenario.item_of checked_in))
                      (roomId (Scenario.item_of checked_in))) w
                 = (Returned tt,
                    snd (checkoutMutation
                           (mkCheckoutPayload (item_id (Scenario.item_of checked_in))
                              (roomId (Scenario.item_of checked_in))) w)))
    by (vm_compute; reflexivity).
  destruct (checkout_cleaning_then_available "uuid-0"
              (Scenario.state_listing checked_in) w _
              (Scenario.item_of checked_in) "room-101"
              Hfind eq_refl eq_refl eq_refl eq_refl Hrun)
    as ((Hg & Hr & _) & _ & _ & Ht & _ & Hacc & _).
  split; [exact Ht|]. split; [|split].
  - unfold w2. rewrite Hg. vm_compute. reflexivity.
  - unfold w2. rewrite Hr. vm_compute. reflexivity.
  - assert (Hnext : next_verdict w2 = None) by (vm_compute; reflexivity).
    destruct (Hacc Hnext) as ((_ & Hr3 & _) & _).
    unfold w2. rewrite Hr3, Hr. vm_compute. reflexivity.
Defined.

(** What the checkout does when, at each of the two attempts, the booking
    update is accepted and the room update is rejected: it throws the value
    of [error], which is [null], and sets no timer. *)
Lemma checkout_room_rejected payload rid w e1 e2 vs :
  c_roomId payload = Some rid -> Js.truthy rid = true ->
  verdicts w = None :: Some e1 :: None :: Some e2 :: vs ->
  exists w',
    checkoutMutation payload w = (Thrown JsNull, w') /\
    backend w' = apply (UpdateGuestStatus checked_out (c_guestId payload)) (backend w) /\
    timers w' = timers w /\ verdicts w' = vs.
Proof.
  intros Hroom Htruthy Hv. destruct w as [b script n tm ts cs inv].
  cbn [verdicts] in Hv. subst script. eexists. split.
  - eapply mutateAsync_thrown; unfold checkout_mutationFn; rewrite Hroom;
      run; rewrite Htruthy; run; reflexivity.
  - cbn [backend timers verdicts]. rewrite update_guest_status_twice. now repeat split.
Qed.

(** C9.  Checkout of the worked stay when the backend accepts the booking
    update and rejects the room update with error [denied], at the attempt
    and at its retry: the operation fails, but the value it throws is
    [null], not [denied]; the page shows its fallback text; the booking is
    left [checked-out] and the room [occupied]. *)
Theorem checkout_room_rejection_throws_null :
  let w := Scenario.world_with (Scenario.backend_booked checked_in)
             [None; Some Scenario.denied; None; Some Scenario.denied] in
  let payload := mkCheckoutPayload "uuid-0" (Some "room-101") in
  fst (checkoutMutation payload w) = Thrown JsNull /\
  fst (checkoutMutation payload w) <> Thrown (JsPostgrestError Scenario.denied) /\
  toasts (handleCheckout "uuid-0" (Scenario.state_listing checked_in) w) =
    [mkToast toast_error "Gagal melakukan check-out."] /\
  map booking_status (guests (backend (snd (checkoutMutation payload w)))) = [checked_out] /\
  map room_status (rooms (backend (snd (checkoutMutation payload w)))) = [occupied; available].
Proof.
  intros w payload.
  assert (Hrun : fst (checkoutMutation payload w) = Thrown JsNull)
    by (vm_compute; reflexivity).
  split; [exact Hrun|]. split; [rewrite Hrun; discriminate|].
  repeat split; vm_compute; reflexivity.
Qed.

(** *** The worked stay, end to end *)

(** Scenario A: booked as checked-in. *)
Example scenario_checked_in :
  nights Scenario.state0 = 2 /\ calculatedPrice Scenario.state0 = 1000000 /\
  backend (snd (handleAddGuest (Scenario.form_of checked_in) Scenario.state0 Scenario.world0))
  = Scenario.backend_booked checked_in.
Proof. repeat split; vm_compute; reflexivity. Qed.

(** Scenario B: booked as a reservation; no transaction. *)
Example scenario_reservation :
  backend (snd (handleAddGuest (Scenario.form_of reservation) Scenario.state0 Scenario.world0))
  = Scenario.backend_booked reservation /\
  transactions (Scenario.backend_booked reservation) = [].
Proof. split; vm_compute; reflexivity. Qed.

(** Scenario C: checkout of the checked-in stay, then the cleaning delay. *)
Example scenario_checkout :
  let w2 := handleCheckout "uuid-0" (Scenario.state_listing checked_in)
              (Scenario.world_with (Scenario.backend_booked checked_in) []) in
  map booking_status (guests (backend w2)) = [checked_out] /\
  map room_status (rooms (backend w2)) = [cleaning; available] /\
  map room_status (rooms (backend (advance 2999 w2))) = [cleaning; available] /\
  map room_status (rooms (backend (advance 3000 w2))) = [available; available] /\
  map room_reservation_date (rooms (backend (advance 3000 w2))) = [None; None].
Proof. repeat split; vm_compute; reflexivity. Qed.

(** Scenario D: checkout of the stay while it is a reservation. *)
Example scenario_checkout_refused :
  let w := Scenario.world_with (Scenario.backend_booked reservation) [] in
  backend (handleCheckout "uuid-0" (Scenario.state_listing reservation) w) = backend w.
Proof. vm_compute. reflexivity. Qed.

End GuestsFacts.

(** ** Display status of a room *)

Module RoomsFacts.

Import Rooms.

Section Derivation.

Variable tza : Z.

Lemma file_reservation_filed target m reservation :
  file_reservation tza target m reservation =
  match filed_under tza target reservation with
  | Some key => <[key := default [] (m !! key) ++ [summary_of reservation]]> m
  | None => m
  end.
Proof.
  unfold file_reservation, filed_under.
  destruct (res_room_id reservation) as [rid|]; [|reflexivity].
  destruct (negb (Js.truthy rid) || negb (Js.truthy (res_check_in reservation))
            || negb (Js.truthy (res_check_out reservation))); [reflexivity|].
  now destruct (within tza target reservation).
Qed.

(** What an iteration of the [forEach] does to the list kept for one room. *)
Lemma file_reservation_lookup target m reservation rid :
  default [] (file_reservation tza target m reservation !! rid) =
  default [] (m !! rid) ++
    (if bool_decide (filed_under tza target reservation = Some rid)
     then [summary_of reservation] else []).
Proof.
  rewrite file_reservation_filed.
  destruct (filed_under tza target reservation) as [key|] eqn:Hkey.
  - destruct (decide (key = rid)) as [->|Hne].
    + rewrite lookup_insert_eq, bool_decide_eq_true_2 by reflexivity. reflexivity.
    + rewrite lookup_insert_ne by exact Hne.
      rewrite bool_decide_eq_false_2 by congruence. now rewrite app_nil_r.
  - rewrite bool_decide_eq_false_2 by discriminate. now rewrite app_nil_r.
Qed.

(** The list kept for a room after the whole [forEach]: the summaries of
    the rows filed under that room, in the order of the query result. *)
Lemma fold_file_reservation_lookup target rows m rid :
  default [] (fold_left (file_reservation tza target) rows m !! rid) =
  default [] (m !! rid) ++
    map summary_of
      (List.filter (fun r => bool_decide (filed_under tza target r = Some rid)) rows).
Proof.
  revert m. induction rows as [|r rows IH]; intros m; cbn [fold_left List.filter].
  - now rewrite app_nil_r.
  - rewrite IH, file_reservation_lookup.
    destruct (bool_decide (filed_under tza target r = Some rid));
      cbn [map]; now rewrite <- app_assoc.
Qed.

Lemma todaysReservations_eq rows date rid :
  default [] (reservationsByRoom tza (Some rows) (Some date) !! rid) =
  map summary_of
    (List.filter
       (fun r => bool_decide (filed_under tza (JsDate.setHours0 tza date) r = Some rid))
       rows).
Proof.
  unfold reservationsByRoom. rewrite fold_file_reservation_lookup.
  now rewrite lookup_empty.
Qed.

Lemma midnight_of_truthy s t : midnight_of tza s = Some t -> Js.truthy s = true.
Proof.
  unfold midnight_of. destruct (JsDate.getTime s) as [t0|] eqn:E; [|discriminate].
  intros _. exact (CalculatorFacts.getTime_truthy _ _ E).
Qed.

(** A filed row is a booking of the room that overlaps the date. *)
Lemma filed_under_overlaps date room reservation :
  filed_under tza (JsDate.setHours0 tza date) reservation = Some (id room) ->
  overlaps tza date room reservation.
Proof.
  unfold filed_under, overlaps, within.
  destruct (res_room_id reservation) as [rid|]; [|discriminate].
  destruct (negb (Js.truthy rid) || negb (Js.truthy (res_check_in reservation))
            || negb (Js.truthy (res_check_out reservation))); [discriminate|].
  destruct (midnight_of tza (res_check_in reservation)) as [a|]; [|discriminate].
  destruct (midnight_of tza (res_check_out reservation)) as [b|]; [|discriminate].
  destruct ((a <=? JsDate.setHours0 tza date)
            && (JsDate.setHours0 tza date <=? b)) eqn:Hin; [|discriminate].
  apply andb_true_iff in Hin as [Ha Hb].
  intros [= ->]. split; [reflexivity|]. exists a, b.
  apply Z.leb_le in Ha. apply Z.leb_le in Hb. now repeat split.
Qed.

(** An overlapping booking of a room whose id is not empty is filed. *)
Lemma overlaps_filed_under date room reservation :
  id room <> "" ->
  overlaps tza date room reservation ->
  filed_under tza (JsDate.setHours0 tza date) reservation = Some (id room).
Proof.
  intros Hid (Hroom & a & b & Ha & Hb & Hle1 & Hle2).
  unfold filed_under, within. rewrite Hroom, Ha, Hb.
  rewrite (midnight_of_truthy _ _ Ha), (midnight_of_truthy _ _ Hb).
  assert (Ht : Js.truthy (id room) = true) by (now destruct (id room)).
  rewrite Ht. cbn [negb orb].
  apply Z.leb_le in Hle1. apply Z.leb_le in Hle2. now rewrite Hle1, Hle2.
Qed.

Lemma existsb_summary (l : list ReservationRow) :
  existsb (fun s => bool_decide (bookingStatus s = checked_in)) (map summary_of l) =
  existsb (fun r => bool_decide (res_booking_status r = checked_in)) l.
Proof. induction l as [|r l IH]; cbn [map existsb]; [reflexivity | now rewrite IH]. Qed.

(** [getDisplayStatus] for a room that is not being cleaned, once the
    reservations have loaded and a date is selected. *)
Lemma getDisplayStatus_dated rows date room :
  status room <> cleaning ->
  getDisplayStatus tza (Some rows) (Some date) room =
    let filed :=
      List.filter
        (fun r => bool_decide
                    (filed_under tza (JsDate.setHours0 tza date) r = Some (id room)))
        rows in
    match filed with
    | [] => status room
    | _ :: _ =>
        if existsb (fun r => bool_decide (res_booking_status r = checked_in)) filed
        then occupied else reserved
    end.
Proof.
  intros Hst. unfold getDisplayStatus.
  destruct (decide (status room = cleaning)) as [Hc|_]; [contradiction|].
  rewrite todaysReservations_eq. cbn zeta.
  set (filed := List.filter _ rows).
  destruct filed as [|r filed]; [reflexivity|].
  rewrite existsb_summary. reflexivity.
Qed.

(** With at least one overlapping booking and none of them checked in, the
    room is shown as reserved. *)
Lemma getDisplayStatus_reserved rows date room :
  status room <> cleaning -> id room <> "" ->
  (exists r, In r rows /\ overlaps tza date room r) ->
  (forall r, In r rows -> overlaps tza date room r ->
             res_booking_status r <> checked_in) ->
  getDisplayStatus tza (Some rows) (Some date) room = reserved.
Proof.
  intros Hst Hid (r & Hin & Hov) Hnone.
  rewrite getDisplayStatus_dated by exact Hst. cbn zeta.
  set (sel := fun r => bool_decide
                (filed_under tza (JsDate.setHours0 tza date) r = Some (id room))).
  assert (Hr : In r (List.filter sel rows)).
  { apply filter_In. split; [exact Hin|]. apply bool_decide_eq_true.
    now apply overlaps_filed_under. }
  destruct (List.filter sel rows) as [|r0 filed] eqn:Hfiled; [destruct Hr|].
  destruct (existsb _ (r0 :: filed)) eqn:Hex; [|reflexivity].
  apply existsb_exists in Hex as (x & Hx & Hxs).
  rewrite <- Hfiled in Hx. apply filter_In in Hx as [Hxin Hxsel].
  apply bool_decide_eq_true in Hxsel, Hxs.
  exfalso. exact (Hnone x Hxin (filed_under_overlaps _ _ _ Hxsel) Hxs).
Qed.

Lemma getDisplayStatus_occupied rows date room :
  status room <> cleaning -> id room <> "" ->
  (exists r, In r rows /\ overlaps tza date room r /\ res_booking_status r = checked_in) ->
  getDisplayStatus tza (Some rows) (Some date) room = occupied.
Proof.
  intros Hst Hid (r & Hin & Hov & Hci).
  rewrite getDisplayStatus_dated by exact Hst. cbn zeta.
  set (sel := fun r => bool_decide
                (filed_under tza (JsDate.setHours0 tza date) r = Some (id room))).
  assert (Hr : In r (List.filter sel rows)).
  { apply filter_In. split; [exact Hin|]. apply bool_decide_eq_true.
    now apply overlaps_filed_under. }
  destruct (List.filter sel rows) as [|r0 filed] eqn:Hfiled; [destruct Hr|].
  assert (Hex : existsb (fun r => bool_decide (res_booking_status r = checked_in))
                  (r0 :: filed) = true).
  { apply existsb_exists. exists r. split; [exact Hr|]. now apply bool_decide_eq_true. }
  now rewrite Hex.
Qed.

Lemma overlapping_is_listed rows date room r :
  id room <> "" -> In r rows -> overlaps tza date room r ->
  In (summary_of r)
     (default [] (reservationsByRoom tza (Some rows) (Some date) !! id room)).
Proof.
  intros Hid Hin Hov. rewrite todaysReservations_eq. apply in_map.
  apply filter_In. split; [exact Hin|]. apply bool_decide_eq_true.
  now apply overlaps_filed_under.
Qed.

Lemma overlapsb_iff date room reservation :
  overlapsb tza date room reservation = true <-> overlaps tza date room reservation.
Proof.
  unfold overlapsb, overlaps, within.
  rewrite andb_true_iff, bool_decide_eq_true.
  destruct (midnight_of tza (res_check_in reservation)) as [a|];
    destruct (midnight_of tza (res_check_out reservation)) as [b|];
    (split; [intros [Hroom Hin] | intros (Hroom & a' & b' & Ha & Hb & Hle)]);
    try discriminate.
  - split; [exact Hroom|]. exists a, b. apply andb_true_iff in Hin as [H1 H2].
    apply Z.leb_le in H1. apply Z.leb_le in H2. now repeat split.
  - injection Ha as <-. injection Hb as <-. split; [exact Hroom|].
    apply andb_true_iff. split; apply Z.leb_le; lia.
Qed.

End Derivation.

(** C4.  For a room that is not being cleaned and a selected date: when a
    booking of the room that overlaps the date is checked in, the room is
    shown as occupied, whatever other bookings overlap; when bookings
    overlap the date and all of them are reservations, the room is shown as
    reserved.  (A room's id is a generated key and is never empty.) *)
Theorem display_status_of_overlap
    (tza : Z) (rows : list ReservationRow) (date : Z) (room : Room) :
  status room <> cleaning -> id room <> "" ->
  ((exists r, In r rows /\ overlaps tza date room r /\
              res_booking_status r = checked_in) ->
   getDisplayStatus tza (Some rows) (Some date) room = occupied) /\
  ((exists r, In r rows /\ overlaps tza date room r) ->
   (forall r, In r rows -> overlaps tza date room r ->
              res_booking_status r = reservation) ->
   getDisplayStatus tza (Some rows) (Some date) room = reserved).
Proof.
  intros Hst Hid. split.
  - now apply getDisplayStatus_occupied.
  - intros Hsome Hall. apply getDisplayStatus_reserved; try assumption.
    intros r Hin Hov. rewrite (Hall r Hin Hov). discriminate.
Qed.

(** Room 101 on 11 January 2024, with a reservation and a checked-in stay
    that both cover the day. *)
Lemma display_status_of_overlap_witness :
  getDisplayStatus RoomsScenario.WIB
    (Some [RoomsScenario.sari; RoomsScenario.budi]) (Some RoomsScenario.jan11)
    (RoomsScenario.room101 available) = occupied /\
  getDisplayStatus RoomsScenario.WIB
    (Some [RoomsScenario.sari]) (Some RoomsScenario.jan11)
    (RoomsScenario.room101 available) = reserved.
Proof.
  assert (Hst : status (RoomsScenario.room101 available) <> cleaning) by discriminate.
  assert (Hid : id (RoomsScenario.room101 available) <> "") by discriminate.
  split.
  - apply (proj1 (display_status_of_overlap RoomsScenario.WIB
                    [RoomsScenario.sari; RoomsScenario.budi] RoomsScenario.jan11
                    (RoomsScenario.room101 available) Hst Hid)).
    exists RoomsScenario.budi. split; [right; left; reflexivity|].
    split; [|reflexivity]. apply overlapsb_iff. vm_compute. reflexivity.
  - apply (proj2 (display_status_of_overlap RoomsScenario.WIB
                    [RoomsScenario.sari] RoomsScenario.jan11
                    (RoomsScenario.room101 available) Hst Hid)).
    + exists RoomsScenario.sari. split; [left; reflexivity|].
      apply overlapsb_iff. vm_compute. reflexivity.
    + intros r Hin _. destruct Hin as [<-|[]]. reflexivity.
Defined.

(** C5.  A room whose stored status is [cleaning] is shown as cleaning
    whatever the reservations and the selected date are; and a room is shown
    with its stored status when no booking of it overlaps the selected
    date. *)
Theorem display_status_cleaning_or_stored
    (tza : Z) (data : option (list ReservationRow)) (selected : option Z) (room : Room) :
  (status room = cleaning -> getDisplayStatus tza data selected room = cleaning) /\
  ((forall rows date,
       data = Some rows -> selected = Some date ->
       forall r, In r rows -> ~ overlaps tza date room r) ->
   getDisplayStatus tza data selected room = status room).
Proof.
  split.
  - intros Hc. unfold getDisplayStatus.
    now destruct (decide (status room = cleaning)).
  - intros Hnone.
    destruct (decide (status room = cleaning)) as [Hc|Hst].
    { unfold getDisplayStatus. rewrite Hc. now destruct (decide (cleaning = cleaning)). }
    destruct selected as [date|], data as [rows|].
    + rewrite getDisplayStatus_dated by exact Hst. cbn zeta.
      destruct (List.filter _ rows) as [|r filed] eqn:Hfiled; [reflexivity|].
      assert (Hr : In r (r :: filed)) by now left.
      rewrite <- Hfiled in Hr. apply filter_In in Hr as [Hin Hsel].
      apply bool_decide_eq_true in Hsel.
      destruct (Hnone rows date eq_refl eq_refl r Hin
                  (filed_under_overlaps tza date room r Hsel)).
    + unfold getDisplayStatus.
      destruct (decide (status room = cleaning)); [contradiction|].
      unfold reservationsByRoom. now rewrite lookup_empty.
    + unfold getDisplayStatus. now destruct (decide (status room = cleaning)).
    + unfold getDisplayStatus. now destruct (decide (status room = cleaning)).
Qed.

(** Room 101 while it is cleaned, and room 101 on 20 January 2024, a day
    that no stay covers. *)
Lemma display_status_cleaning_or_stored_witness :
  getDisplayStatus RoomsScenario.WIB
    (Some [RoomsScenario.sari; RoomsScenario.budi]) (Some RoomsScenario.jan11)
    (RoomsScenario.room101 cleaning) = cleaning /\
  getDisplayStatus RoomsScenario.WIB
    (Some [RoomsScenario.sari; RoomsScenario.budi]) (Some RoomsScenario.jan20)
    (RoomsScenario.room101 occupied) = occupied.
Proof.
  split.
  - apply (proj1 (display_status_cleaning_or_stored RoomsScenario.WIB
                    (Some [RoomsScenario.sari; RoomsScenario.budi])
                    (Some RoomsScenario.jan11) (RoomsScenario.room101 cleaning))).
    reflexivity.
  - apply (proj2 (display_status_cleaning_or_stored RoomsScenario.WIB
                    (Some [RoomsScenario.sari; RoomsScenario.budi])
                    (Some RoomsScenario.jan20) (RoomsScenario.room101 occupied))).
    intros rows date Hrows Hdate r Hin Hov.
    injection Hrows as <-. injection Hdate as <-.
    apply overlapsb_iff in Hov.
    destruct Hin as [<-|[<-|[]]]; vm_compute in Hov; discriminate Hov.
Defined.

(** C10.  For a room that is not being cleaned: a checked-out booking that
    overlaps the selected date is kept in the list of the room, and when
    bookings overlap the date and all of them are checked out, the room is
    shown as reserved.  (A room's id is a generated key and is never
    empty.) *)
Theorem display_status_checked_out_counts
    (tza : Z) (rows : list ReservationRow) (date : Z) (room : Room) :
  status room <> cleaning -> id room <> "" ->
  (exists r, In r rows /\ overlaps tza date room r) ->
  (forall r, In r rows -> overlaps tza date room r ->
             res_booking_status r = checked_out) ->
  getDisplayStatus tza (Some rows) (Some date) room = reserved /\
  forall r, In r rows -> overlaps tza date room r ->
    In (summary_of r)
       (default [] (reservationsByRoom tza (Some rows) (Some date) !! id room)) /\
    bookingStatus (summary_of r) = checked_out.
Proof.
  intros Hst Hid Hsome Hall. split.
  - apply getDisplayStatus_reserved; try assumption.
    intros r Hin Hov. rewrite (Hall r Hin Hov). discriminate.
  - intros r Hin Hov. split.
    + now apply overlapping_is_listed.
    + exact (Hall r Hin Hov).
Qed.

(** Room 101 on 11 January 2024, the last day of a stay that has been
    checked out. *)
Lemma display_status_checked_out_counts_witness :
  getDisplayStatus RoomsScenario.WIB
    (Some [RoomsScenario.made]) (Some RoomsScenario.jan11)
    (RoomsScenario.room101 available) = reserved.
Proof.
  assert (Hst : status (RoomsScenario.room101 available) <> cleaning) by discriminate.
  assert (Hid : id (RoomsScenario.room101 available) <> "") by discriminate.
  refine (proj1 (display_status_checked_out_counts RoomsScenario.WIB
                   [RoomsScenario.made] RoomsScenario.jan11
                   (RoomsScenario.room101 available) Hst Hid _ _)).
  - exists RoomsScenario.made. split; [left; reflexivity|].
    apply overlapsb_iff. vm_compute. reflexivity.
  - intros r Hin _. destruct Hin as [<-|[]]. reflexivity.
Defined.

End RoomsFacts.

(** ** Booking submission and checkout, beyond the main path *)

Module BookingFacts.

Import Supabase Runtime Guests Booking.

Ltac run :=
  cbv [mbind Async_bind mret Async_ret throw request setTimeout js_of_error
       try_catch console_error toast];
  cbn [verdicts backend now timers toasts console invalidated fst snd].

(** *** What [handleAddGuest] does once the guards are passed *)

Lemma handleAddGuest_returned form st room w w1 :
  submittable st room ->
  addGuestMutation (payload_of form st room) w = (Returned tt, w1) ->
  handleAddGuest form st w =
    (reset_form st,
     snd (toast toast_error (Js.null_property_message "reset")
            (snd (toast toast_success "Tamu berhasil ditambahkan!"
                    (log_activity form st room w1))))).
Proof.
  intros (Htype & Hroom & Hn) Hrun. unfold handleAddGuest.
  rewrite Htype, Hroom. cbn [negb].
  destruct (Z.leb_spec (nights st) 0) as [Hle|_]; [lia|].
  change (addGuestMutation _ w) with (addGuestMutation (payload_of form st room) w).
  rewrite Hrun. reflexivity.
Qed.

Lemma handleAddGuest_thrown form st room w w1 v :
  submittable st room ->
  addGuestMutation (payload_of form st room) w = (Thrown v, w1) ->
  handleAddGuest form st w =
    (st, snd (toast toast_error (message_or "Gagal menambahkan tamu." v) w1)).
Proof.
  intros (Htype & Hroom & Hn) Hrun. unfold handleAddGuest.
  rewrite Htype, Hroom. cbn [negb].
  destruct (Z.leb_spec (nights st) 0) as [Hle|_]; [lia|].
  change (addGuestMutation _ w) with (addGuestMutation (payload_of form st room) w).
  rewrite Hrun. reflexivity.
Qed.

Lemma activity_text_truthy form room :
  Js.truthy (Js.trim (activity_text form room)) = true.
Proof.
  unfold activity_text.
  change ("Menerima tamu " +:+ ?x) with (String "M" ("enerima tamu " +:+ x)).
  destruct (JsFacts.trim_letter "M"
              ("enerima tamu " +:+ Js.trim (form_name form) +:+ " ("
                 +:+ (if bool_decide (form_bookingStatus form = checked_in)
                      then "check-in" else "reservasi")
                 +:+ ") di " +:+ ("Kamar " +:+ number room +:+ " • " +:+ typeName room)
                 +:+ ".") eq_refl) as [t Ht]; [apply Nat.ltb_lt; reflexivity|].
  rewrite Ht. reflexivity.
Qed.

(** What an attempt at booking creation leaves alone, whatever its
    outcome. *)
Lemma addGuest_mutationFn_quiet payload w o w1 :
  addGuest_mutationFn payload w = (o, w1) ->
  toasts w1 = toasts w /\ console w1 = console w /\ timers w1 = timers w /\
  now w1 = now w /\ user_activities (backend w1) = user_activities (backend w).
Proof.
  destruct w as [b vs n tm ts cs inv]. unfold addGuest_mutationFn.
  destruct (shouldCreateTransaction payload);
    destruct vs as [|[e1|] [|[e2|] [|[e3|] vs]]];
    GuestsFacts.run; intros E; injection E as _ <-; now repeat split.
Qed.

Lemma addGuestMutation_quiet payload w :
  let w' := snd (addGuestMutation payload w) in
  toasts w' = toasts w /\ console w' = console w /\ timers w' = timers w /\
  now w' = now w /\ user_activities (backend w') = user_activities (backend w).
Proof.
  apply (GuestsFacts.mutateAsync_preserves addGuest_mutationFn _ _ payload
           (fun w w' =>
              toasts w' = toasts w /\ console w' = console w /\ timers w' = timers w /\
              now w' = now w /\
              user_activities (backend w') = user_activities (backend w))
           GuestsFacts.addGuest_onSuccess_cache_only).
  - now repeat split.
  - intros w1 w2 w3 (A1 & B1 & C1 & D1 & E1) (A2 & B2 & C2 & D2 & E2).
    repeat split; congruence.
  - intros w0 o w1. apply addGuest_mutationFn_quiet.
  - intros w0 w1 (Hb & _ & Hn & Ht & Ho & Hc). repeat split; congruence.
Qed.

(** The rows that a booking creation which returned has added to [guests]:
    the row of the attempt that returned and, before it, at most the row of
    a first attempt that failed. *)
Lemma addGuestMutation_returned_guests payload w w' :
  addGuestMutation payload w = (Returned tt, w') ->
  exists earlier n,
    guests (backend w') =
      guests (backend w) ++ earlier ++ [guest_row_of payload (gen_random_uuid n)] /\
    (earlier = [] \/
     earlier = [guest_row_of payload (gen_random_uuid (uuid_seq (backend w)))]) /\
    (forall w1, addGuest_mutationFn payload w = (Returned tt, w1) -> earlier = []).
Proof.
  intros Hrun.
  apply (GuestsFacts.mutateAsync_inv_returned _ _ _ _ _ _
           GuestsFacts.addGuest_onSuccess_cache_only) in Hrun
    as (w0 & w1 & Hw0 & Hfn & (Hb & _)).
  apply GuestsFacts.addGuest_mutationFn_returned in Hfn. rewrite Hb, Hfn. cbn zeta.
  assert (Hg : forall b,
             guests (if shouldCreateTransaction payload
                     then apply (InsertTransaction (income_row_of payload))
                            (apply (UpdateRoom (roomUpdates payload) (p_roomId payload))
                               (apply (InsertGuest (guest_row_of payload)) b))
                     else apply (UpdateRoom (roomUpdates payload) (p_roomId payload))
                            (apply (InsertGuest (guest_row_of payload)) b))
             = guests b ++ [guest_row_of payload (gen_random_uuid (uuid_seq b))])
    by (intros b; now destruct (shouldCreateTransaction payload)).
  rewrite Hg. destruct Hw0 as [-> | (x & E)].
  - exists [], (uuid_seq (backend w)). split; [reflexivity|]. split; [now left|]. reflexivity.
  - destruct (GuestsFacts.addGuest_attempt_failed _ _ _ _ E) as (earlier & He & Hor & _).
    exists earlier, (uuid_seq (backend w0)). rewrite He, <- app_assoc.
    split; [reflexivity|]. split; [exact Hor|].
    intros w2 E2. rewrite E2 in E. discriminate.
Qed.

(** The refresh that follows the activity entry of [handleAddGuest]: the
    entry is written for the signed-in user, so the profile is read again
    unless the user's id is empty. *)
Lemma log_activity_run form st room w :
  match currentUser st with
  | None => log_activity form st room w = w
  | Some user =>
      toasts (log_activity form st room w) = toasts w /\
      timers (log_activity form st room w) = timers w /\
      match verdicts w with
      | Some _ :: vs =>
          backend (log_activity form st room w) = backend w /\
          verdicts (log_activity form st room w) = vs /\
          console (log_activity form st room w) =
            console w ++ ["Gagal mencatat aktivitas tamu"]
      | accepted =>
          backend (log_activity form st room w) =
            apply (InsertActivity
                     (fun new_id => mkActivityRow new_id (user_id user)
                                      (Js.trim (activity_text form room))))
                  (backend w) /\
          console (log_activity form st room w) =
            console w ++
              (if Js.truthy (user_id user)
               then match tl accepted with
                    | Some _ :: _ => ["Gagal mencatat aktivitas tamu"]
                    | _ => []
                    end
               else [])
      end
  end.
Proof.
  unfold log_activity. destruct (currentUser st) as [user|]; [|reflexivity].
  unfold recordActivity, loadCurrentUser. rewrite activity_text_truthy. cbn [negb].
  rewrite bool_decide_eq_true_2 by reflexivity.
  destruct w as [b vs n tm ts cs inv]. cbn [verdicts].
  destruct (Js.truthy (user_id user));
    destruct vs as [|[e|] [|[e'|] vs]]; run; rewrite ?app_nil_r; now repeat split.
Qed.

Lemma log_activity_tables form st room w :
  guests (backend (log_activity form st room w)) = guests (backend w) /\
  rooms (backend (log_activity form st room w)) = rooms (backend w) /\
  transactions (backend (log_activity form st room w)) = transactions (backend w) /\
  toasts (log_activity form st room w) = toasts w.
Proof.
  pose proof (log_activity_run form st room w) as H.
  destruct (currentUser st) as [user|]; [|now rewrite H].
  destruct H as (Ht & _ & H). split; [|split; [|split; [|exact Ht]]];
    destruct (verdicts w) as [|[e|] vs]; destruct H as [-> _]; reflexivity.
Qed.

(** *** The guards on the room *)

(** Without a room type, without a room id, or with a room id that is not
    in the loaded list of rooms, [handleAddGuest] stops with an error
    notification: the form is kept, no request is sent, no timer is set. *)
Theorem handleAddGuest_requires_room (form : FormData) (st : State) (w : World) :
  selectedRoomTypeId st = "" \/ selectedRoomId st = "" \/
  (forall room, In room (rooms_list st) -> id room <> selectedRoomId st) ->
  fst (handleAddGuest form st w) = st /\
  no_write w (snd (handleAddGuest form st w)) /\
  exists text,
    toasts (snd (handleAddGuest form st w)) = toasts w ++ [mkToast toast_error text].
Proof.
  intros H.
  assert (Hstop : exists text,
             handleAddGuest form st w = (st, snd (toast toast_error text w))).
  { unfold handleAddGuest.
    destruct (Js.truthy (selectedRoomTypeId st)) eqn:Htype; cbn [negb]; [|eauto].
    assert (Hnone : selectedRoom st = None).
    { destruct H as [H | [H | H]].
      - rewrite H in Htype. discriminate.
      - unfold selectedRoom. now rewrite H.
      - unfold selectedRoom. destruct (Js.truthy (selectedRoomId st)); [|reflexivity].
        cbn [negb]. destruct (find _ (rooms_list st)) as [room|] eqn:Hfind; [|reflexivity].
        apply find_some in Hfind as [Hin Hid]. apply bool_decide_eq_true in Hid.
        destruct (H room Hin Hid). }
    rewrite Hnone. eauto. }
  destruct Hstop as [text ->]. cbn [fst snd].
  split; [reflexivity|]. split; [now repeat split|]. now exists text.
Qed.

Lemma handleAddGuest_requires_room_witness :
  backend (snd (handleAddGuest (Scenario.form_of checked_in)
                  (mkState [Scenario.option101] [] true "type-deluxe" "room-999"
                     "2024-01-10" "2024-01-12" None)
                  Scenario.world0)) = Scenario.backend0.
Proof.
  refine (proj1 (proj1 (proj2 (handleAddGuest_requires_room (Scenario.form_of checked_in)
                   (mkState [Scenario.option101] [] true "type-deluxe" "room-999"
                      "2024-01-10" "2024-01-12" None)
                   Scenario.world0 _)))).
  right. right. intros room Hin. destruct Hin as [<-|[]]. discriminate.
Defined.

(** *** The stored booking *)

(** When the form passes the guards and the booking mutation returns, the
    form is reset and two notifications are shown, the success one and then
    the report of the TypeError that the reset of the form element throws.
    Table [guests] has gained the booking row, after at most one more row of
    the same booking left by a first attempt that failed.  Each of these
    rows carries what the form computed: the number of nights of the two
    dates, at least 1, the price of the selected room as price per night,
    the calculated price as total price, which is their product when that
    is at most 2^53, the selected room, the chosen status, the trimmed name
    and the id of the user who is signed in. *)
Theorem handleAddGuest_stores_snapshot
    (form : FormData) (st : State) (room : RoomOption) (w w1 : World) :
  submittable st room ->
  addGuestMutation (payload_of form st room) w = (Returned tt, w1) ->
  fst (handleAddGuest form st w) = reset_form st /\
  toasts (snd (handleAddGuest form st w))
    = toasts w ++ [mkToast toast_success "Tamu berhasil ditambahkan!";
                   mkToast toast_error (Js.null_property_message "reset")] /\
  exists earlier g,
    guests (backend (snd (handleAddGuest form st w))) = guests (backend w) ++ earlier ++ [g] /\
    (length earlier <= 1)%nat /\
    (forall w0, addGuest_mutationFn (payload_of form st room) w = (Returned tt, w0) ->
                earlier = []) /\
    forall g', In g' (earlier ++ [g]) ->
      guest_nights g' = Calculator.nights (checkInDate st) (checkOutDate st) /\
      1 <= guest_nights g' /\
      price_per_night g' = price room /\
      total_price g' = calculatedPrice st /\
      (Z.abs (guest_nights g' * price_per_night g') <= 2 ^ 53 ->
       total_price g' = guest_nights g' * price_per_night g') /\
      check_in g' = checkInDate st /\ check_out g' = checkOutDate st /\
      room_id g' = Some (id room) /\
      booking_status g' = form_bookingStatus form /\
      guest_name g' = Js.trim (form_name form) /\
      received_by g' = user_id <$> currentUser st.
Proof.
  intros Hsub Hrun. rewrite (handleAddGuest_returned _ _ _ _ _ Hsub Hrun). cbn [fst].
  split; [reflexivity|].
  destruct (log_activity_tables form st room w1) as (Hlg & _ & _ & Hlt).
  split.
  { cbn [toast snd toasts]. rewrite Hlt.
    pose proof (addGuestMutation_quiet (payload_of form st room) w) as (Ht & _).
    rewrite Hrun in Ht. cbn [snd] in Ht. rewrite Ht, <- app_assoc. reflexivity. }
  destruct (addGuestMutation_returned_guests _ _ _ Hrun) as (earlier & n & Hg & He & Hnone).
  exists earlier, (guest_row_of (payload_of form st room) (gen_random_uuid n)).
  split; [cbn [toast snd backend]; now rewrite Hlg|].
  split; [destruct He as [-> | ->]; cbn; lia|]. split; [exact Hnone|].
  assert (Hrow : forall new_id,
             let g' := guest_row_of (payload_of form st room) new_id in
             guest_nights g' = Calculator.nights (checkInDate st) (checkOutDate st) /\
             1 <= guest_nights g' /\
             price_per_night g' = price room /\
             total_price g' = calculatedPrice st /\
             (Z.abs (guest_nights g' * price_per_night g') <= 2 ^ 53 ->
              total_price g' = guest_nights g' * price_per_night g') /\
             check_in g' = checkInDate st /\ check_out g' = checkOutDate st /\
             room_id g' = Some (id room) /\
             booking_status g' = form_bookingStatus form /\
             guest_name g' = Js.trim (form_name form) /\
             received_by g' = user_id <$> currentUser st).
  { intros new_id g'. unfold g'.
    destruct Hsub as (_ & Hroom & Hn).
    pose proof (GuestsFacts.calculatedPrice_selected st room Hroom) as Hprice.
    unfold nights in Hn.
    cbn [guest_row_of payload_of guest_nights price_per_night total_price check_in
         check_out room_id booking_status guest_name received_by p_nights
         p_pricePerNight p_totalPrice p_checkIn p_checkOut p_roomId p_bookingStatus
         p_name p_receivedBy].
    split; [reflexivity|]. split; [unfold nights; lia|]. split; [reflexivity|].
    split; [reflexivity|].
    split; [intros Hle; rewrite Hprice; now apply JsFacts.double_exact|].
    now repeat split. }
  intros g' Hin. apply in_app_or in Hin as [Hin | [<- | []]]; [|apply Hrow].
  destruct He as [-> | ->]; [destruct Hin|]. destruct Hin as [<- | []]. apply Hrow.
Qed.

Lemma handleAddGuest_stores_snapshot_witness :
  exists g,
    guests (backend (snd (handleAddGuest (Scenario.form_of reservation)
                            Scenario.state0 Scenario.world0))) = [g] /\
    total_price g = guest_nights g * price_per_night g.
Proof.
  assert (Hsub : submittable Scenario.state0 Scenario.option101).
  { split; [reflexivity|]. split; [vm_compute; reflexivity|]. vm_compute. reflexivity. }
  assert (Hrun : addGuestMutation
                   (payload_of (Scenario.form_of reservation) Scenario.state0
                      Scenario.option101) Scenario.world0
                 = (Returned tt,
                    snd (addGuestMutation
                           (payload_of (Scenario.form_of reservation) Scenario.state0
                              Scenario.option101) Scenario.world0)))
    by (vm_compute; reflexivity).
  destruct (handleAddGuest_stores_snapshot _ _ _ _ _ Hsub Hrun)
    as (_ & _ & earlier & g & Hg & _ & Hnone & Hrows).
  assert (Hfirst : addGuest_mutationFn
                     (payload_of (Scenario.form_of reservation) Scenario.state0
                        Scenario.option101) Scenario.world0
                   = (Returned tt,
                      snd (addGuest_mutationFn
                             (payload_of (Scenario.form_of reservation) Scenario.state0
                                Scenario.option101) Scenario.world0)))
    by (vm_compute; reflexivity).
  rewrite (Hnone _ Hfirst) in Hg, Hrows.
  exists g. split; [exact Hg|].
  destruct (Hrows g (or_introl eq_refl)) as (Hn & _ & Hp & _ & Hexact & _).
  apply Hexact. rewrite Hn, Hp. vm_compute. discriminate.
Defined.

(** *** The activity log *)

(** After a booking that went through, the activity entry is best effort,
    and the form reports success whatever becomes of it.  With nobody
    signed in nothing more is sent.  With a user signed in, only the
    activity log can change: when the backend rejects the entry, the tables
    stay as the booking left them and the failure goes to the console; when
    it accepts the entry, one entry with the user's id is added, and the
    profile is read again: a rejection of that read goes to the console as
    well, the entry staying stored. *)
Theorem handleAddGuest_activity_best_effort
    (form : FormData) (st : State) (room : RoomOption) (w w1 : World) :
  submittable st room ->
  addGuestMutation (payload_of form st room) w = (Returned tt, w1) ->
  let w' := snd (handleAddGuest form st w) in
  toasts w' = toasts w1 ++ [mkToast toast_success "Tamu berhasil ditambahkan!";
                            mkToast toast_error (Js.null_property_message "reset")] /\
  (guests (backend w') = guests (backend w1) /\ rooms (backend w') = rooms (backend w1) /\
   transactions (backend w') = transactions (backend w1)) /\
  (currentUser st = None ->
   backend w' = backend w1 /\ verdicts w' = verdicts w1 /\ console w' = console w1) /\
  (forall user, currentUser st = Some user ->
     (forall e, next_verdict w1 = Some e ->
        backend w' = backend w1 /\
        console w' = console w1 ++ ["Gagal mencatat aktivitas tamu"]) /\
     (next_verdict w1 = None ->
        (exists entry,
            user_activities (backend w') = user_activities (backend w1) ++ [entry] /\
            activity_user_id entry = user_id user /\
            activity_message entry = Js.trim (activity_text form room)) /\
        (user_id user = "" \/ hd None (tl (verdicts w1)) = None ->
         console w' = console w1) /\
        (forall e, user_id user <> "" -> hd None (tl (verdicts w1)) = Some e ->
           console w' = console w1 ++ ["Gagal mencatat aktivitas tamu"]))).
Proof.
  intros Hsub Hrun w'. unfold w'.
  rewrite (handleAddGuest_returned _ _ _ _ _ Hsub Hrun).
  cbn [snd toast toasts backend console verdicts].
  pose proof (log_activity_run form st room w1) as Hlog.
  destruct (log_activity_tables form st room w1) as (Hg & Hr & Htx & Hts).
  split; [rewrite Hts, <- app_assoc; reflexivity|].
  split; [now repeat split|]. split.
  - intros Hnone. rewrite Hnone in Hlog. now rewrite Hlog.
  - intros user Huser. rewrite Huser in Hlog. destruct Hlog as (_ & _ & Hlog).
    unfold next_verdict. split.
    + intros e He. destruct (verdicts w1) as [|[e1|] vs]; try discriminate He.
      destruct Hlog as (Hb & _ & Hc). now split.
    + intros Hacc.
      assert (Hlog' :
                backend (log_activity form st room w1) =
                  apply (InsertActivity
                           (fun new_id => mkActivityRow new_id (user_id user)
                                            (Js.trim (activity_text form room))))
                        (backend w1) /\
                console (log_activity form st room w1) =
                  console w1 ++
                    (if Js.truthy (user_id user)
                     then match tl (verdicts w1) with
                          | Some _ :: _ => ["Gagal mencatat aktivitas tamu"]
                          | _ => []
                          end
                     else []))
        by (destruct (verdicts w1) as [|[e1|] vs]; [exact Hlog | discriminate Hacc | exact Hlog]).
      destruct Hlog' as (Hb & Hc). rewrite Hb, Hc. split; [|split].
      * eexists. split; [reflexivity|]. now split.
      * intros [Hid | Hnext].
        -- rewrite Hid. cbn [Js.truthy]. apply app_nil_r.
        -- destruct (Js.truthy (user_id user)); [|apply app_nil_r].
           destruct (tl (verdicts w1)) as [|[e2|] vs]; try discriminate Hnext; apply app_nil_r.
      * intros e Hid Hnext. destruct (user_id user) as [|c s]; [contradiction|].
        cbn [Js.truthy].
        destruct (tl (verdicts w1)) as [|[e2|] vs]; try discriminate Hnext. reflexivity.
Qed.

(** The worked stay booked as a reservation, the activity entry accepted
    and the reading of the profile rejected. *)
Lemma handleAddGuest_activity_best_effort_witness :
  let w := Scenario.world_with Scenario.backend0
             [None; None; None; Some Scenario.denied] in
  let w' := snd (handleAddGuest (Scenario.form_of reservation) Scenario.state0 w) in
  length (user_activities (backend w')) = 1%nat /\
  console w' = ["Gagal mencatat aktivitas tamu"].
Proof.
  intros w w'.
  assert (Hsub : submittable Scenario.state0 Scenario.option101).
  { split; [reflexivity|]. split; [vm_compute; reflexivity|]. vm_compute. reflexivity. }
  assert (Hrun : addGuestMutation
                   (payload_of (Scenario.form_of reservation) Scenario.state0
                      Scenario.option101) w
                 = (Returned tt,
                    snd (addGuestMutation
                           (payload_of (Scenario.form_of reservation) Scenario.state0
                              Scenario.option101) w)))
    by (vm_compute; reflexivity).
  destruct (handleAddGuest_activity_best_effort _ _ _ _ _ Hsub Hrun)
    as (_ & _ & _ & Huser).
  destruct (Huser Scenario.staff1 eq_refl) as (_ & Hacc).
  assert (Hnext : next_verdict
                    (snd (addGuestMutation
                            (payload_of (Scenario.form_of reservation) Scenario.state0
                               Scenario.option101) w)) = None)
    by (vm_compute; reflexivity).
  destruct (Hacc Hnext) as ((entry & He & _) & _ & Hrej).
  split.
  - unfold w'. rewrite He. vm_compute. reflexivity.
  - unfold w'. rewrite (Hrej Scenario.denied); [reflexivity | discriminate | reflexivity].
Defined.

(** *** Failure of the booking mutation *)

Lemma addGuest_mutationFn_throws payload w x wf :
  addGuest_mutationFn payload w = (Thrown x, wf) -> exists e, x = JsPostgrestError e.
Proof.
  destruct w as [b vs n tm ts cs inv]. unfold addGuest_mutationFn.
  destruct (shouldCreateTransaction payload);
    destruct vs as [|[e1|] [|[e2|] [|[e3|] vs]]];
    GuestsFacts.run; intros E; try discriminate E; injection E as <- _; eauto.
Qed.

(** When the booking mutation throws, both attempts have thrown, and what
    is thrown is the error object of the backend that the second attempt
    met.  The form is kept as it is (the dialog stays open, nothing is
    cleared), the fallback text is shown, the error object not being an
    [Error], and nothing more is sent: no activity entry is attempted. *)
Theorem handleAddGuest_failure_keeps_form
    (form : FormData) (st : State) (room : RoomOption) (w w1 : World) (v : JsValue) :
  submittable st room ->
  addGuestMutation (payload_of form st room) w = (Thrown v, w1) ->
  fst (handleAddGuest form st w) = st /\
  no_write w1 (snd (handleAddGuest form st w)) /\
  user_activities (backend (snd (handleAddGuest form st w))) = user_activities (backend w) /\
  (exists x wf,
      addGuest_mutationFn (payload_of form st room) w = (Thrown x, wf) /\
      addGuest_mutationFn (payload_of form st room) wf = (Thrown v, w1)) /\
  (exists e, v = JsPostgrestError e) /\
  toasts (snd (handleAddGuest form st w))
    = toasts w ++ [mkToast toast_error "Gagal menambahkan tamu."].
Proof.
  intros Hsub Hrun. rewrite (handleAddGuest_thrown _ _ _ _ _ _ Hsub Hrun). cbn [fst snd].
  pose proof (addGuestMutation_quiet (payload_of form st room) w) as (Hts & _ & _ & _ & Hact).
  rewrite Hrun in Hts, Hact. cbn [snd] in Hts, Hact.
  destruct (GuestsFacts.mutateAsync_inv_thrown _ _ _ _ _ _ _
              GuestsFacts.addGuest_onSuccess_cache_only Hrun) as (x & wf & E1 & E2).
  destruct (addGuest_mutationFn_throws _ _ _ _ E2) as (e & ->).
  split; [reflexivity|]. split; [now repeat split|]. split; [exact Hact|].
  split; [now exists x, wf|]. split; [now exists e|].
  cbn [toast snd toasts message_or]. now rewrite Hts.
Qed.

Lemma handleAddGuest_failure_keeps_form_witness :
  let w := Scenario.world_with Scenario.backend0
             [Some Scenario.denied; Some Scenario.denied] in
  fst (handleAddGuest (Scenario.form_of checked_in) Scenario.state0 w) = Scenario.state0 /\
  toasts (snd (handleAddGuest (Scenario.form_of checked_in) Scenario.state0 w))
    = [mkToast toast_error "Gagal menambahkan tamu."].
Proof.
  intros w.
  assert (Hsub : submittable Scenario.state0 Scenario.option101).
  { split; [reflexivity|]. split; [vm_compute; reflexivity|]. vm_compute. reflexivity. }
  assert (Hrun : addGuestMutation
                   (payload_of (Scenario.form_of checked_in) Scenario.state0
                      Scenario.option101) w
                 = (Thrown (JsPostgrestError Scenario.denied),
                    snd (addGuestMutation
                           (payload_of (Scenario.form_of checked_in) Scenario.state0
                              Scenario.option101) w)))
    by (vm_compute; reflexivity).
  destruct (handleAddGuest_failure_keeps_form _ _ _ _ _ _ Hsub Hrun)
    as (Hst & _ & _ & _ & _ & Hts).
  split; [exact Hst | exact Hts].
Defined.

(** When the backend rejects the booking insert, the first request, at the
    attempt and again at its retry, the operation throws the second error
    and has written nothing; the room update and the transaction insert are
    not sent.  When it rejects the insert at the attempt only, the retry
    goes through and the operation returns. *)
Theorem booking_insert_rejected_writes_nothing
    (payload : AddGuestPayload) (w : World) (e1 : PostgrestError) :
  (forall e2 vs,
      verdicts w = Some e1 :: Some e2 :: vs ->
      exists w',
        addGuestMutation payload w = (Thrown (JsPostgrestError e2), w') /\
        backend w' = backend w /\ verdicts w' = vs /\ timers w' = timers w) /\
  (verdicts w = [Some e1] ->
   exists w',
     addGuestMutation payload w = (Returned tt, w') /\
     guests (backend w') =
       guests (backend w) ++ [guest_row_of payload (gen_random_uuid (uuid_seq (backend w)))]).
Proof.
  destruct w as [b script n tm ts cs inv]. cbn [verdicts backend timers]. split.
  - intros e2 vs ->. eexists. split.
    + eapply GuestsFacts.mutateAsync_thrown; unfold addGuest_mutationFn;
        GuestsFacts.run; reflexivity.
    + now repeat split.
  - intros ->.
    destruct (GuestsFacts.mutateAsync_second addGuest_mutationFn
                ["guests"; "rooms"; "transactions"] addGuest_onSuccess payload
                (mkWorld b [Some e1] n tm ts cs inv) (JsPostgrestError e1)
                (mkWorld b [] n tm ts cs inv)
                (snd (addGuest_mutationFn payload (mkWorld b [] n tm ts cs inv)))
                GuestsFacts.addGuest_onSuccess_cache_only)
      as (w' & Hrun & (Hb & _)).
    + unfold addGuest_mutationFn. GuestsFacts.run. reflexivity.
    + unfold addGuest_mutationFn.
      destruct (shouldCreateTransaction payload); GuestsFacts.run; reflexivity.
    + exists w'. split; [exact Hrun|]. rewrite Hb. unfold addGuest_mutationFn.
      destruct (shouldCreateTransaction payload); GuestsFacts.run; reflexivity.
Qed.

Lemma booking_insert_rejected_writes_nothing_witness :
  exists w',
    addGuestMutation (Scenario.payload_of checked_in)
      (Scenario.world_with Scenario.backend0 [Some Scenario.denied; Some Scenario.denied])
    = (Thrown (JsPostgrestError Scenario.denied), w') /\
    backend w' = Scenario.backend0.
Proof.
  destruct (proj1 (booking_insert_rejected_writes_nothing (Scenario.payload_of checked_in)
              (Scenario.world_with Scenario.backend0
                 [Some Scenario.denied; Some Scenario.denied])
              Scenario.denied) Scenario.denied [] eq_refl) as (w' & Hrun & Hb & _).
  exists w'. split; [exact Hrun | exact Hb].
Defined.

(** *** What a booking creation leaves alone *)

(** The last attempt of a mutation, whatever the outcome: it started from
    the world given or from the world a first, failed attempt left, and
    apart from the cache the mutation ends where it ended. *)
Lemma mutateAsync_outcome {V} (f : V -> Async unit) keys onSuccess v w o w' :
  cache_only onSuccess -> mutateAsync f keys onSuccess v w = (o, w') ->
  exists w0 o1 w1,
    (w0 = w \/ exists x, f v w = (Thrown x, w0)) /\
    f v w0 = (o1, w1) /\ backend w' = backend w1 /\ verdicts w' = verdicts w1 /\
    timers w' = timers w1 /\ now w' = now w1.
Proof.
  intros HS E. destruct o as [[]|y].
  - apply GuestsFacts.mutateAsync_inv_returned in E
      as (w0 & w1 & Hw0 & E2 & (Hb & Hv & Hn & Ht & _)); [|exact HS].
    exists w0, (Returned tt), w1. now repeat split.
  - apply GuestsFacts.mutateAsync_inv_thrown in E as (x & wf & E1 & E2); [|exact HS].
    exists wf, (Thrown y), w'. split; [right; now exists x|]. now repeat split.
Qed.

Lemma room_kept_refl roomId (l : list RoomRow) : Forall2 (room_kept roomId) l l.
Proof. induction l; constructor; [now repeat split | assumption]. Qed.

Lemma room_kept_trans roomId (l1 l2 l3 : list RoomRow) :
  Forall2 (room_kept roomId) l1 l2 -> Forall2 (room_kept roomId) l2 l3 ->
  Forall2 (room_kept roomId) l1 l3.
Proof.
  apply Forall2_trans.
  intros r1 r2 r3 (A1 & B1 & C1 & D1 & E1) (A2 & B2 & C2 & D2 & E2).
  repeat split; try congruence.
  intros Hne. rewrite E2, E1; congruence.
Qed.

Lemma room_kept_update u roomId (l : list RoomRow) :
  Forall2 (room_kept roomId) l
    (map (fun r => if decide (room_id_col r = roomId) then apply_room_update u r else r) l).
Proof.
  induction l as [|r l IH]; cbn [map]; constructor; [|exact IH].
  destruct (decide (room_id_col r = roomId)) as [Heq|Hne]; now repeat split.
Qed.

(** The tables after an attempt at booking creation, whatever its outcome:
    the accepted writes, in order, and nothing else. *)
Lemma addGuest_mutationFn_backend payload w o w1 :
  addGuest_mutationFn payload w = (o, w1) ->
  let b1 := apply (InsertGuest (guest_row_of payload)) (backend w) in
  let b2 := apply (UpdateRoom (roomUpdates payload) (p_roomId payload)) b1 in
  let b3 := apply (InsertTransaction (income_row_of payload)) b2 in
  backend w1 = backend w \/ backend w1 = b1 \/ backend w1 = b2 \/ backend w1 = b3.
Proof.
  destruct w as [b vs n tm ts cs inv]. unfold addGuest_mutationFn. cbn zeta.
  destruct (shouldCreateTransaction payload);
    destruct vs as [|[e1|] [|[e2|] [|[e3|] vs]]];
    GuestsFacts.run; intros E; injection E as _ <-; cbn [backend]; auto.
Qed.

(** What one attempt at booking creation changes. *)
Lemma addGuest_attempt_frame payload w o w1 :
  addGuest_mutationFn payload w = (o, w1) ->
  Forall2 (room_kept (p_roomId payload)) (rooms (backend w)) (rooms (backend w1)) /\
  (exists new, guests (backend w1) = guests (backend w) ++ new /\ (length new <= 1)%nat) /\
  (exists new,
      transactions (backend w1) = transactions (backend w) ++ new /\
      (length new <= 1)%nat) /\
  (forall x, o = Thrown x -> transactions (backend w1) = transactions (backend w)).
Proof.
  intros Hfn. split; [|split; [|split]].
  - destruct (addGuest_mutationFn_backend _ _ _ _ Hfn) as [-> | [-> | [-> | ->]]];
      cbn [apply rooms]; first [apply room_kept_refl | apply room_kept_update].
  - destruct (addGuest_mutationFn_backend _ _ _ _ Hfn) as [-> | [-> | [-> | ->]]];
      cbn [apply guests];
      first [exists []; split; [now rewrite app_nil_r | cbn; lia]
            | eexists; split; [reflexivity | cbn; lia]].
  - destruct (addGuest_mutationFn_backend _ _ _ _ Hfn) as [-> | [-> | [-> | ->]]];
      cbn [apply transactions];
      first [exists []; split; [now rewrite app_nil_r | cbn; lia]
            | eexists; split; [reflexivity | cbn; lia]].
  - intros x ->.
    destruct (GuestsFacts.addGuest_attempt_failed _ _ _ _ Hfn) as (_ & _ & _ & _ & Ht).
    exact Ht.
Qed.

(** Whatever its outcome, a booking creation rewrites rows of the assigned
    room only, and there only the status and the two dates; it adds at most
    two rows to [guests], one for each attempt, and at most one to
    [transactions], changes no row that was there, does not touch the
    activity log and sets no timer. *)
Theorem booking_creation_touches_one_room
    (payload : AddGuestPayload) (w w' : World) (o : Outcome unit) :
  addGuestMutation payload w = (o, w') ->
  Forall2 (room_kept (p_roomId payload)) (rooms (backend w)) (rooms (backend w')) /\
  (exists new, guests (backend w') = guests (backend w) ++ new /\ (length new <= 2)%nat) /\
  (exists new,
      transactions (backend w') = transactions (backend w) ++ new /\
      (length new <= 1)%nat) /\
  user_activities (backend w') = user_activities (backend w) /\
  timers w' = timers w.
Proof.
  intros Hrun.
  pose proof (addGuestMutation_quiet payload w) as (_ & _ & Htm & _ & Hact).
  rewrite Hrun in Htm, Hact. cbn [snd] in Htm, Hact.
  apply (mutateAsync_outcome _ _ _ _ _ _ _ GuestsFacts.addGuest_onSuccess_cache_only)
    in Hrun as (w0 & o1 & w1 & Hw0 & Hfn & Hb & _).
  rewrite Hb in Hact |- *.
  destruct (addGuest_attempt_frame _ _ _ _ Hfn)
    as (Hr2 & (new2 & Hg2 & Hl2) & (newt & Ht2 & Hlt) & _).
  destruct Hw0 as [-> | (x & E)].
  - split; [exact Hr2|]. split; [exists new2; split; [exact Hg2 | lia]|].
    split; [now exists newt|]. now split.
  - destruct (addGuest_attempt_frame _ _ _ _ E)
      as (Hr1 & (new1 & Hg1 & Hl1) & _ & Ht1).
    split; [exact (room_kept_trans _ _ _ _ Hr1 Hr2)|]. split; [|split].
    + exists (new1 ++ new2). rewrite Hg2, Hg1, <- app_assoc. split; [reflexivity|].
      rewrite length_app. lia.
    + exists newt. rewrite Ht2, (Ht1 x eq_refl). now split.
    + now split.
Qed.

Lemma booking_creation_touches_one_room_witness :
  let w' := snd (addGuestMutation (Scenario.payload_of checked_in) Scenario.world0) in
  Forall2 (room_kept "room-101") [Scenario.room101; Scenario.room102] (rooms (backend w')).
Proof.
  intros w'.
  assert (Hrun : addGuestMutation (Scenario.payload_of checked_in) Scenario.world0
                 = (Returned tt, w')) by (vm_compute; reflexivity).
  exact (proj1 (booking_creation_touches_one_room _ _ _ _ Hrun)).
Defined.

(** *** Checkout, beyond the main path *)

(** [handleCheckout] with an id that is not in the page's list of guests
    shows an error and sends nothing. *)
Theorem handleCheckout_unknown_guest (guestId : string) (st : State) (w : World) :
  (forall item, In item (guests_list st) -> item_id item <> guestId) ->
  no_write w (handleCheckout guestId st w) /\
  toasts (handleCheckout guestId st w)
    = toasts w ++ [mkToast toast_error "Data tamu tidak ditemukan."].
Proof.
  intros Hnone. unfold handleCheckout.
  destruct (find _ (guests_list st)) as [guest|] eqn:Hfind.
  - apply find_some in Hfind as [Hin Hid]. apply bool_decide_eq_true in Hid.
    destruct (Hnone guest Hin Hid).
  - split; [now repeat split | reflexivity].
Qed.

Lemma handleCheckout_unknown_guest_witness :
  let w := Scenario.world_with (Scenario.backend_booked checked_in) [] in
  backend (handleCheckout "uuid-7" (Scenario.state_listing checked_in) w) = backend w.
Proof.
  intros w.
  refine (proj1 (proj1 (handleCheckout_unknown_guest "uuid-7"
                          (Scenario.state_listing checked_in) w _))).
  intros item Hin. destruct Hin as [<-|[]]. discriminate.
Defined.

(** When the backend rejects the update of the booking, the first request
    of a checkout, at the attempt and again at its retry, the checkout
    throws the second error object, the page shows its fallback text, the
    error object not being an [Error], and nothing has changed: the booking
    is still checked in, the room is untouched, no timer is set and the room
    update is not sent. *)
Theorem handleCheckout_booking_update_rejected
    (guestId : string) (st : State) (w : World) (guest : GuestItem)
    (e1 e2 : PostgrestError) (vs : list (option PostgrestError)) :
  find (fun item => bool_decide (item_id item = guestId)) (guests_list st) = Some guest ->
  bookingStatus guest = checked_in ->
  verdicts w = Some e1 :: Some e2 :: vs ->
  checkoutMutation (mkCheckoutPayload (item_id guest) (roomId guest)) w
    = (Thrown (JsPostgrestError e2),
       mkWorld (backend w) vs (now w) (timers w) (toasts w) (console w) (invalidated w)) /\
  backend (handleCheckout guestId st w) = backend w /\
  timers (handleCheckout guestId st w) = timers w /\
  verdicts (handleCheckout guestId st w) = vs /\
  toasts (handleCheckout guestId st w)
    = toasts w ++ [mkToast toast_error "Gagal melakukan check-out."].
Proof.
  intros Hfind Hstatus Hv.
  assert (Hrun : checkoutMutation (mkCheckoutPayload (item_id guest) (roomId guest)) w
                 = (Thrown (JsPostgrestError e2),
                    mkWorld (backend w) vs (now w) (timers w) (toasts w) (console w)
                      (invalidated w))).
  { apply (GuestsFacts.mutateAsync_thrown _ _ _ _ _ (JsPostgrestError e1)
             (mkWorld (backend w) (Some e2 :: vs) (now w) (timers w) (toasts w)
                (console w) (invalidated w)));
      unfold checkout_mutationFn; GuestsFacts.run; rewrite ?Hv; reflexivity. }
  split; [exact Hrun|].
  unfold handleCheckout. rewrite Hfind, Hstatus.
  rewrite bool_decide_eq_true_2 by reflexivity. cbn [negb]. rewrite Hrun.
  now repeat split.
Qed.

Lemma handleCheckout_booking_update_rejected_witness :
  let w := Scenario.world_with (Scenario.backend_booked checked_in)
             [Some Scenario.denied; Some Scenario.denied] in
  toasts (handleCheckout "uuid-0" (Scenario.state_listing checked_in) w)
  = [mkToast toast_error "Gagal melakukan check-out."].
Proof.
  intros w.
  assert (Hfind : find (fun item => bool_decide (item_id item = "uuid-0"))
                    (guests_list (Scenario.state_listing checked_in))
                  = Some (Scenario.item_of checked_in)) by (vm_compute; reflexivity).
  exact (proj2 (proj2 (proj2 (proj2
           (handleCheckout_booking_update_rejected "uuid-0"
              (Scenario.state_listing checked_in) w (Scenario.item_of checked_in)
              Scenario.denied Scenario.denied [] Hfind eq_refl eq_refl))))).
Defined.

(** A checkout of a booking with no room ([room_id] null or empty) that the
    backend accepts marks the booking checked-out and stops there: no room
    is updated and no timer is set. *)
Theorem checkout_without_room (payload : CheckoutPayload) (w : World) :
  c_roomId payload = None \/ c_roomId payload = Some "" ->
  next_verdict w = None ->
  exists w',
    checkoutMutation payload w = (Returned tt, w') /\
    backend w' = apply (UpdateGuestStatus checked_out (c_guestId payload)) (backend w) /\
    rooms (backend w') = rooms (backend w) /\
    timers w' = timers w.
Proof.
  intros Hroom Hacc.
  assert (Hfn : exists w1,
             checkout_mutationFn payload w = (Returned tt, w1) /\
             backend w1 = apply (UpdateGuestStatus checked_out (c_guestId payload)) (backend w) /\
             timers w1 = timers w).
  { unfold checkout_mutationFn, next_verdict in *. destruct w as [b vs n tm ts cs inv].
    cbn [verdicts] in Hacc.
    destruct vs as [|[e|] vs]; try discriminate Hacc;
      destruct Hroom as [-> | ->]; GuestsFacts.run;
      (eexists; split; [reflexivity | now split]). }
  destruct Hfn as (w1 & Hfn & Hb & Ht).
  destruct (GuestsFacts.mutateAsync_first checkout_mutationFn ["guests"; "rooms"]
              (mret tt) payload w w1 GuestsFacts.mret_cache_only Hfn)
    as (w' & Hrun & (Hb' & _ & _ & Ht' & _)).
  exists w'. split; [exact Hrun|]. rewrite Hb', Ht', Hb, Ht. now repeat split.
Qed.

Lemma checkout_without_room_witness :
  exists w',
    checkoutMutation (mkCheckoutPayload "uuid-0" None)
      (Scenario.world_with (Scenario.backend_booked checked_in) [])
    = (Returned tt, w') /\
    rooms (backend w') = rooms (Scenario.backend_booked checked_in) /\ timers w' = [].
Proof.
  destruct (checkout_without_room (mkCheckoutPayload "uuid-0" None)
              (Scenario.world_with (Scenario.backend_booked checked_in) [])
              (or_introl eq_refl) eq_refl) as (w' & Hrun & _ & Hr & Ht).
  exists w'. split; [exact Hrun|]. split; [exact Hr | exact Ht].
Defined.

Lemma guest_kept_refl guestId (l : list GuestRow) : Forall2 (guest_kept guestId) l l.
Proof.
  induction l as [|g l IH]; constructor; [|exact IH].
  split; [destruct g; reflexivity | reflexivity].
Qed.

Lemma guest_kept_trans guestId (l1 l2 l3 : list GuestRow) :
  Forall2 (guest_kept guestId) l1 l2 -> Forall2 (guest_kept guestId) l2 l3 ->
  Forall2 (guest_kept guestId) l1 l3.
Proof.
  apply Forall2_trans. intros g1 g2 g3 (A1 & B1) (A2 & B2). split.
  - rewrite A2 at 1. rewrite A1. reflexivity.
  - intros Hne. rewrite B2; rewrite (B1 Hne); [reflexivity | exact Hne].
Qed.

Lemma guest_kept_update guestId (l : list GuestRow) :
  Forall2 (guest_kept guestId) l
    (map (fun g => if decide (guest_id g = guestId)
                   then set_booking_status checked_out g else g) l).
Proof.
  induction l as [|g l IH]; cbn [map]; constructor; [|exact IH].
  destruct (decide (guest_id g = guestId)) as [Heq|Hne].
  - split; [reflexivity | intros Hne; contradiction].
  - split; [destruct g; reflexivity | reflexivity].
Qed.

(** The tables after an attempt at a checkout, whatever its outcome: the
    accepted writes, in order, and nothing else. *)
Lemma checkout_mutationFn_backend payload w o w1 :
  checkout_mutationFn payload w = (o, w1) ->
  let b1 := apply (UpdateGuestStatus checked_out (c_guestId payload)) (backend w) in
  backend w1 = backend w \/ backend w1 = b1 \/
  exists roomId,
    c_roomId payload = Some roomId /\
    backend w1 = apply (UpdateRoom (mkRoomUpdate (Some cleaning) None None) roomId) b1.
Proof.
  destruct w as [b vs n tm ts cs inv]. unfold checkout_mutationFn. cbn zeta.
  destruct (c_roomId payload) as [roomId|];
    [destruct (Js.truthy roomId)|];
    destruct vs as [|[e1|] [|[e2|] vs]];
    GuestsFacts.run; intros E; injection E as _ <-; cbn [backend]; eauto.
Qed.

(** Whatever its outcome, a checkout changes at most the status of the one
    booking and the status of its room: every other booking and room row is
    kept whole, the room keeps its number, type, price and its two dates,
    and no transaction and no activity entry is written. *)
Theorem checkout_touches_one_booking_and_room
    (payload : CheckoutPayload) (w w' : World) (o : Outcome unit) :
  checkoutMutation payload w = (o, w') ->
  Forall2 (guest_kept (c_guestId payload)) (guests (backend w)) (guests (backend w')) /\
  Forall2 (fun r r' =>
             room_kept (default "" (c_roomId payload)) r r' /\
             room_reservation_date r' = room_reservation_date r /\
             room_check_out_date r' = room_check_out_date r)
          (rooms (backend w)) (rooms (backend w')) /\
  transactions (backend w') = transactions (backend w) /\
  user_activities (backend w') = user_activities (backend w).
Proof.
  intros Hrun.
  pose proof (GuestsFacts.mutateAsync_preserves checkout_mutationFn ["guests"; "rooms"]
                (mret tt) payload
                (fun w w' =>
                   Forall2 (guest_kept (c_guestId payload))
                     (guests (backend w)) (guests (backend w')) /\
                   Forall2 (fun r r' =>
                              room_kept (default "" (c_roomId payload)) r r' /\
                              room_reservation_date r' = room_reservation_date r /\
                              room_check_out_date r' = room_check_out_date r)
                     (rooms (backend w)) (rooms (backend w')) /\
                   transactions (backend w') = transactions (backend w) /\
                   user_activities (backend w') = user_activities (backend w))
                GuestsFacts.mret_cache_only) as Hkeep.
  assert (Hsame : forall l : list RoomRow,
             Forall2 (fun r r' =>
                        room_kept (default "" (c_roomId payload)) r r' /\
                        room_reservation_date r' = room_reservation_date r /\
                        room_check_out_date r' = room_check_out_date r) l l).
  { induction l; constructor; [now repeat split | assumption]. }
  fold (checkoutMutation payload) in Hkeep.
  specialize (fun H1 H2 H3 H4 => Hkeep H1 H2 H3 H4 w).
  rewrite Hrun in Hkeep. cbn [snd] in Hkeep. apply Hkeep; clear Hkeep Hrun.
  - intros w0. split; [apply guest_kept_refl|]. split; [apply Hsame | now split].
  - intros w1 w2 w3 (G1 & R1 & T1 & A1) (G2 & R2 & T2 & A2).
    split; [exact (guest_kept_trans _ _ _ _ G1 G2)|]. split; [|split; congruence].
    revert R1 R2. apply Forall2_trans.
    intros r1 r2 r3 ((I1 & N1 & Y1 & P1 & K1) & D1 & C1) ((I2 & N2 & Y2 & P2 & K2) & D2 & C2).
    repeat split; try congruence.
    intros Hne. rewrite K2, K1; congruence.
  - intros w0 o0 w1 Hfn.
    destruct (checkout_mutationFn_backend _ _ _ _ Hfn) as [-> | [-> | (roomId & Hroom & ->)]];
      cbn [apply rooms guests transactions user_activities].
    + split; [apply guest_kept_refl|]. split; [apply Hsame | now split].
    + split; [apply guest_kept_update|]. split; [apply Hsame | now split].
    + split; [apply guest_kept_update|]. split; [|now split].
      rewrite Hroom. cbn [default]. clear.
      induction (rooms (backend w0)) as [|r l IH]; cbn [map]; constructor; [|exact IH].
      destruct (decide (room_id_col r = roomId)); now repeat split.
  - intros w0 w1 (Hb & _). rewrite Hb.
    split; [apply guest_kept_refl|]. split; [apply Hsame | now split].
Qed.

Lemma checkout_touches_one_booking_and_room_witness :
  let w := Scenario.world_with (Scenario.backend_booked checked_in) [] in
  let w' := snd (checkoutMutation (mkCheckoutPayload "uuid-0" (Some "room-101")) w) in
  transactions (backend w') = transactions (Scenario.backend_booked checked_in).
Proof.
  intros w w'.
  assert (Hrun : checkoutMutation (mkCheckoutPayload "uuid-0" (Some "room-101")) w
                 = (Returned tt, w')) by (vm_compute; reflexivity).
  exact (proj1 (proj2 (proj2 (checkout_touches_one_booking_and_room _ _ _ _ Hrun)))).
Defined.

(** *** The delayed release *)

(** When the timer of a checkout fires and the backend accepts the update,
    the room is set to available and its two dates are cleared whatever the
    room row held at that moment (for instance the status and dates of a
    booking made during the delay): the callback does not read the room
    first.  Every other room is kept whole, and no booking is touched. *)
Theorem release_is_unconditional (dt : Z) (w : World) (tm : Timer) (roomId : string) :
  timers w = [tm] -> callback tm = ResetRoom roomId -> due tm <= now w + dt ->
  next_verdict w = None ->
  (forall r, In r (rooms (backend (advance dt w))) -> room_id_col r = roomId ->
             room_status r = available /\ room_reservation_date r = None /\
             room_check_out_date r = None) /\
  Forall2 (room_kept roomId) (rooms (backend w)) (rooms (backend (advance dt w))) /\
  guests (backend (advance dt w)) = guests (backend w) /\
  timers (advance dt w) = [].
Proof.
  intros Htm Hcb Hdue Hacc.
  destruct (GuestsFacts.advance_due dt w tm roomId Htm Hcb Hdue) as (Ht & Hb).
  rewrite Hacc in Hb. rewrite Hb, Ht. split; [|split; [|split]].
  - intros r Hin Hid. exact (GuestsFacts.released_room_inv _ _ _ Hin Hid).
  - cbn [apply rooms]. apply room_kept_update.
  - reflexivity.
  - reflexivity.
Qed.

Lemma release_is_unconditional_witness :
  let rebooked :=
    mkBackend [] [mkRoomRow "room-101" "101" None 500000 reserved
                    (Some "2024-02-01") (Some "2024-02-03")] [] [] 0 in
  let w := mkWorld rebooked [] 0 [mkTimer 3000 (ResetRoom "room-101")] [] [] [] in
  rooms (backend (advance 3000 w))
  = [mkRoomRow "room-101" "101" None 500000 available None None].
Proof.
  intros rebooked w.
  destruct (release_is_unconditional 3000 w (mkTimer 3000 (ResetRoom "room-101"))
              "room-101" eq_refl eq_refl) as (_ & _ & _ & _).
  - vm_compute. discriminate.
  - reflexivity.
  - vm_compute. reflexivity.
Defined.

(** *** The activity log entry *)

(** [recordActivity] stores the message without the white space around it.
    A message of white space only is dropped without any request.  When the
    backend rejects the entry, what is thrown is a new error that carries
    the message of the backend's error, and nothing is stored.  When the
    backend accepts the entry, it is stored, whatever comes after: with no
    profile to read again the call returns; otherwise it returns when that
    read is accepted and throws a new error with the message of the
    backend's error when it is rejected. *)
Theorem recordActivity_trims_and_skips_blank
    (contextUser : option PublicUser) (userId message : string) (w : World) :
  (Js.trim message = "" ->
   recordActivity contextUser userId message w = (Returned tt, w)) /\
  (forall e, Js.trim message <> "" -> next_verdict w = Some e ->
   exists w',
     recordActivity contextUser userId message w = (Thrown (JsError (pg_message e)), w') /\
     backend w' = backend w) /\
  (Js.trim message <> "" -> next_verdict w = None ->
   let w' := snd (recordActivity contextUser userId message w) in
   let outcome := fst (recordActivity contextUser userId message w) in
   (user_activities (backend w')
    = user_activities (backend w)
      ++ [mkActivityRow (gen_random_uuid (uuid_seq (backend w))) userId (Js.trim message)] /\
    guests (backend w') = guests (backend w) /\ rooms (backend w') = rooms (backend w) /\
    transactions (backend w') = transactions (backend w)) /\
   (refreshes contextUser userId = false ->
    outcome = Returned tt /\ verdicts w' = tl (verdicts w)) /\
   (refreshes contextUser userId = true -> hd None (tl (verdicts w)) = None ->
    outcome = Returned tt) /\
   (forall e, refreshes contextUser userId = true -> hd None (tl (verdicts w)) = Some e ->
      outcome = Thrown (JsError (pg_message e)))).
Proof.
  unfold recordActivity, loadCurrentUser, loadAllUsers, refreshes, next_verdict. cbn zeta.
  destruct w as [b vs n tm ts cs inv]. cbn [verdicts].
  split; [|split].
  - intros ->. reflexivity.
  - intros e Hne Hrej. destruct (Js.trim message) as [|c t] eqn:Ht; [contradiction|].
    cbn [Js.truthy negb].
    destruct vs as [|[e'|] vs]; try discriminate Hrej. injection Hrej as ->.
    GuestsFacts.run. eexists. split; reflexivity.
  - intros Hne Hacc. destruct (Js.trim message) as [|c t] eqn:Ht; [contradiction|].
    cbn [Js.truthy negb].
    destruct vs as [|[e|] vs]; try discriminate Hacc;
      (destruct contextUser as [[uid []]|]; cbn [user_id user_role];
       [destruct (bool_decide (uid = userId)); [destruct (Js.truthy userId)|]..|]);
      try destruct vs as [|[e2|] vs];
      GuestsFacts.run; cbn [hd tl];
      (split; [now repeat split|]);
      (split; [intros H; try discriminate H; now split|]);
      (split; [intros H H'; try discriminate H; try discriminate H'; reflexivity|]);
      intros e0 H H'; try discriminate H; try discriminate H';
      injection H' as ->; reflexivity.
Qed.

Lemma recordActivity_trims_and_skips_blank_witness :
  recordActivity (Some Scenario.staff1) "staff-1" "   " Scenario.world0
  = (Returned tt, Scenario.world0).
Proof.
  apply (proj1 (recordActivity_trims_and_skips_blank (Some Scenario.staff1) "staff-1" "   "
                  Scenario.world0)).
  vm_compute. reflexivity.
Defined.

End BookingFacts.

(** ** Stay length, continued *)

Module StayFacts.

Import JsDate Calculator.




End StayFacts.

(** ** The finances page *)

Module FinancesFacts.

Import Supabase Runtime Finances.

(** *** Totals within the range of exact whole numbers *)

Lemma amount_sum_app ty (l1 l2 : list TransactionRow) :
  amount_sum ty (l1 ++ l2) = amount_sum ty l1 + amount_sum ty l2.
Proof.
  induction l1 as [|t l1 IH]; cbn [app amount_sum fold_right]; [reflexivity|].
  fold (amount_sum ty (l1 ++ l2)). fold (amount_sum ty l1). rewrite IH.
  destruct (decide (tx_type t = ty)); lia.
Qed.

Lemma amount_sum_nonneg ty (l : list TransactionRow) :
  (forall t, In t l -> 0 <= tx_amount t) -> 0 <= amount_sum ty l.
Proof.
  induction l as [|t l IH]; intros Hpos; cbn [amount_sum fold_right]; [lia|].
  fold (amount_sum ty l).
  assert (0 <= tx_amount t) by (apply Hpos; now left).
  assert (0 <= amount_sum ty l) by (apply IH; intros u Hu; apply Hpos; now right).
  destruct (decide (tx_type t = ty)); lia.
Qed.

Lemma amount_sum_perm ty (l l' : list TransactionRow) :
  Permutation l l' -> amount_sum ty l = amount_sum ty l'.
Proof.
  induction 1 as [|t l l' _ IH|t u l|l l' l'' _ IH1 _ IH2];
    cbn [amount_sum fold_right]; [reflexivity| | |congruence].
  - fold (amount_sum ty l). fold (amount_sum ty l'). now rewrite IH.
  - destruct (decide (tx_type t = ty)), (decide (tx_type u = ty)); lia.
Qed.

Lemma exactly_summable_app (l1 l2 : list TransactionRow) :
  exactly_summable (l1 ++ l2) -> exactly_summable l1 /\ exactly_summable l2.
Proof.
  intros (Hpos & Hi & He). rewrite !amount_sum_app in *.
  assert (H1 : forall t, In t l1 -> 0 <= tx_amount t)
    by (intros t Ht; apply Hpos, in_or_app; now left).
  assert (H2 : forall t, In t l2 -> 0 <= tx_amount t)
    by (intros t Ht; apply Hpos, in_or_app; now right).
  pose proof (amount_sum_nonneg income l1 H1). pose proof (amount_sum_nonneg income l2 H2).
  pose proof (amount_sum_nonneg expense l1 H1). pose proof (amount_sum_nonneg expense l2 H2).
  split; (split; [assumption | split; lia]).
Qed.

Lemma exactly_summable_perm (l l' : list TransactionRow) :
  Permutation l l' -> exactly_summable l -> exactly_summable l'.
Proof.
  intros Hperm (Hpos & Hi & He). split; [|split].
  - intros t Ht. apply Hpos. apply (Permutation_in t (Permutation_sym Hperm) Ht).
  - now rewrite <- (amount_sum_perm income l l' Hperm).
  - now rewrite <- (amount_sum_perm expense l l' Hperm).
Qed.

Lemma not_income ty : ty <> income -> ty = expense.
Proof. destruct ty; [contradiction | reflexivity]. Qed.

(** Within the range the accumulator of the [reduce] holds the exact sums. *)
Lemma fold_totals_exact (l : list TransactionRow) (acc : Totals) :
  (forall t, In t l -> 0 <= tx_amount t) ->
  0 <= acc_income acc -> 0 <= acc_expense acc ->
  acc_income acc + amount_sum income l <= 2 ^ 53 ->
  acc_expense acc + amount_sum expense l <= 2 ^ 53 ->
  fold_left
    (fun acc transaction =>
       if decide (tx_type transaction = income)
       then mkTotals (Js.add (acc_income acc) (amount_of transaction)) (acc_expense acc)
       else mkTotals (acc_income acc) (Js.add (acc_expense acc) (amount_of transaction)))
    l acc
  = mkTotals (acc_income acc + amount_sum income l)
             (acc_expense acc + amount_sum expense l).
Proof.
  revert acc. induction l as [|t l IH]; intros acc Hpos Hi He Hbi Hbe;
    cbn [fold_left amount_sum fold_right].
  - destruct acc as [i e]. cbn. f_equal; lia.
  - fold (amount_sum income l) in *. fold (amount_sum expense l) in *.
    cbn [amount_sum fold_right] in Hbi, Hbe.
    fold (amount_sum income l) in Hbi. fold (amount_sum expense l) in Hbe.
    assert (Ht : 0 <= tx_amount t) by (apply Hpos; now left).
    assert (Hl : forall u, In u l -> 0 <= tx_amount u) by (intros u Hu; apply Hpos; now right).
    pose proof (amount_sum_nonneg income l Hl) as Hni.
    pose proof (amount_sum_nonneg expense l Hl) as Hne.
    destruct (decide (tx_type t = income)) as [Hty|Hty].
    + destruct (decide (tx_type t = expense)) as [Hty'|_]; [congruence|].
      assert (Ha : amount_of t = tx_amount t)
        by (apply JsFacts.double_exact; lia).
      rewrite Ha, JsFacts.add_exact by lia.
      rewrite IH; cbn [acc_income acc_expense]; try assumption; try lia.
      f_equal; lia.
    + apply not_income in Hty.
      destruct (decide (tx_type t = expense)) as [_|Hty']; [|contradiction].
      assert (Ha : amount_of t = tx_amount t)
        by (apply JsFacts.double_exact; lia).
      rewrite Ha, JsFacts.add_exact by lia.
      rewrite IH; cbn [acc_income acc_expense]; try assumption; try lia.
      f_equal; lia.
Qed.

Lemma totals_exact (l : list TransactionRow) :
  exactly_summable l ->
  totals l = mkTotals (amount_sum income l) (amount_sum expense l) /\
  balance l = amount_sum income l - amount_sum expense l.
Proof.
  intros (Hpos & Hi & He).
  assert (Ht : totals l = mkTotals (amount_sum income l) (amount_sum expense l)).
  { unfold totals. rewrite fold_totals_exact; cbn [acc_income acc_expense];
      try assumption; try lia; reflexivity. }
  split; [exact Ht|]. unfold balance, Js.sub. rewrite Ht. cbn [acc_income acc_expense].
  pose proof (amount_sum_nonneg income l Hpos). pose proof (amount_sum_nonneg expense l Hpos).
  apply JsFacts.double_exact. lia.
Qed.

(** What a row put at the end does to the totals, within the range. *)
Lemma totals_snoc_exact (l : list TransactionRow) (row : TransactionRow) :
  exactly_summable (l ++ [row]) ->
  acc_income (totals (l ++ [row]))
  = acc_income (totals l) + (if decide (tx_type row = income) then tx_amount row else 0) /\
  acc_expense (totals (l ++ [row]))
  = acc_expense (totals l) + (if decide (tx_type row = income) then 0 else tx_amount row) /\
  balance (l ++ [row])
  = balance l + (if decide (tx_type row = income) then tx_amount row else - tx_amount row).
Proof.
  intros Hall. destruct (exactly_summable_app _ _ Hall) as (Hl & _).
  destruct (totals_exact _ Hall) as (Ht & Hb). destruct (totals_exact _ Hl) as (Ht' & Hb').
  rewrite Ht, Hb, Ht', Hb', !amount_sum_app. cbn [acc_income acc_expense amount_sum fold_right].
  destruct (decide (tx_type row = income)) as [Hty|Hty].
  - destruct (decide (tx_type row = expense)); [congruence|]. repeat split; lia.
  - apply not_income in Hty. destruct (decide (tx_type row = expense)); [|contradiction].
    repeat split; lia.
Qed.

(** While the amounts are not negative and add up to at most 2^53 on each
    side, the totals are the exact sums: over two lists put together they
    add up, and they do not depend on the order of the transactions (the
    page fetches them newest first). *)
Theorem totals_sum_in_any_order :
  (forall l : list TransactionRow,
      exactly_summable l ->
      totals l = mkTotals (amount_sum income l) (amount_sum expense l) /\
      balance l = amount_sum income l - amount_sum expense l) /\
  (forall l1 l2 : list TransactionRow,
      exactly_summable (l1 ++ l2) ->
      acc_income (totals (l1 ++ l2)) = acc_income (totals l1) + acc_income (totals l2) /\
      acc_expense (totals (l1 ++ l2)) = acc_expense (totals l1) + acc_expense (totals l2) /\
      balance (l1 ++ l2) = balance l1 + balance l2) /\
  (forall l l' : list TransactionRow,
      Permutation l l' -> exactly_summable l ->
      totals l = totals l' /\ balance l = balance l').
Proof.
  split; [exact totals_exact|]. split.
  - intros l1 l2 Hall. destruct (exactly_summable_app _ _ Hall) as (H1 & H2).
    destruct (totals_exact _ Hall) as (-> & ->).
    destruct (totals_exact _ H1) as (-> & ->).
    destruct (totals_exact _ H2) as (-> & ->).
    rewrite !amount_sum_app. cbn [acc_income acc_expense]. repeat split; lia.
  - intros l l' Hperm Hl.
    pose proof (exactly_summable_perm _ _ Hperm Hl) as Hl'.
    destruct (totals_exact _ Hl) as (-> & ->).
    destruct (totals_exact _ Hl') as (-> & ->).
    now rewrite (amount_sum_perm income _ _ Hperm), (amount_sum_perm expense _ _ Hperm).
Qed.

Lemma totals_sum_in_any_order_witness :
  totals [mkTransactionRow "t1" income 500 "Kamar" "a" "2024-01-10";
          mkTransactionRow "t2" expense 200 "Listrik" "b" "2024-01-11"]
  = totals [mkTransactionRow "t2" expense 200 "Listrik" "b" "2024-01-11";
            mkTransactionRow "t1" income 500 "Kamar" "a" "2024-01-10"].
Proof.
  refine (proj1 (proj2 (proj2 totals_sum_in_any_order) _ _ _ _)); [apply perm_swap|].
  split; [|split].
  - intros t [<- | [<- | []]]; cbn; lia.
  - vm_compute. discriminate.
  - vm_compute. discriminate.
Defined.

(** Past 2^53 the order of the rows shows in the income total. *)
Example totals_order_past_2p53 :
  let big := mkTransactionRow "t1" income (2 ^ 53) "Kamar" "a" "2024-01-10" in
  let one := mkTransactionRow "t2" income 1 "Kamar" "b" "2024-01-11" in
  acc_income (totals [big; one; one]) = 9007199254740992 /\
  acc_income (totals [one; one; big]) = 9007199254740994.
Proof. split; reflexivity. Qed.

(** *** Adding a transaction *)

Lemma onSuccess_cache_only : cache_only addTransaction_onSuccess.
Proof.
  apply GuestsFacts.forEach_cache_only. intros key.
  apply GuestsFacts.invalidateQueries_cache_only.
Qed.

(** The insert is accepted at the attempt, or rejected there and accepted
    at the retry: the mutation returns with the one row added. *)
Lemma addTransactionMutation_accepted payload w :
  next_verdict w = None \/
  (exists e, next_verdict w = Some e /\ hd None (tl (verdicts w)) = None) ->
  exists w1,
    addTransactionMutation payload w = (Returned tt, w1) /\
    backend w1 = apply (InsertTransaction (row_of payload)) (backend w) /\
    toasts w1 = toasts w /\ timers w1 = timers w.
Proof.
  intros Hacc.
  assert (Hfn : exists w0 w1,
             (w0 = w \/ exists x, addTransaction_mutationFn payload w = (Thrown x, w0)) /\
             addTransaction_mutationFn payload w0 = (Returned tt, w1) /\
             backend w1 = apply (InsertTransaction (row_of payload)) (backend w) /\
             toasts w1 = toasts w /\ timers w1 = timers w).
  { unfold addTransaction_mutationFn, next_verdict in *.
    destruct w as [b vs n tm ts cs inv]. cbn [verdicts] in Hacc.
    destruct Hacc as [Hacc | (e & He & Hacc)].
    - exists (mkWorld b vs n tm ts cs inv).
      destruct vs as [|[e|] vs]; try discriminate Hacc; GuestsFacts.run;
        (eexists; split; [now left | split; [reflexivity | now repeat split]]).
    - destruct vs as [|[e'|] vs]; try discriminate He. cbn [tl] in Hacc.
      exists (mkWorld b vs n tm ts cs inv).
      destruct vs as [|[e2|] vs]; try discriminate Hacc; GuestsFacts.run;
        (eexists; split; [right; eexists; reflexivity
                         | split; [reflexivity | now repeat split]]). }
  destruct Hfn as (w0 & w1 & Hw0 & Hfn & Hb & Hto & Hti).
  assert (Hrun : exists w2,
             addTransactionMutation payload w = (Returned tt, w2) /\ cache_eq w1 w2).
  { destruct Hw0 as [-> | (x & E)].
    - exact (GuestsFacts.useMutation_first _ _ _ _ _ onSuccess_cache_only Hfn).
    - exact (GuestsFacts.useMutation_second _ _ _ _ _ _ _ onSuccess_cache_only E Hfn). }
  destruct Hrun as (w2 & Hrun & (Hb2 & _ & _ & Hti2 & Hto2 & _)).
  exists w2. split; [exact Hrun|]. rewrite Hb2, Hto2, Hti2. now repeat split.
Qed.

(** The insert is rejected at the attempt and at the retry: the mutation
    throws the second error object, and nothing is written. *)
Lemma addTransactionMutation_rejected payload w e1 e2 :
  next_verdict w = Some e1 -> hd None (tl (verdicts w)) = Some e2 ->
  exists w1,
    addTransactionMutation payload w = (Thrown (JsPostgrestError e2), w1) /\
    backend w1 = backend w /\ toasts w1 = toasts w /\ timers w1 = timers w /\
    verdicts w1 = tl (tl (verdicts w)).
Proof.
  intros H1 H2. unfold next_verdict in *.
  destruct w as [b vs n tm ts cs inv]. cbn [verdicts] in *.
  destruct vs as [|[e|] [|[e'|] vs]]; try discriminate H1; try discriminate H2.
  injection H1 as ->. injection H2 as ->. eexists. split.
  - eapply GuestsFacts.useMutation_thrown; unfold addTransaction_mutationFn;
      GuestsFacts.run; reflexivity.
  - now repeat split.
Qed.

(** A transaction form with an empty category, description or date (white
    space does not count for the first two), or with an amount that is not
    a finite number or is not positive, is refused: one error notification,
    the dialog as it was, no request sent. *)
Theorem handleAddTransaction_refuses_invalid
    (activeType : TransactionType) (form : Form) (isDialogOpen : bool) (w : World) :
  Js.trim (form_category form) = "" \/ Js.trim (form_description form) = "" \/
  form_date form = "" \/ form_amount form = None \/
  (exists a, form_amount form = Some a /\ a <= 0) ->
  fst (handleAddTransaction activeType form isDialogOpen w) = isDialogOpen /\
  no_write w (snd (handleAddTransaction activeType form isDialogOpen w)) /\
  exists text,
    toasts (snd (handleAddTransaction activeType form isDialogOpen w))
    = toasts w ++ [mkToast toast_error text].
Proof.
  intros Hbad.
  assert (Hstop : exists text,
             handleAddTransaction activeType form isDialogOpen w
             = (isDialogOpen, snd (toast toast_error text w))).
  { unfold handleAddTransaction. cbn zeta.
    destruct (Js.truthy (Js.trim (form_category form))) eqn:Hc; cbn [negb]; [|eauto].
    destruct (Js.truthy (Js.trim (form_description form))) eqn:Hd; cbn [negb]; [|eauto].
    destruct (Js.truthy (form_date form)) eqn:Hdt; cbn [negb]; [|eauto].
    destruct (form_amount form) as [a|] eqn:Ha; [|eauto].
    destruct (Z.leb_spec a 0) as [Hle|Hpos]; [eauto|].
    exfalso. destruct Hbad as [H | [H | [H | [H | (a' & H & Hle)]]]].
    - rewrite H in Hc. discriminate.
    - rewrite H in Hd. discriminate.
    - rewrite H in Hdt. discriminate.
    - discriminate.
    - injection H as <-. lia. }
  destruct Hstop as [text ->]. cbn [fst snd].
  split; [reflexivity|]. split; [now repeat split|]. now exists text.
Qed.

Lemma handleAddTransaction_refuses_invalid_witness :
  backend (snd (handleAddTransaction expense
                  (mkForm (Some 0) "Listrik" "Tagihan" "2024-01-10") true Scenario.world0))
  = Scenario.backend0.
Proof.
  refine (proj1 (proj1 (proj2 (handleAddTransaction_refuses_invalid expense
                   (mkForm (Some 0) "Listrik" "Tagihan" "2024-01-10") true
                   Scenario.world0 _)))).
  do 4 right. exists 0. split; [reflexivity | lia].
Defined.

(** A valid transaction form sends one insert, and sends it once more when
    it is rejected.  When the backend accepts it, at the attempt or at the
    retry, one row with the selected type, the amount, the trimmed category
    and description and the date is added, the dialog closes, and two
    notifications are shown: the success one and then the report of the
    TypeError that the reset of the form element throws; while the amounts
    stay within the exact range, the balance has moved by the amount (up for
    an income, down for an expense).  When the backend rejects it both
    times, the tables are unchanged, the dialog stays as it was and the
    fallback text is shown, the error object not being an [Error]. *)
Theorem handleAddTransaction_records
    (activeType : TransactionType) (form : Form) (isDialogOpen : bool) (w : World) (a : Z) :
  Js.trim (form_category form) <> "" -> Js.trim (form_description form) <> "" ->
  form_date form <> "" -> form_amount form = Some a -> 0 < a ->
  let result := handleAddTransaction activeType form isDialogOpen w in
  (next_verdict w = None \/
   (exists e, next_verdict w = Some e /\ hd None (tl (verdicts w)) = None) ->
   fst result = false /\
   (exists row,
       transactions (backend (snd result)) = transactions (backend w) ++ [row] /\
       tx_type row = activeType /\ tx_amount row = a /\
       tx_category row = Js.trim (form_category form) /\
       tx_description row = Js.trim (form_description form) /\
       tx_date row = form_date form) /\
   guests (backend (snd result)) = guests (backend w) /\
   rooms (backend (snd result)) = rooms (backend w) /\
   (exactly_summable (transactions (backend (snd result))) ->
    balance (transactions (backend (snd result)))
    = balance (transactions (backend w))
      + (if decide (activeType = income) then a else - a)) /\
   toasts (snd result)
   = toasts w ++ [mkToast toast_success "Transaksi berhasil ditambahkan!";
                  mkToast toast_error (Js.null_property_message "reset")]) /\
  (forall e1 e2, next_verdict w = Some e1 -> hd None (tl (verdicts w)) = Some e2 ->
   fst result = isDialogOpen /\ backend (snd result) = backend w /\
   verdicts (snd result) = tl (tl (verdicts w)) /\
   toasts (snd result) = toasts w ++ [mkToast toast_error "Gagal menambahkan transaksi."]).
Proof.
  intros Hc Hd Hdt Ha Hpos result.
  assert (Hrun : result =
            match addTransactionMutation
                    (mkPayload activeType a (Js.trim (form_category form))
                       (Js.trim (form_description form)) (form_date form)) w with
            | (Returned _, w1) =>
                (false,
                 snd (toast toast_error (Js.null_property_message "reset")
                        (snd (toast toast_success "Transaksi berhasil ditambahkan!" w1))))
            | (Thrown error, w1) =>
                (isDialogOpen,
                 snd (toast toast_error
                        (message_or "Gagal menambahkan transaksi." error) w1))
            end).
  { unfold result, handleAddTransaction. cbn zeta.
    destruct (Js.trim (form_category form)) eqn:Ec; [contradiction|].
    destruct (Js.trim (form_description form)) eqn:Ed; [contradiction|].
    destruct (form_date form) eqn:Et; [contradiction|].
    cbn [Js.truthy negb]. rewrite Ha.
    destruct (Z.leb_spec a 0) as [Hle|_]; [lia | reflexivity]. }
  split.
  - intros Hacc.
    destruct (addTransactionMutation_accepted
                (mkPayload activeType a (Js.trim (form_category form))
                   (Js.trim (form_description form)) (form_date form)) w Hacc)
      as (w1 & E & Hb & Hto & _).
    rewrite Hrun, E. cbn [fst snd toast backend toasts]. rewrite Hb, Hto.
    cbn [apply transactions guests rooms row_of type amount category description date].
    split; [reflexivity|]. split; [eexists; split; [reflexivity | now repeat split]|].
    split; [reflexivity|]. split; [reflexivity|]. split.
    + intros Hall. rewrite (proj2 (proj2 (totals_snoc_exact _ _ Hall))).
      cbn [tx_type tx_amount]. reflexivity.
    + now rewrite <- app_assoc.
  - intros e1 e2 H1 H2.
    destruct (addTransactionMutation_rejected
                (mkPayload activeType a (Js.trim (form_category form))
                   (Js.trim (form_description form)) (form_date form)) w e1 e2 H1 H2)
      as (w1 & E & Hb & Hto & _ & Hv).
    rewrite Hrun, E. cbn [fst snd toast backend toasts verdicts message_or].
    rewrite Hb, Hto, Hv. now repeat split.
Qed.

Lemma handleAddTransaction_records_witness :
  balance (transactions (backend (snd (handleAddTransaction expense
             (mkForm (Some 200000) " Listrik " "Tagihan" "2024-01-10") true
             (Scenario.world_with (Scenario.backend_booked checked_in) [])))))
  = balance (transactions (Scenario.backend_booked checked_in)) + - 200000.
Proof.
  assert (Hc : Js.trim " Listrik " <> "") by (vm_compute; discriminate).
  assert (Hd : Js.trim "Tagihan" <> "") by (vm_compute; discriminate).
  assert (Hdt : "2024-01-10" <> "") by discriminate.
  assert (Hpos : 0 < 200000) by lia.
  refine (proj1 (proj2 (proj2 (proj2 (proj2 (proj1
           (handleAddTransaction_records expense
              (mkForm (Some 200000) " Listrik " "Tagihan" "2024-01-10") true
              (Scenario.world_with (Scenario.backend_booked checked_in) [])
              200000 Hc Hd Hdt eq_refl Hpos) (or_introl eq_refl)))))) _).
  split; [|split].
  - intros t [<- | [<- | []]]; cbn; lia.
  - vm_compute. discriminate.
  - vm_compute. discriminate.
Defined.

(** What a booking does to the finances page: when a booking creation has
    returned, one income row at most has been added, whatever the number of
    attempts, and while the amounts stay within the exact range the income
    total has grown by the total price if the booking is a check-in with a
    positive total, and is as before for a reservation or a zero total; the
    expense total is as before. *)
Theorem booking_income_reaches_finances
    (payload : Guests.AddGuestPayload) (w w' : World) :
  Guests.addGuestMutation payload w = (Returned tt, w') ->
  (if Guests.shouldCreateTransaction payload
   then exists new_id,
          transactions (backend w') =
            transactions (backend w) ++ [Guests.income_row_of payload new_id]
   else transactions (backend w') = transactions (backend w)) /\
  (exactly_summable (transactions (backend w')) ->
   acc_income (totals (transactions (backend w')))
   = acc_income (totals (transactions (backend w)))
     + (if bool_decide (Guests.p_bookingStatus payload = checked_in)
           && (0 <? Guests.p_totalPrice payload)
        then Guests.p_totalPrice payload else 0) /\
   acc_expense (totals (transactions (backend w')))
   = acc_expense (totals (transactions (backend w)))).
Proof.
  intros Hrun.
  apply (GuestsFacts.mutateAsync_inv_returned _ _ _ _ _ _
           GuestsFacts.addGuest_onSuccess_cache_only)
    in Hrun as (w0 & w1 & Hw0 & Hfn & (Hb & _)).
  apply GuestsFacts.addGuest_mutationFn_returned in Hfn. rewrite Hb, Hfn. cbn zeta.
  assert (Ht0 : transactions (backend w0) = transactions (backend w)).
  { destruct Hw0 as [-> | (x & E)]; [reflexivity|].
    now destruct (GuestsFacts.addGuest_attempt_failed _ _ _ _ E) as (_ & _ & _ & _ & Ht). }
  fold (Guests.shouldCreateTransaction payload).
  destruct (Guests.shouldCreateTransaction payload);
    cbn [apply transactions uuid_seq bump]; rewrite Ht0.
  - split.
    + eexists. reflexivity.
    + intros Hall. destruct (totals_snoc_exact _ _ Hall) as (Hi & He & _).
      rewrite Hi, He. cbn [Guests.income_row_of tx_type tx_amount].
      destruct (decide (income = income)) as [_|Hne]; [|contradiction]. split; lia.
  - split; [reflexivity|]. intros _. split; lia.
Qed.

Lemma booking_income_reaches_finances_witness :
  let w' := snd (Guests.addGuestMutation (Scenario.payload_of checked_in) Scenario.world0) in
  acc_income (totals (transactions (backend w'))) = 0 + 1000000.
Proof.
  intros w'.
  assert (Hrun : Guests.addGuestMutation (Scenario.payload_of checked_in) Scenario.world0
                 = (Returned tt, w')) by (vm_compute; reflexivity).
  assert (Htx : transactions (backend w')
                = [Guests.income_row_of (Scenario.payload_of checked_in) "uuid-1"])
    by (vm_compute; reflexivity).
  refine (proj1 (proj2 (booking_income_reaches_finances _ _ _ Hrun) _)).
  unfold exactly_summable. rewrite Htx. split; [|split].
  - intros t [<- | []]. vm_compute. discriminate.
  - vm_compute. discriminate.
  - vm_compute. discriminate.
Defined.

End FinancesFacts.

(** ** The room selectors of the booking form *)

Module RoomSelectorsFacts.

Import RoomSelectors.

Lemma truthy_nonempty s : Js.truthy s = true <-> s <> "".
Proof. destruct s; cbn; split; intros H; try reflexivity; try discriminate; congruence. Qed.

Lemma consistent_empty : consistent [] ∅.
Proof. intros tid. rewrite lookup_empty. right. intros room []. Qed.

Lemma consistent_consider seen m room :
  consistent seen m -> consistent (seen ++ [room]) (consider m room).
Proof.
  intros Hm tid. specialize (Hm tid) as Htid. unfold consider.
  destruct (Js.truthy (Guests.typeId room)) eqn:Htruthy; cbn [negb].
  - apply truthy_nonempty in Htruthy.
    destruct (decide (Guests.typeId room = tid)) as [Heq|Hne].
    + subst tid. destruct (m !! Guests.typeId room) as [existing|] eqn:Hlook.
      * destruct Htid as (_ & Hid & (r0 & Hin0 & Ht0 & Hp0 & Hn0) & Hmin).
        destruct (Z.ltb_spec (Guests.price room) (price existing)) as [Hlt|Hge].
        -- rewrite lookup_insert_eq. split; [exact Htruthy|].
           split; [reflexivity|]. split.
           ++ exists room. rewrite in_app_iff. cbn. auto 6.
           ++ intros r Hin Ht. cbn [price]. apply in_app_iff in Hin as [Hin|[<-|[]]].
              ** specialize (Hmin r Hin Ht). lia.
              ** lia.
        -- rewrite Hlook. split; [exact Htruthy|]. split; [exact Hid|]. split.
           ++ exists r0. rewrite in_app_iff. auto 6.
           ++ intros r Hin Ht. apply in_app_iff in Hin as [Hin|[<-|[]]].
              ** exact (Hmin r Hin Ht).
              ** exact Hge.
      * rewrite lookup_insert_eq. split; [exact Htruthy|].
        split; [reflexivity|]. split.
        -- exists room. rewrite in_app_iff. cbn. auto 6.
        -- intros r Hin Ht. cbn [price]. apply in_app_iff in Hin as [Hin|[<-|[]]].
           ++ destruct Htid as [Hempty|Hnone]; [contradiction|].
              destruct (Hnone r Hin Ht).
           ++ lia.
    + assert (Hsame : (match m !! Guests.typeId room with
                       | None => <[Guests.typeId room :=
                                    mkRoomTypeOption (Guests.typeId room)
                                      (Guests.typeName room) (Guests.price room)]> m
                       | Some existing =>
                           if Guests.price room <? price existing
                           then <[Guests.typeId room :=
                                   mkRoomTypeOption (Guests.typeId room)
                                     (Guests.typeName room) (Guests.price room)]> m
                           else m
                       end) !! tid = m !! tid).
      { destruct (m !! Guests.typeId room) as [existing|];
          [destruct (Guests.price room <? price existing)|];
          try reflexivity; now rewrite lookup_insert_ne. }
      cbn zeta. rewrite Hsame. destruct (m !! tid) as [opt|].
      * destruct Htid as (Hnon & Hid & (r0 & Hin0 & Hrest) & Hmin).
        split; [exact Hnon|]. split; [exact Hid|]. split.
        -- exists r0. rewrite in_app_iff. auto.
        -- intros r Hin Ht. apply in_app_iff in Hin as [Hin|[<-|[]]];
             [exact (Hmin r Hin Ht) | contradiction].
      * destruct Htid as [Hempty|Hnone]; [now left | right].
        intros r Hin. apply in_app_iff in Hin as [Hin|[<-|[]]];
          [exact (Hnone r Hin) | exact Hne].
  - assert (Hroom : Guests.typeId room = "").
    { destruct (Guests.typeId room); [reflexivity | discriminate]. }
    destruct (m !! tid) as [opt|].
    + destruct Htid as (Hnon & Hid & (r0 & Hin0 & Hrest) & Hmin).
      split; [exact Hnon|]. split; [exact Hid|]. split.
      * exists r0. rewrite in_app_iff. auto.
      * intros r Hin Ht. apply in_app_iff in Hin as [Hin|[<-|[]]];
          [exact (Hmin r Hin Ht) | congruence].
    + destruct Htid as [Hempty|Hnone]; [now left|].
      destruct (decide (tid = "")) as [->|Hnon]; [now left | right].
      intros r Hin. apply in_app_iff in Hin as [Hin|[<-|[]]];
        [exact (Hnone r Hin) | congruence].
Qed.

Lemma consistent_fold l seen m :
  consistent seen m -> consistent (seen ++ l) (fold_left consider l m).
Proof.
  revert seen m. induction l as [|room l IH]; intros seen m Hm; cbn [fold_left].
  - now rewrite app_nil_r.
  - replace (seen ++ room :: l) with ((seen ++ [room]) ++ l)
      by (now rewrite <- app_assoc).
    apply IH. now apply consistent_consider.
Qed.

Lemma offers_filter rooms tid room :
  offers rooms tid room <->
  In room (List.filter (fun room => bool_decide (Guests.status room = available)) rooms)
  /\ Guests.typeId room = tid.
Proof.
  unfold offers. rewrite filter_In, bool_decide_eq_true. tauto.
Qed.

Lemma byType_lookup (rooms : list Guests.RoomOption) (tid : string) :
  match byType rooms !! tid with
  | Some opt =>
      tid <> "" /\ id opt = tid /\
      (exists room,
          offers rooms tid room /\ Guests.price room = price opt /\
          Guests.typeName room = name opt) /\
      forall room, offers rooms tid room -> price opt <= Guests.price room
  | None => tid = "" \/ forall room, ~ offers rooms tid room
  end.
Proof.
  pose proof (consistent_fold
                (List.filter (fun room => bool_decide (Guests.status room = available)) rooms)
                [] ∅ consistent_empty tid) as H.
  cbn [app] in H. fold (byType rooms) in H.
  destruct (byType rooms !! tid) as [opt|].
  - destruct H as (Hnon & Hid & (r0 & Hin0 & Ht0 & Hp0 & Hn0) & Hmin).
    split; [exact Hnon|]. split; [exact Hid|]. split.
    + exists r0. split; [apply offers_filter; now split | now split].
    + intros room Hoff. apply offers_filter in Hoff as [Hin Ht]. exact (Hmin room Hin Ht).
  - destruct H as [Hempty|Hnone]; [now left | right].
    intros room Hoff. apply offers_filter in Hoff as [Hin Ht]. exact (Hnone room Hin Ht).
Qed.

(** The entry that the type selector holds for a room type carries the
    type's id and the name and price of a cheapest available room of that
    type.  A type has an entry exactly when its id is not empty and some
    available room has that type. *)
Theorem roomTypeOptions_cheapest (rooms : list Guests.RoomOption) (tid : string) :
  match byType rooms !! tid with
  | Some opt =>
      tid <> "" /\ id opt = tid /\
      (exists room,
          offers rooms tid room /\ Guests.price room = price opt /\
          Guests.typeName room = name opt) /\
      forall room, offers rooms tid room -> price opt <= Guests.price room
  | None => tid = "" \/ forall room, ~ offers rooms tid room
  end.
Proof. exact (byType_lookup rooms tid). Qed.

Lemma find_unique (rooms : list Guests.RoomOption) room :
  List.NoDup (map Guests.id rooms) -> In room rooms ->
  find (fun r => bool_decide (Guests.id r = Guests.id room)) rooms = Some room.
Proof.
  induction rooms as [|r rooms IH]; intros Hnd Hin; [destruct Hin|].
  cbn [map] in Hnd. apply NoDup_cons_iff in Hnd as [Hnotin Hnd].
  cbn [find]. destruct Hin as [->|Hin].
  - now rewrite bool_decide_eq_true_2.
  - rewrite bool_decide_eq_false_2; [now apply IH|].
    intros Heq. apply Hnotin. rewrite Heq. now apply in_map.
Qed.

(** The two selectors agree, and what is picked is what is booked.  The
    rooms offered for the selected type are the available rooms of that
    type; a type with a non-empty id is in the type selector exactly when
    that list is not empty; and when the room ids are distinct, picking one
    of the offered rooms makes it the room that [handleAddGuest] books. *)
Theorem offered_room_is_booked (st : Guests.State) :
  (forall room,
      In room (availableRoomsForSelectedType st) <->
      offers (Guests.rooms_list st) (Guests.selectedRoomTypeId st) room) /\
  (Guests.selectedRoomTypeId st <> "" ->
   (is_Some (byType (Guests.rooms_list st) !! Guests.selectedRoomTypeId st) <->
    availableRoomsForSelectedType st <> [])) /\
  (forall room,
      List.NoDup (map Guests.id (Guests.rooms_list st)) ->
      In room (availableRoomsForSelectedType st) ->
      Guests.selectedRoomId st = Guests.id room -> Guests.id room <> "" ->
      Guests.selectedRoom st = Some room /\ Guests.status room = available /\
      Guests.typeId room = Guests.selectedRoomTypeId st).
Proof.
  assert (Hmem : forall room,
             In room (availableRoomsForSelectedType st) <->
             offers (Guests.rooms_list st) (Guests.selectedRoomTypeId st) room).
  { intros room. unfold availableRoomsForSelectedType, offers.
    rewrite filter_In, andb_true_iff, !bool_decide_eq_true. tauto. }
  split; [exact Hmem|]. split.
  - intros Hnon.
    pose proof (byType_lookup (Guests.rooms_list st)
                  (Guests.selectedRoomTypeId st)) as H.
    split.
    + intros [opt Hopt]. rewrite Hopt in H.
      destruct H as (_ & _ & (room & Hoff & _) & _).
      apply Hmem in Hoff. intros Hnil. rewrite Hnil in Hoff. destruct Hoff.
    + intros Hne. destruct (byType _ !! _) as [opt|]; [eauto|].
      destruct H as [Hempty|Hnone]; [contradiction|].
      exfalso. apply Hne.
      destruct (availableRoomsForSelectedType st) as [|room l] eqn:Hl; [reflexivity|].
      exfalso. apply (Hnone room). apply Hmem. rewrite ?Hl. now left.
  - intros room Hnd Hin Hsel Hid. apply Hmem in Hin as (Hin & Hst & Hty).
    split; [|now split]. unfold Guests.selectedRoom. rewrite Hsel.
    apply truthy_nonempty in Hid. rewrite Hid. cbn [negb].
    now apply find_unique.
Qed.

Lemma offered_room_is_booked_witness :
  Guests.selectedRoom Scenario.state0 = Some Scenario.option101.
Proof.
  refine (proj1 (proj2 (proj2 (offered_room_is_booked Scenario.state0))
                   Scenario.option101 _ _ eq_refl _)).
  - constructor; [intros [] | constructor].
  - vm_compute. left. reflexivity.
  - discriminate.
Defined.

End RoomSelectorsFacts.

(** ** The rooms page, continued *)

Module RoomCardFacts.

Import Supabase Runtime Rooms RoomCard.

Section Grouping.

Variable tza : Z.

Lemma filed_under_truthy target reservation key :
  filed_under tza target reservation = Some key -> key <> "".
Proof.
  unfold filed_under. destruct (res_room_id reservation) as [rid|]; [|discriminate].
  destruct (Js.truthy rid) eqn:Hrid; cbn [negb orb]; [|discriminate].
  destruct (negb (Js.truthy (res_check_in reservation))
            || negb (Js.truthy (res_check_out reservation))); [discriminate|].
  destruct (within tza target reservation); [|discriminate].
  intros [= <-]. intros ->. discriminate.
Qed.

Lemma filed_under_overlapsb date room reservation :
  id room <> "" ->
  bool_decide (filed_under tza (JsDate.setHours0 tza date) reservation = Some (id room))
  = overlapsb tza date room reservation.
Proof.
  intros Hid. destruct (overlapsb tza date room reservation) eqn:Hov.
  - apply bool_decide_eq_true. apply RoomsFacts.overlaps_filed_under; [exact Hid|].
    now apply RoomsFacts.overlapsb_iff.
  - apply bool_decide_eq_false. intros Hfiled.
    apply RoomsFacts.filed_under_overlaps, RoomsFacts.overlapsb_iff in Hfiled. congruence.
Qed.

Lemma fold_file_reservation_keys target rows (m : gmap string (list ReservationSummary)) :
  (forall key l, m !! key = Some l -> key <> "" /\ l <> []) ->
  forall key l,
    fold_left (file_reservation tza target) rows m !! key = Some l ->
    key <> "" /\ l <> [].
Proof.
  revert m. induction rows as [|r rows IH]; intros m Hm; cbn [fold_left]; [exact Hm|].
  apply IH. intros key l. rewrite RoomsFacts.file_reservation_filed.
  destruct (filed_under tza target r) as [k|] eqn:Hk; [|apply Hm].
  destruct (decide (k = key)) as [->|Hne].
  - rewrite lookup_insert_eq. intros [= <-].
    split; [exact (filed_under_truthy _ _ _ Hk)|].
    intros Hnil. apply app_eq_nil in Hnil as [_ Hnil]. discriminate.
  - rewrite lookup_insert_ne by exact Hne. apply Hm.
Qed.

End Grouping.

(** The map built for a selected date groups the bookings by room: the
    list kept for a room holds exactly the bookings of that room that
    overlap the date, in the order of the query result; and the map has no
    entry with an empty list or an empty key, so a room without an
    overlapping booking has no entry at all. *)
Theorem reservationsByRoom_groups_overlapping
    (tza : Z) (rows : list ReservationRow) (date : Z) :
  (forall room,
      id room <> "" ->
      default [] (reservationsByRoom tza (Some rows) (Some date) !! id room)
      = map summary_of (List.filter (overlapsb tza date room) rows)) /\
  (forall key l,
      reservationsByRoom tza (Some rows) (Some date) !! key = Some l ->
      key <> "" /\ l <> []).
Proof.
  split.
  - intros room Hid. rewrite RoomsFacts.todaysReservations_eq. f_equal.
    apply filter_ext. intros r. now apply filed_under_overlapsb.
  - intros key l. unfold reservationsByRoom. apply fold_file_reservation_keys.
    intros k l'. rewrite lookup_empty. discriminate.
Qed.

Lemma reservationsByRoom_groups_overlapping_witness :
  default [] (reservationsByRoom RoomsScenario.WIB
                (Some [RoomsScenario.made; RoomsScenario.sari; RoomsScenario.budi])
                (Some RoomsScenario.jan20) !! id (RoomsScenario.room101 available)) = [].
Proof.
  assert (Hid : id (RoomsScenario.room101 available) <> "") by discriminate.
  rewrite (proj1 (reservationsByRoom_groups_overlapping RoomsScenario.WIB
                    [RoomsScenario.made; RoomsScenario.sari; RoomsScenario.budi]
                    RoomsScenario.jan20) (RoomsScenario.room101 available) Hid).
  vm_compute. reflexivity.
Defined.

Lemma filter_Permutation_list {A} (f : A -> bool) (l l' : list A) :
  Permutation l l' -> Permutation (List.filter f l) (List.filter f l').
Proof.
  induction 1 as [|x l l' _ IH|x y l|l l' l'' _ IH1 _ IH2]; cbn [List.filter].
  - constructor.
  - destruct (f x); [now constructor | exact IH].
  - destruct (f x), (f y); try reflexivity. apply perm_swap.
  - now transitivity (List.filter f l').
Qed.

Lemma existsb_Permutation {A} (f : A -> bool) (l l' : list A) :
  Permutation l l' -> existsb f l = existsb f l'.
Proof.
  intros Hperm. destruct (existsb f l') eqn:E'.
  - apply existsb_exists in E' as (x & Hin & Hx). apply existsb_exists.
    exists x. split; [|exact Hx]. apply (Permutation_in x (Permutation_sym Hperm) Hin).
  - destruct (existsb f l) eqn:E; [|reflexivity].
    apply existsb_exists in E as (x & Hin & Hx).
    assert (Hex : existsb f l' = true).
    { apply existsb_exists. exists x. split; [|exact Hx].
      apply (Permutation_in x Hperm Hin). }
    congruence.
Qed.

(** The status shown for a room does not depend on the order in which the
    reservations query returns the bookings. *)
Theorem display_status_order_independent
    (tza : Z) (rows rows' : list ReservationRow) (selected : option Z) (room : Room) :
  Permutation rows rows' ->
  getDisplayStatus tza (Some rows) selected room
  = getDisplayStatus tza (Some rows') selected room.
Proof.
  intros Hperm. destruct (decide (status room = cleaning)) as [Hc|Hst].
  { unfold getDisplayStatus. now destruct (decide (status room = cleaning)). }
  destruct selected as [date|].
  - rewrite !RoomsFacts.getDisplayStatus_dated by exact Hst. cbn zeta.
    set (sel := fun r => bool_decide
                  (filed_under tza (JsDate.setHours0 tza date) r = Some (id room))).
    pose proof (filter_Permutation_list sel rows rows' Hperm) as Hf.
    pose proof (existsb_Permutation
                  (fun r => bool_decide (res_booking_status r = checked_in)) _ _ Hf) as Hex.
    destruct (List.filter sel rows) as [|r l]; destruct (List.filter sel rows') as [|r' l'].
    + reflexivity.
    + apply Permutation_nil in Hf. discriminate.
    + apply Permutation_sym, Permutation_nil in Hf. discriminate.
    + now rewrite Hex.
  - unfold getDisplayStatus. now destruct (decide (status room = cleaning)).
Qed.

Lemma display_status_order_independent_witness :
  getDisplayStatus RoomsScenario.WIB
    (Some [RoomsScenario.sari; RoomsScenario.budi]) (Some RoomsScenario.jan11)
    (RoomsScenario.room101 available)
  = getDisplayStatus RoomsScenario.WIB
      (Some [RoomsScenario.budi; RoomsScenario.sari]) (Some RoomsScenario.jan11)
      (RoomsScenario.room101 available).
Proof.
  apply display_status_order_independent. apply perm_swap.
Defined.

Lemma setHours0_same_day tza d d' :
  JsDate.setHours0 tza d <= d' < JsDate.setHours0 tza d + JsDate.msPerDay ->
  JsDate.setHours0 tza d' = JsDate.setHours0 tza d.
Proof.
  unfold JsDate.setHours0. intros H.
  assert (Hday : 0 < JsDate.msPerDay) by reflexivity.
  set (q := (d + tza) / JsDate.msPerDay) in *.
  assert (Hq : (d' + tza) / JsDate.msPerDay = q).
  { symmetry. apply (Z.div_unique_pos _ _ q (d' + tza - q * JsDate.msPerDay)); lia. }
  now rewrite Hq.
Qed.

(** Only the local calendar day of the selected date counts: any instant of
    the same local day gives the same map of reservations and the same
    status for every room. *)
Theorem display_status_ignores_time_of_day
    (tza : Z) (data : option (list ReservationRow)) (d d' : Z) (room : Room) :
  JsDate.setHours0 tza d <= d' < JsDate.setHours0 tza d + JsDate.msPerDay ->
  reservationsByRoom tza data (Some d') = reservationsByRoom tza data (Some d) /\
  getDisplayStatus tza data (Some d') room = getDisplayStatus tza data (Some d) room.
Proof.
  intros Hday. pose proof (setHours0_same_day tza d d' Hday) as Heq.
  assert (Hmap : reservationsByRoom tza data (Some d') = reservationsByRoom tza data (Some d)).
  { unfold reservationsByRoom. destruct data; [now rewrite Heq | reflexivity]. }
  split; [exact Hmap|]. unfold getDisplayStatus. now rewrite Hmap.
Qed.

Lemma display_status_ignores_time_of_day_witness :
  getDisplayStatus RoomsScenario.WIB (Some [RoomsScenario.budi])
    (Some (RoomsScenario.jan11 + 50000000)) (RoomsScenario.room101 available)
  = getDisplayStatus RoomsScenario.WIB (Some [RoomsScenario.budi])
      (Some RoomsScenario.jan11) (RoomsScenario.room101 available).
Proof.
  refine (proj2 (display_status_ignores_time_of_day RoomsScenario.WIB
                   (Some [RoomsScenario.budi]) RoomsScenario.jan11
                   (RoomsScenario.jan11 + 50000000) (RoomsScenario.room101 available) _)).
  vm_compute. split; [discriminate | reflexivity].
Defined.

(** *** Which calendar days a stay is shown on *)

Lemma midnight_of_day tza s day :
  JsDate.parse_day s = Some day ->
  midnight_of tza s
  = Some (((day * JsDate.msPerDay + tza) / JsDate.msPerDay) * JsDate.msPerDay - tza).
Proof.
  intros Hday. unfold midnight_of, JsDate.getTime. rewrite Hday. reflexivity.
Qed.

(** A booking is stored with two calendar days, which are read as midnight
    UTC and then moved to local midnight.  East of Greenwich (offset from 0
    up to a day) a stay from day [ci] to day [co] is shown on the local
    days [ci] to [co], both included, so a stay of n nights is shown on
    n + 1 days.  West of Greenwich (negative offset down to a day) it is
    shown one day early, on the days [ci - 1] to [co - 1]. *)
Theorem stay_shown_on_days
    (tza : Z) (room : Room) (reservation : ReservationRow) (ci co date D : Z) :
  res_room_id reservation = Some (id room) ->
  JsDate.parse_day (res_check_in reservation) = Some ci ->
  JsDate.parse_day (res_check_out reservation) = Some co ->
  on_local_day tza date D ->
  (0 <= tza < JsDate.msPerDay ->
   (overlaps tza date room reservation <-> ci <= D <= co)) /\
  (- JsDate.msPerDay <= tza < 0 ->
   (overlaps tza date room reservation <-> ci - 1 <= D <= co - 1)).
Proof.
  intros Hroom Hci Hco Hday. unfold on_local_day in Hday.
  assert (HM : 0 < JsDate.msPerDay) by reflexivity.
  assert (Hov : overlaps tza date room reservation <->
                ((ci * JsDate.msPerDay + tza) / JsDate.msPerDay) * JsDate.msPerDay - tza
                <= D * JsDate.msPerDay - tza
                <= ((co * JsDate.msPerDay + tza) / JsDate.msPerDay) * JsDate.msPerDay - tza).
  { unfold overlaps. rewrite (midnight_of_day tza _ _ Hci), (midnight_of_day tza _ _ Hco), Hday.
    split.
    - intros (_ & a & b & [= <-] & [= <-] & Hle). exact Hle.
    - intros Hle. split; [exact Hroom|]. eexists _, _. now repeat split. }
  split; intros Htza; rewrite Hov.
  - assert (Hq : forall day, (day * JsDate.msPerDay + tza) / JsDate.msPerDay = day).
    { intros day. symmetry. apply (Z.div_unique_pos _ _ day tza); lia. }
    rewrite !Hq. nia.
  - assert (Hq : forall day, (day * JsDate.msPerDay + tza) / JsDate.msPerDay = day - 1).
    { intros day. symmetry.
      apply (Z.div_unique_pos _ _ (day - 1) (tza + JsDate.msPerDay)); lia. }
    rewrite !Hq. nia.
Qed.

Lemma stay_shown_on_days_witness :
  overlaps RoomsScenario.WIB RoomsScenario.jan11 (RoomsScenario.room101 available)
    RoomsScenario.budi <-> 19732 <= 19733 <= 19734.
Proof.
  refine (proj1 (stay_shown_on_days RoomsScenario.WIB (RoomsScenario.room101 available)
                   RoomsScenario.budi 19732 19734 RoomsScenario.jan11 19733
                   eq_refl _ _ _) _).
  - vm_compute. reflexivity.
  - vm_compute. reflexivity.
  - vm_compute. reflexivity.
  - vm_compute. split; [discriminate | reflexivity].
Defined.

(** *** Manual status update *)

Lemma status_set_update roomId s (l : list RoomRow) :
  Forall2 (status_set roomId s) l
    (map (fun r => if decide (room_id_col r = roomId)
                   then apply_room_update (mkRoomUpdate (Some s) None None) r else r) l).
Proof.
  induction l as [|r l IH]; cbn [map]; constructor; [|exact IH].
  destruct (decide (room_id_col r = roomId)) as [Heq|Hne].
  - split; [reflexivity|]. split; [reflexivity | intros Hne; contradiction].
  - split; [destruct r; reflexivity|]. split; [intros Heq; contradiction | reflexivity].
Qed.

(** A manual status update is sent once, and once more when it is
    rejected.  When the backend accepts it, at the attempt or at the retry,
    it sets the status of the rows of that room and nothing else: the two
    dates of the room stay as they were, also when the room is set to
    available, other rooms are kept whole, no booking and no transaction is
    touched and no timer is set.  When the backend rejects it both times,
    nothing is changed and the fallback text is shown, the error object not
    being an [Error]. *)
Theorem updateRoomStatus_sets_status_only (roomId : string) (s : RoomStatus) (w : World) :
  (next_verdict w = None \/
   (exists e, next_verdict w = Some e /\ hd None (tl (verdicts w)) = None) ->
   Forall2 (status_set roomId s)
     (rooms (backend w)) (rooms (backend (updateRoomStatus roomId s w))) /\
   guests (backend (updateRoomStatus roomId s w)) = guests (backend w) /\
   transactions (backend (updateRoomStatus roomId s w)) = transactions (backend w) /\
   timers (updateRoomStatus roomId s w) = timers w /\
   toasts (updateRoomStatus roomId s w)
   = toasts w ++ [mkToast toast_success "Status kamar berhasil diperbarui!"]) /\
  (forall e1 e2, next_verdict w = Some e1 -> hd None (tl (verdicts w)) = Some e2 ->
   backend (updateRoomStatus roomId s w) = backend w /\
   timers (updateRoomStatus roomId s w) = timers w /\
   verdicts (updateRoomStatus roomId s w) = tl (tl (verdicts w)) /\
   toasts (updateRoomStatus roomId s w)
   = toasts w ++ [mkToast toast_error "Gagal memperbarui status kamar."]).
Proof.
  unfold updateRoomStatus, updateStatusMutation, useMutation, next_verdict.
  unfold mbind at 1. unfold Async_bind at 1. rewrite GuestsFacts.with_retry_once.
  unfold updateStatus_mutationFn, invalidateQueries.
  destruct w as [b vs n tm ts cs inv]. cbn [verdicts fst snd].
  split.
  - intros [Hacc | (e & He & Hacc)].
    + destruct vs as [|[e|] vs]; try discriminate Hacc;
        GuestsFacts.run;
        cbn [toast snd backend timers toasts apply rooms guests transactions];
        (split; [apply status_set_update | now repeat split]).
    + destruct vs as [|[e'|] vs]; try discriminate He. cbn [tl] in Hacc.
      destruct vs as [|[e2|] vs]; try discriminate Hacc;
        GuestsFacts.run;
        cbn [toast snd backend timers toasts apply rooms guests transactions];
        (split; [apply status_set_update | now repeat split]).
  - intros e1 e2 H1 H2. destruct vs as [|[e'|] [|[e''|] vs]];
      try discriminate H1; try discriminate H2.
    GuestsFacts.run. cbn [toast snd backend timers toasts verdicts message_or tl].
    now repeat split.
Qed.

Lemma updateRoomStatus_sets_status_only_witness :
  let w := Scenario.world_with (Scenario.backend_booked checked_in) [] in
  Forall2 (status_set "room-101" available)
    (rooms (Scenario.backend_booked checked_in))
    (rooms (backend (updateRoomStatus "room-101" available w))) /\
  map room_reservation_date (rooms (backend (updateRoomStatus "room-101" available w)))
  = [Some "2024-01-10"; None].
Proof.
  intros w. split.
  - exact (proj1 (proj1 (updateRoomStatus_sets_status_only "room-101" available w)
                    (or_introl eq_refl))).
  - vm_compute. reflexivity.
Defined.

(** *** The reservation that the room card puts forward *)

Lemma comes_after_false a b ta tb :
  JsDate.getTime (checkIn a) = Some ta -> JsDate.getTime (checkIn b) = Some tb ->
  comes_after a b = false -> checks_in_first a b.
Proof.
  intros Ha Hb. unfold comes_after, compare_checkIn. rewrite Ha, Hb.
  intros H. apply Z.ltb_ge in H. exists ta, tb. repeat split; try assumption. lia.
Qed.

Lemma comes_after_true a b :
  comes_after a b = true -> checks_in_first b a.
Proof.
  unfold comes_after, compare_checkIn.
  destruct (JsDate.getTime (checkIn a)) as [ta|] eqn:Ha; [|discriminate].
  destruct (JsDate.getTime (checkIn b)) as [tb|] eqn:Hb; [|discriminate].
  intros H. apply Z.ltb_lt in H. exists tb, ta. repeat split; try assumption. lia.
Qed.

Lemma checks_in_first_trans a b c :
  checks_in_first a b -> checks_in_first b c -> checks_in_first a c.
Proof.
  intros (ta & tb & Ha & Hb & Hab) (tb' & tc & Hb' & Hc & Hbc).
  assert (tb' = tb) by congruence. subst tb'.
  exists ta, tc. repeat split; try assumption. lia.
Qed.

Lemma insert_sorted_In x l y : In y (insert_sorted x l) <-> y = x \/ In y l.
Proof.
  induction l as [|z l IH]; cbn [insert_sorted].
  - cbn. intuition congruence.
  - destruct (comes_after x z); cbn [In]; [rewrite IH|]; intuition congruence.
Qed.

Lemma sort_by_checkIn_In l y : In y (sort_by_checkIn l) <-> In y l.
Proof.
  unfold sort_by_checkIn. induction l as [|x l IH]; cbn [fold_right]; [reflexivity|].
  rewrite insert_sorted_In, IH. cbn [In]. intuition congruence.
Qed.

Lemma insert_sorted_head_first x l :
  (exists t, JsDate.getTime (checkIn x) = Some t) ->
  Forall (fun y => exists t, JsDate.getTime (checkIn y) = Some t) l ->
  (forall p, head l = Some p -> forall q, In q l -> checks_in_first p q) ->
  forall p, head (insert_sorted x l) = Some p ->
  forall q, In q (insert_sorted x l) -> checks_in_first p q.
Proof.
  intros [tx Hx] Hvalid Hmin p Hp q Hq.
  assert (Hxx : checks_in_first x x) by (exists tx, tx; repeat split; try assumption; lia).
  destruct l as [|y l]; cbn [insert_sorted] in Hp, Hq.
  - injection Hp as <-. destruct Hq as [<-|[]]. exact Hxx.
  - apply Forall_cons_iff in Hvalid as [[ty Hy] Hvalid].
    assert (Hyy : checks_in_first y y) by (exists ty, ty; repeat split; try assumption; lia).
    destruct (comes_after x y) eqn:Hcmp.
    + injection Hp as <-. destruct Hq as [<-|Hq]; [exact Hyy|].
      apply insert_sorted_In in Hq as [->|Hq].
      * now apply comes_after_true.
      * apply (Hmin y eq_refl). now right.
    + injection Hp as <-. pose proof (comes_after_false _ _ _ _ Hx Hy Hcmp) as Hxy.
      destruct Hq as [<-|[<-|Hq]]; [exact Hxx | exact Hxy |].
      apply (checks_in_first_trans _ _ _ Hxy). apply (Hmin y eq_refl). now right.
Qed.

Lemma sort_by_checkIn_head_first l :
  Forall (fun y => exists t, JsDate.getTime (checkIn y) = Some t) l ->
  forall p, head (sort_by_checkIn l) = Some p ->
  forall q, In q l -> checks_in_first p q.
Proof.
  intros Hvalid p Hp q Hq. apply (proj2 (sort_by_checkIn_In l q)) in Hq. revert p Hp q Hq.
  unfold sort_by_checkIn. induction l as [|x l IH]; cbn [fold_right].
  - intros p Hp. discriminate.
  - apply Forall_cons_iff in Hvalid as [Hx Hvalid].
    apply insert_sorted_head_first; [exact Hx | | exact (IH Hvalid)].
    apply List.Forall_forall. intros y Hy.
    exact (proj1 (List.Forall_forall _ _) Hvalid y (proj1 (sort_by_checkIn_In l y) Hy)).
Qed.

Lemma overlapsb_checkIn_valid tza date room r :
  overlapsb tza date room r = true ->
  exists t, JsDate.getTime (checkIn (summary_of r)) = Some t.
Proof.
  intros H. apply RoomsFacts.overlapsb_iff in H as (_ & a & b & Ha & _).
  unfold midnight_of in Ha. cbn [summary_of checkIn].
  destruct (JsDate.getTime (res_check_in r)) as [t|]; [eauto | discriminate].
Qed.

(** The reservation that a room card puts forward for the selected date is
    one of the bookings of the room that overlap the date, and none of them
    checks in before it, whatever the statuses are; there is none exactly
    when no booking of the room overlaps the date.  (A room's id is never
    empty.) *)
Theorem primaryReservation_checks_in_first
    (tza : Z) (rows : list ReservationRow) (date : Z) (room : Room) :
  id room <> "" ->
  match primaryReservation tza (Some rows) (Some date) room with
  | Some p =>
      (exists r, In r rows /\ overlaps tza date room r /\ p = summary_of r) /\
      forall r, In r rows -> overlaps tza date room r -> checks_in_first p (summary_of r)
  | None => forall r, In r rows -> ~ overlaps tza date room r
  end.
Proof.
  intros Hid. unfold primaryReservation, todaysReservations.
  assert (Hlist : default [] (reservationsByRoom tza (Some rows) (Some date) !! id room)
                  = map summary_of (List.filter (overlapsb tza date room) rows)).
  { rewrite RoomsFacts.todaysReservations_eq. f_equal.
    apply filter_ext. intros r. now apply filed_under_overlapsb. }
  rewrite Hlist. set (L := map summary_of (List.filter (overlapsb tza date room) rows)).
  assert (Hvalid : Forall (fun y => exists t, JsDate.getTime (checkIn y) = Some t) L).
  { apply List.Forall_forall. intros y Hy. apply in_map_iff in Hy as (r & <- & Hr).
    apply filter_In in Hr as [_ Hr]. exact (overlapsb_checkIn_valid _ _ _ _ Hr). }
  assert (HinL : forall r, In r rows -> overlaps tza date room r -> In (summary_of r) L).
  { intros r Hin Hov. apply in_map, filter_In. split; [exact Hin|].
    now apply RoomsFacts.overlapsb_iff. }
  destruct (head (sort_by_checkIn L)) as [p|] eqn:Hp.
  - split.
    + assert (Hin : In p L).
      { apply sort_by_checkIn_In. destruct (sort_by_checkIn L); [discriminate|].
        injection Hp as ->. now left. }
      apply in_map_iff in Hin as (r & <- & Hr). apply filter_In in Hr as [Hin Hr].
      exists r. split; [exact Hin|]. split; [now apply RoomsFacts.overlapsb_iff | reflexivity].
    + intros r Hin Hov.
      exact (sort_by_checkIn_head_first L Hvalid p Hp _ (HinL r Hin Hov)).
  - intros r Hin Hov. pose proof (HinL r Hin Hov) as HL.
    apply sort_by_checkIn_In in HL. destruct (sort_by_checkIn L); [destruct HL | discriminate].
Qed.

Lemma primaryReservation_checks_in_first_witness :
  primaryReservation RoomsScenario.WIB
    (Some [RoomsScenario.budi; RoomsScenario.made]) (Some RoomsScenario.jan11)
    (RoomsScenario.room101 available) = Some (summary_of RoomsScenario.made) /\
  checks_in_first (summary_of RoomsScenario.made) (summary_of RoomsScenario.budi).
Proof.
  assert (Hid : id (RoomsScenario.room101 available) <> "") by discriminate.
  pose proof (primaryReservation_checks_in_first RoomsScenario.WIB
                [RoomsScenario.budi; RoomsScenario.made] RoomsScenario.jan11
                (RoomsScenario.room101 available) Hid) as H.
  assert (Hp : primaryReservation RoomsScenario.WIB
                 (Some [RoomsScenario.budi; RoomsScenario.made]) (Some RoomsScenario.jan11)
                 (RoomsScenario.room101 available) = Some (summary_of RoomsScenario.made))
    by (vm_compute; reflexivity).
  rewrite Hp in H. split; [exact Hp|].
  apply (proj2 H RoomsScenario.budi); [now left|].
  apply RoomsFacts.overlapsb_iff. vm_compute. reflexivity.
Defined.

End RoomCardFacts.
